(** * SISTEMACHAMADOS: a shallow embedding of the helpdesk application

    The development follows the Python sources under [tickets/]:
    - [wapi.py]    the WhatsApp client wrapper (group listing, the 30 second
                   cache, sending);
    - [utils.py]   ticket serialisation, broadcast, e-mail and phone numbers;
    - [models.py]  the ticket and recipient records;
    - [views.py]   the status update, the ticket-action handler, the
                   permission gates and the reports aggregation; the JSON
                   endpoints, the dashboard querysets, the search, the page
                   of one ticket and the filing of a ticket;
    - [forms.py]   the recipient form;
    - [consumers.py] the websocket consumer.

    Part I holds the definitions, Part II the theorems about them. *)

From Stdlib Require Import String Ascii List ZArith QArith Bool Lia Lqa DecimalString.
From Stdlib Require Import Sorted Permutation.
From stdpp Require Import base option gmap sets strings.
Import ListNotations.

Local Open Scope string_scope.
Local Open Scope list_scope.

(* ===================================================================== *)
(** * Part I: definitions                                                  *)
(* ===================================================================== *)

(** ** Python values, exceptions and string helpers *)

Module Py.

(** The exception classes the sources raise or catch.  [JSONDecodeError] is
    the one [requests] raises from [Response.json()]: it derives from both
    [RequestException] and [ValueError]. *)
Inductive exn : Type :=
| RequestException
| JSONDecodeError
| ValueError (msg : string)
| TypeError
| KeyError
| AttributeError
| PermissionDenied
| Http404
| ValidationError (msg : string)
| MailError.

(** [isinstance(e, requests.RequestException)] *)
Definition is_RequestException (e : exn) : bool :=
  match e with
  | RequestException | JSONDecodeError => true
  | _ => false
  end.

(** [isinstance(e, ValueError)] *)
Definition is_ValueError (e : exn) : bool :=
  match e with
  | ValueError _ | JSONDecodeError => true
  | _ => false
  end.

(** A call either returns a value or raises. *)
Inductive result (A : Type) : Type :=
| Ok (a : A)
| Raise (e : exn).
Arguments Ok {A} a.
Arguments Raise {A} e.

Definition returns {A} (r : result A) : bool :=
  match r with Ok _ => true | Raise _ => false end.

#[local] Set Warnings "-register-all".

(** What [json.loads] produces: [None], a boolean, an [int], a finite
    [float], a string, a list or a dict.  A dict keeps its insertion order,
    which is the order Python iterates it in. *)
Inductive json : Type :=
| JNull
| JBool (b : bool)
| JNum (n : Z)
| JFloat (x : Q)
| JStr (s : string)
| JArr (items : list json)
| JObj (fields : list (string * json)).

(** Python truth value testing. *)
Definition truthy (v : json) : bool :=
  match v with
  | JNull => false
  | JBool b => b
  | JNum n => negb (n =? 0)%Z
  | JFloat x => negb (Qeq_bool x 0)
  | JStr s => negb (String.eqb s "")
  | JArr l => match l with [] => false | _ => true end
  | JObj d => match d with [] => false | _ => true end
  end.

(** [a or b] *)
Definition py_or (a b : json) : json := if truthy a then a else b.

(** [d[k]] on the fields of a dict, [None] when the key is missing. *)
Fixpoint lookup_field (k : string) (d : list (string * json)) : option json :=
  match d with
  | [] => None
  | (k', v) :: rest => if String.eqb k k' then Some v else lookup_field k rest
  end.

(** [d.get(k)]: Python's [None] is JSON's [null]. *)
Definition dict_get (k : string) (d : list (string * json)) : json :=
  match lookup_field k d with Some v => v | None => JNull end.

(** [isinstance(v, dict)] *)
Definition is_dict (v : json) : bool :=
  match v with JObj _ => true | _ => false end.

(** The characters of a string, each as a one-character string. *)
Fixpoint chars (s : string) : list string :=
  match s with
  | EmptyString => []
  | String c rest => String c EmptyString :: chars rest
  end.

(** [iter(v)]: lists yield their items, dicts their keys, strings their
    characters; [None], booleans and numbers are not iterable. *)
Definition py_iter (v : json) : option (list json) :=
  match v with
  | JArr l => Some l
  | JObj d => Some (map (fun kv => JStr (fst kv)) d)
  | JStr s => Some (map JStr (chars s))
  | JNull | JBool _ | JNum _ | JFloat _ => None
  end.

(** [v == s] for a string [s]. *)
Definition eq_str (v : json) (s : string) : bool :=
  match v with JStr s' => String.eqb s' s | _ => false end.

(** A string is its sequence of characters, each with a code below 256; the
    character classes below are Python's on that range.  The texts of
    messages that have characters beyond ASCII stand as their UTF-8 bytes. *)

(** The decimal digits among these characters. *)
Definition is_digit (c : ascii) : bool :=
  let n := nat_of_ascii c in (48 <=? n)%nat && (n <=? 57)%nat.

(** [ch.isdigit()]: the decimal digits and the superscripts two, three and
    one. *)
Definition isdigit (c : ascii) : bool :=
  let n := nat_of_ascii c in
  is_digit c || (n =? 178)%nat || (n =? 179)%nat || (n =? 185)%nat.

(** [ch.isspace()] *)
Definition is_space (c : ascii) : bool :=
  let n := nat_of_ascii c in
  ((9 <=? n)%nat && (n <=? 13)%nat) || ((28 <=? n)%nat && (n <=? 32)%nat)
  || (n =? 133)%nat || (n =? 160)%nat.

(** [ch.lower()]: the letters A to Z, and the accented capitals. *)
Definition lower_char (c : ascii) : ascii :=
  let n := nat_of_ascii c in
  if ((65 <=? n)%nat && (n <=? 90)%nat)
     || ((192 <=? n)%nat && (n <=? 222)%nat && negb (n =? 215)%nat)
  then ascii_of_nat (n + 32) else c.

Fixpoint str_filter (p : ascii -> bool) (s : string) : string :=
  match s with
  | EmptyString => EmptyString
  | String c rest => if p c then String c (str_filter p rest) else str_filter p rest
  end.

Fixpoint str_forall (p : ascii -> bool) (s : string) : bool :=
  match s with
  | EmptyString => true
  | String c rest => p c && str_forall p rest
  end.

Fixpoint str_map (f : ascii -> ascii) (s : string) : string :=
  match s with
  | EmptyString => EmptyString
  | String c rest => String (f c) (str_map f rest)
  end.

Fixpoint str_rev_onto (s acc : string) : string :=
  match s with
  | EmptyString => acc
  | String c rest => str_rev_onto rest (String c acc)
  end.

Definition str_rev (s : string) : string := str_rev_onto s EmptyString.

(** [s.lstrip()] *)
Fixpoint lstrip (s : string) : string :=
  match s with
  | EmptyString => EmptyString
  | String c rest => if is_space c then lstrip rest else s
  end.

(** [s.strip()] *)
Definition strip (s : string) : string :=
  str_rev (lstrip (str_rev (lstrip s))).

(** [s.lower()] *)
Definition lower (s : string) : string := str_map lower_char s.

(** [s.endswith(p)] *)
Definition endswith (s p : string) : bool := String.prefix (str_rev p) (str_rev s).

(** [not s] for a string. *)
Definition is_empty (s : string) : bool := String.eqb s "".

(** [str(n)] for a non-negative integer. *)
Definition str_of_nat (n : nat) : string := NilEmpty.string_of_uint (Nat.to_uint n).

(** [sep.join(parts)] *)
Fixpoint join (sep : string) (parts : list string) : string :=
  match parts with
  | [] => ""
  | [p] => p
  | p :: rest => p +:+ sep +:+ join sep rest
  end.

(** [sub in s] *)
Definition contains (sub s : string) : bool :=
  match String.index 0 sub s with Some _ => true | None => false end.

(** A text that may hold any character is the list of its code points.  The
    phone numbers are read as such, because [re] knows the digits of every
    script. *)
Definition text : Type := list N.

(** The text of a string. *)
Definition str (s : string) : text := map N_of_ascii (list_ascii_of_string s).

(** The digit zero of every script that has decimal digits (the characters
    of the general category Nd, Unicode 14.0); the nine digits that follow
    each are its digits one to nine. *)
Definition decimal_zeros : list N :=
  [ 0x30; 0x660; 0x6f0; 0x7c0; 0x966; 0x9e6; 0xa66; 0xae6; 0xb66; 0xbe6; 0xc66; 0xce6;
    0xd66; 0xde6; 0xe50; 0xed0; 0xf20; 0x1040; 0x1090; 0x17e0; 0x1810; 0x1946; 0x19d0;
    0x1a80; 0x1a90; 0x1b50; 0x1bb0; 0x1c40; 0x1c50; 0xa620; 0xa8d0; 0xa900; 0xa9d0;
    0xa9f0; 0xaa50; 0xabf0; 0xff10; 0x104a0; 0x10d30; 0x11066; 0x110f0; 0x11136;
    0x111d0; 0x112f0; 0x11450; 0x114d0; 0x11650; 0x116c0; 0x11730; 0x118e0; 0x11950;
    0x11c50; 0x11d50; 0x11da0; 0x16a60; 0x16ac0; 0x16b50; 0x1d7ce; 0x1d7d8; 0x1d7e2;
    0x1d7ec; 0x1d7f6; 0x1e140; 0x1e2f0; 0x1e950; 0x1fbf0 ]%N.

(** The class [\d] of [re] on a [str] pattern: the decimal digits of every
    script. *)
Definition is_decimal (c : N) : bool :=
  existsb (fun zero => (zero <=? c)%N && (c <? zero + 10)%N) decimal_zeros.

(** [s.startswith(p)] *)
Fixpoint text_startswith (s p : text) : bool :=
  match p, s with
  | [], _ => true
  | a :: p', b :: s' => (a =? b)%N && text_startswith s' p'
  | _ :: _, [] => false
  end.

(** [not s] for a text. *)
Definition text_is_empty (s : text) : bool :=
  match s with [] => true | _ :: _ => false end.

(** [len(s) in {a, b}] *)
Definition text_len_in (s : text) (a b : nat) : bool :=
  (length s =? a)%nat || (length s =? b)%nat.

End Py.
Import Py.

(** ** [tickets/wapi.py]: the WhatsApp client wrapper *)

Module Wapi.

Definition WAPI_INSTANCE : string := "LITE-F75JN4-FWW3NA".
Definition WAPI_BASE : string := "https://api.w-api.app/v1".
Definition WAPI_SEND_URL : string :=
  WAPI_BASE +:+ "/message/send-text?instanceId=" +:+ WAPI_INSTANCE.
Definition WAPI_GROUPS_URL : string :=
  WAPI_BASE +:+ "/groups?instanceId=" +:+ WAPI_INSTANCE.
Definition WAPI_LEGACY_GROUPS_URL : string :=
  WAPI_BASE +:+ "/whatsapp/group/list?instanceId=" +:+ WAPI_INSTANCE.
Definition WAPI_API_GROUPS_URL : string :=
  WAPI_BASE +:+ "/api/" +:+ WAPI_INSTANCE +:+ "/groups".
Definition WAPI_GET_ALL_GROUPS_URL : string :=
  WAPI_BASE +:+ "/group/get-all-groups?instanceId=" +:+ WAPI_INSTANCE.
Definition SUCCESS_STATUSES : list string := ["success"; "sent"; "ok"; "queued"].

(** A [requests.Response]: the status code and the decoded body, [None] when
    the body is not JSON. *)
Record Response : Type := mkResponse {
  status_code : Z;
  body : option json
}.

(** [raise_for_status()] raises exactly on a 4xx or 5xx status. *)
Definition is_http_error (r : Response) : bool :=
  (400 <=? status_code r)%Z && (status_code r <? 600)%Z.

(** [Response.ok]; it is also [Response.__bool__], so a response object is
    falsy when its status is an error status. *)
Definition ok (r : Response) : bool := negb (is_http_error r).

(** [not response] for a variable that is [None] or a response. *)
Definition not_response (response : option Response) : bool :=
  match response with
  | None => true
  | Some r => negb (ok r)
  end.

(** What one HTTP request comes to: a [requests.RequestException] (no
    connection, timeout) or a response. *)
Inductive fetched : Type :=
| NetworkError
| Got (r : Response).

(** The remote service during one call: the answer to a GET per URL, and the
    answer to the POST that sends a text. *)
Record Net : Type := mkNet {
  net_get : string -> fetched;
  net_post : fetched
}.

(** The requests a call made, in order. *)
Inductive http_call : Type :=
| HttpGet (url : string)
| HttpPost (url phone message : string).

Definition _normalize_destination (destination : string) : result (string * string) :=
  let normalized := strip destination in
  if is_empty normalized then
    Raise (ValueError "Destino da mensagem não pode ficar vazio.")
  else if endswith (lower normalized) "@g.us" then Ok (normalized, "group")
  else if endswith (lower normalized) "@c.us" then Ok (normalized, "contact")
  else
    let digits := str_filter isdigit normalized in
    if is_empty digits then
      Raise (ValueError "Destino inválido. Informe um número ou JID válido.")
    else Ok (digits, "contact").

(** [result.get(...)] needs a dict: on another JSON value the attribute
    lookup fails. *)
Definition _normalize_response (result : json) : Py.result (json * json) :=
  match result with
  | JObj d =>
      Ok (py_or (dict_get "status" d) (dict_get "state" d),
          py_or (dict_get "messageId" d) (dict_get "insertedId" d))
  | _ => Raise AttributeError
  end.

Definition _fetch_groups_from (net : Net) (url : string) : fetched := net_get net url.

(** The loop body of [_normalize_groups_payload] over the raw entries. *)
Fixpoint normalize_entries (groups : list json) : list json :=
  match groups with
  | [] => []
  | raw :: rest =>
      match raw with
      | JObj d =>
          let group_id := py_or (py_or (dict_get "id" d) (dict_get "jid" d)) (dict_get "chatId" d) in
          if truthy group_id then
            JObj [ ("id", group_id);
                   ("name", py_or (py_or (py_or (dict_get "subject" d) (dict_get "name" d))
                                         (dict_get "title" d)) (JStr "Sem nome"));
                   ("participantsCount",
                    py_or (py_or (dict_get "participantsCount" d) (dict_get "participants" d))
                          (dict_get "size" d)) ]
            :: normalize_entries rest
          else normalize_entries rest
      | _ => normalize_entries rest
      end
  end.

(** The value the [for raw in groups] loop iterates over. *)
Definition select_groups (payload : json) : json :=
  let result :=
    match payload with
    | JObj d => py_or (py_or (dict_get "result" d) (dict_get "data" d)) payload
    | _ => payload
    end in
  match result with
  | JObj d =>
      py_or (py_or (py_or (dict_get "groups" d) (dict_get "chats" d)) (dict_get "sessions" d))
            (JArr [])
  | JArr _ => result
  | _ => JArr []
  end.

Definition _normalize_groups_payload (payload : json) : result (list json) :=
  match py_iter (select_groups payload) with
  | None => Raise TypeError
  | Some groups => Ok (normalize_entries groups)
  end.

(** The endpoint list of [list_wapi_groups], in the order it is written. *)
Definition endpoints : list string :=
  [ WAPI_GET_ALL_GROUPS_URL; WAPI_API_GROUPS_URL; WAPI_GROUPS_URL; WAPI_LEGACY_GROUPS_URL ].

(** The [for url in endpoints] loop: [response] is the loop variable that
    survives an exception, the second component lists the URLs requested. *)
Fixpoint try_endpoints (net : Net) (urls : list string) (response : option Response)
  : option Response * list string :=
  match urls with
  | [] => (response, [])
  | url :: rest =>
      match _fetch_groups_from net url with
      | NetworkError =>
          let '(r, asked) := try_endpoints net rest response in (r, url :: asked)
      | Got r =>
          if (status_code r =? 404)%Z then
            let '(r', asked) := try_endpoints net rest (Some r) in (r', url :: asked)
          else (Some r, [url])
      end
  end.

(** [list_wapi_groups]: the URLs requested and the outcome. *)
Definition list_wapi_groups (net : Net) : list string * result (list json) :=
  let '(response, asked) := try_endpoints net endpoints None in
  (asked,
   match response with
   | None => Ok []
   | Some r =>
       if not_response response then Ok []
       else if (status_code r =? 404)%Z then Ok []
       else if is_http_error r then Raise RequestException
       else match body r with
            | None => Raise JSONDecodeError
            | Some payload => _normalize_groups_payload payload
            end
   end).

(** The module-level [_group_cache] dict with its two keys. *)
Record GroupCache : Type := mkCache {
  cache_groups : option (list json);
  cache_ts : option Q
}.

Definition empty_cache : GroupCache := mkCache None None.

(** [not groups] *)
Definition not_groups (groups : option (list json)) : bool :=
  match groups with
  | None | Some [] => true
  | Some (_ :: _) => false
  end.

(** [not cached] for the time stamp. *)
Definition not_cached (cached : option Q) : bool :=
  match cached with
  | None => true
  | Some t => Qeq_bool t 0
  end.

(** [now - cached > 30] *)
Definition expired (now : Q) (cached : option Q) : bool :=
  match cached with
  | None => true
  | Some t => negb (Qle_bool (now - t) 30)
  end.

Definition must_refetch (now : Q) (c : GroupCache) : bool :=
  not_groups (cache_groups c) || not_cached (cache_ts c) || expired now (cache_ts c).

(** [any(entry["id"] == group_id for entry in groups)] *)
Fixpoint any_group_id (group_id : string) (groups : list json) : result bool :=
  match groups with
  | [] => Ok false
  | entry :: rest =>
      match entry with
      | JObj d =>
          match lookup_field "id" d with
          | None => Raise KeyError
          | Some v => if eq_str v group_id then Ok true else any_group_id group_id rest
          end
      | _ => Raise TypeError
      end
  end.

(** The final membership test of [ensure_group_exists]. *)
Definition check_member (group_id : string) (groups : list json) : result unit :=
  match any_group_id group_id groups with
  | Raise e => Raise e
  | Ok true => Ok tt
  | Ok false => Raise (ValueError "Grupo não encontrado na sessão atual do WhatsApp.")
  end.

(** [ensure_group_exists]: the cache afterwards, the URLs requested, and the
    outcome. *)
Definition ensure_group_exists (net : Net) (now : Q) (group_id : string) (c : GroupCache)
  : GroupCache * list string * result unit :=
  if must_refetch now c then
    match list_wapi_groups net with
    | (asked, Ok groups) =>
        (mkCache (Some groups) (Some now), asked, check_member group_id groups)
    | (asked, Raise e) =>
        if is_RequestException e then
          (c, asked,
           Raise (ValueError "Não foi possível validar o grupo (verifique a sessão do WAPI)."))
        else (c, asked, Raise e)
    end
  else
    match cache_groups c with
    | Some groups => (c, [], check_member group_id groups)
    | None => (c, [], Raise TypeError)
    end.

(** [status in SUCCESS_STATUSES]: hashing a list or a dict fails. *)
Definition in_success_statuses (status : json) : result bool :=
  match status with
  | JStr s => Ok (existsb (String.eqb s) SUCCESS_STATUSES)
  | JArr _ | JObj _ => Raise TypeError
  | JNull | JBool _ | JNum _ | JFloat _ => Ok false
  end.

(** The part of [send_whatsapp_message] after the destination is settled:
    the POST and the reading of its answer. *)
Definition post_message (net : Net) (to message : string) : result json :=
  match net_post net with
  | NetworkError => Raise RequestException
  | Got response =>
      if is_http_error response then Raise RequestException
      else match body response with
           | None => Raise JSONDecodeError
           | Some result =>
               match _normalize_response result with
               | Raise e => Raise e
               | Ok (status, message_id) =>
                   match in_success_statuses status with
                   | Raise e => Raise e
                   | Ok in_set =>
                       if in_set || truthy message_id then Ok result
                       else Raise RequestException
                   end
               end
           end
  end.

(** [send_whatsapp_message]: the cache afterwards, the requests made and the
    outcome.  The token and the headers are constants of the deployment and
    are left out of the recorded request. *)
Definition send_whatsapp_message (net : Net) (now : Q) (destination message : string)
  (c : GroupCache) : GroupCache * list http_call * result json :=
  match _normalize_destination destination with
  | Raise e => (c, [], Raise e)
  | Ok (to, dest_type) =>
      let '(c', asked, checked) :=
        if String.eqb dest_type "group" then ensure_group_exists net now to c
        else (c, [], Ok tt) in
      match checked with
      | Raise e => (c', map HttpGet asked, Raise e)
      | Ok _ =>
          (c', map HttpGet asked ++ [HttpPost WAPI_SEND_URL to message],
           post_message net to message)
      end
  end.

End Wapi.

(** ** [tickets/utils.py]: phone numbers *)

Module Utils.

(** [normalize_phone_number]; [re.sub(r'\D', '', value)] keeps the decimal
    digits of every script. *)
Definition normalize_phone_number (value : text) (default_country_code : text)
  : result text :=
  if text_is_empty value then Raise (ValueError "Telefone não pode ficar vazio.")
  else
    let digits := List.filter is_decimal value in
    if text_is_empty digits then Raise (ValueError "Telefone deve conter dígitos.")
    else
      let digits := if text_startswith digits (str "00") then skipn 2 digits else digits in
      let digits :=
        if text_len_in digits 10 11 then default_country_code ++ digits else digits in
      if negb (text_len_in digits 12 13) then
        Raise (ValueError "Telefone precisa ter o código internacional (ex: 55149988208134).")
      else if negb (text_startswith digits default_country_code) then
        Raise (ValueError "Telefone deve começar com o código internacional (ex: 55...).")
      else Ok digits.

End Utils.

(** ** [tickets/models.py] *)

Module Models.

(** A row of the user table with what the views read of it: [full_name] is
    the value of [get_full_name()], [groups] the names of the user's groups.
    The anonymous user of an unauthenticated request has
    [is_authenticated = false], no group and no staff flag. *)
Record User : Type := mkUser {
  user_pk : nat;
  username : string;
  full_name : string;
  email : string;
  is_staff : bool;
  is_superuser : bool;
  is_authenticated : bool;
  groups : gset string
}.

(** [TicketStatus], [TicketUrgency] and [TicketType]: value and label. *)
Definition NEW : string := "new".
Definition IN_PROGRESS : string := "in_progress".
Definition AWAITING : string := "awaiting".
Definition RESOLVED : string := "resolved".

Definition TicketStatus_choices : list (string * string) :=
  [ (NEW, "Novo"); (IN_PROGRESS, "Em andamento");
    (AWAITING, "Aguardando resposta"); (RESOLVED, "Resolvido") ].

Definition TicketUrgency_choices : list (string * string) :=
  [ ("low", "Baixa"); ("normal", "Normal"); ("medium", "Média");
    ("high", "Alta"); ("urgent", "Urgente") ].

Definition TicketType_choices : list (string * string) :=
  [ ("incident", "Incidente"); ("request", "Solicitação");
    ("improvement", "Melhoria"); ("programado", "Programado") ].

(** [Choices.values] *)
Definition values (choices : list (string * string)) : list string := map fst choices.

(** [get_FOO_display()]: the label of the value, the value itself when it is
    no declared choice. *)
Fixpoint display (choices : list (string * string)) (value : string) : string :=
  match choices with
  | [] => value
  | (v, label) :: rest => if String.eqb v value then label else display rest value
  end.

(** A [datetime]: the calendar date and the second of the day. *)
Record datetime : Type := mkDatetime {
  dt_year : nat;
  dt_month : nat;
  dt_day : nat;
  dt_second : nat
}.

(** [Ticket]; [working_users] is the many-to-many relation, keyed by the
    user's primary key.  The [updated_at] stamp that every save refreshes is
    left out. *)
Record Ticket : Type := mkTicket {
  ticket_pk : nat;
  title : string;
  description : string;
  created_by : User;
  assigned_to : option User;
  ticket_type : string;
  status : string;
  urgency : string;
  created_at : datetime;
  resolution : option string;
  resolved_at : option datetime;
  working_users : gmap nat User
}.

Definition set_status (s : string) (t : Ticket) : Ticket :=
  mkTicket (ticket_pk t) (title t) (description t) (created_by t) (assigned_to t)
           (ticket_type t) s (urgency t) (created_at t) (resolution t) (resolved_at t)
           (working_users t).

Definition set_assigned_to (a : option User) (t : Ticket) : Ticket :=
  mkTicket (ticket_pk t) (title t) (description t) (created_by t) a
           (ticket_type t) (status t) (urgency t) (created_at t) (resolution t)
           (resolved_at t) (working_users t).

Definition set_resolution (r : option string) (t : Ticket) : Ticket :=
  mkTicket (ticket_pk t) (title t) (description t) (created_by t) (assigned_to t)
           (ticket_type t) (status t) (urgency t) (created_at t) r (resolved_at t)
           (working_users t).

Definition set_resolved_at (d : option datetime) (t : Ticket) : Ticket :=
  mkTicket (ticket_pk t) (title t) (description t) (created_by t) (assigned_to t)
           (ticket_type t) (status t) (urgency t) (created_at t) (resolution t) d
           (working_users t).

(** [ticket.working_users.add(user)] *)
Definition add_working_user (u : User) (t : Ticket) : Ticket :=
  mkTicket (ticket_pk t) (title t) (description t) (created_by t) (assigned_to t)
           (ticket_type t) (status t) (urgency t) (created_at t) (resolution t)
           (resolved_at t) (<[user_pk u := u]> (working_users t)).

(** [_copy_assigned_to_working] of migration 0009, which introduced the
    relation: every ticket that has an owner gets the owner as a working
    user. *)
Definition _copy_assigned_to_working (tickets : list Ticket) : list Ticket :=
  map (fun ticket =>
         match assigned_to ticket with
         | Some owner => add_working_user owner ticket
         | None => ticket
         end)
      tickets.

(** [Ticket._format_user] on a user that is not [None]. *)
Definition _format_user (u : User) : string :=
  if is_empty (full_name u) then username u else full_name u.

(** [Ticket.get_working_user_names]: the working users' names, and the
    owner's alone when there is no working user.  A name is dropped from the
    fallback when it is empty. *)
Definition get_working_user_names (t : Ticket) : list string :=
  let names := map (fun kv => _format_user (snd kv)) (map_to_list (working_users t)) in
  match names, assigned_to t with
  | [], Some owner =>
      let primary := _format_user owner in
      if is_empty primary then [] else [primary]
  | _, _ => names
  end.

(** [TicketEvent.EventType] *)
Definition EVENT_CREATED : string := "created".
Definition EVENT_STATUS : string := "status_change".
Definition EVENT_COMMENT : string := "comment".
Definition EVENT_WORKING_USER : string := "working_user".

Record TicketEvent : Type := mkEvent {
  ev_ticket : nat;
  ev_type : string;
  ev_description : string;
  ev_status : option string;
  ev_performed_by : option User
}.

(** [WhatsAppRecipient]; the two fields of the phone number may hold any
    character. *)
Record WhatsAppRecipient : Type := mkRecipient {
  rc_name : string;
  rc_phone_number : text;
  rc_original_input : text
}.

(** [WhatsAppRecipient.clean] *)
Definition clean (r : WhatsAppRecipient) : result WhatsAppRecipient :=
  match Utils.normalize_phone_number (rc_phone_number r) (str "55") with
  | Raise (ValueError msg) => Raise (ValidationError msg)
  | Raise e => Raise e
  | Ok normalized => Ok (mkRecipient (rc_name r) normalized (rc_phone_number r))
  end.

(** [Model.clean_fields] for the three character fields: [name] and
    [phone_number] may not be blank, and each has its maximal length. *)
Definition clean_fields (r : WhatsAppRecipient) : bool :=
  negb (is_empty (rc_name r)) && (String.length (rc_name r) <=? 120)%nat
  && negb (text_is_empty (rc_phone_number r)) && (length (rc_phone_number r) <=? 20)%nat
  && (length (rc_original_input r) <=? 32)%nat.

(** [Model.validate_unique] for the unique [phone_number]. *)
Definition phone_is_free (table : gmap nat WhatsAppRecipient) (r : WhatsAppRecipient) : bool :=
  negb (existsb (fun row => bool_decide (rc_phone_number (snd row) = rc_phone_number r))
          (map_to_list table)).

(** [Model.full_clean]: the fields are checked as they were given, then
    [clean] runs, then uniqueness is checked on the cleaned record. *)
Definition full_clean (table : gmap nat WhatsAppRecipient) (r : WhatsAppRecipient)
  : result WhatsAppRecipient :=
  match clean r with
  | Raise e => Raise e
  | Ok r' =>
      if negb (clean_fields r) then Raise (ValidationError "field")
      else if negb (phone_is_free table r') then Raise (ValidationError "unique")
      else Ok r'
  end.

(** [WhatsAppRecipient.save] of a new record: the table afterwards, the new
    row under a primary key that was not in use. *)
Definition save (table : gmap nat WhatsAppRecipient) (r : WhatsAppRecipient)
  : result (gmap nat WhatsAppRecipient) :=
  match full_clean table r with
  | Raise e => Raise e
  | Ok r' => Ok (<[fresh (dom table) := r']> table)
  end.

(** [InventoryItem], the fields of its form and who created it. *)
Record InventoryItem : Type := mkItem {
  item_name : string;
  item_category : string;
  item_asset_tag : string;
  item_serial_number : string;
  item_location : string;
  item_assigned_to : string;
  item_status : string;
  item_notes : string;
  item_created_by : option User
}.

End Models.

(** ** [tickets/forms.py]: the recipient form *)

Module Forms.
Import Utils Models.

(** [WhatsAppRecipientForm.clean_name] on the cleaned value of the field. *)
Definition clean_name (name : option string) : result string :=
  let value := strip (default "" name) in
  if is_empty value then Raise (ValidationError "Informe o nome do contato.")
  else Ok value.

(** [WhatsAppRecipientForm.clean_phone_number] *)
Definition clean_phone_number (value : option text) : result text :=
  match normalize_phone_number (default [] value) (str "55") with
  | Raise (ValueError msg) => Raise (ValidationError msg)
  | Raise e => Raise e
  | Ok digits => Ok digits
  end.

(** A bound [WhatsAppRecipientForm] after each of its two fields cleaned the
    value that was posted for it ([CharField.clean] of the framework): the
    value of the field, [None] where the field refused it. *)
Record WhatsAppRecipientForm : Type := mkRecipientForm {
  field_name : option string;
  field_phone_number : option text
}.

(** [form.is_valid()], with the instance of the form when it is valid.  The
    methods [clean_name] and [clean_phone_number] run on the fields that
    passed; the instance is built from what they return and goes through
    the model's [full_clean], which runs [WhatsAppRecipient.clean], and
    through the check of the unique phone number.  Any error makes the form
    invalid. *)
Definition recipient_form_is_valid (table : gmap nat WhatsAppRecipient)
  (form : WhatsAppRecipientForm)
  : option WhatsAppRecipient :=
  match field_name form, field_phone_number form with
  | Some name, Some phone_number =>
      match clean_name (Some name), clean_phone_number (Some phone_number) with
      | Ok name, Ok phone_number =>
          match full_clean table (mkRecipient name phone_number []) with
          | Ok instance => Some instance
          | Raise _ => None
          end
      | _, _ => None
      end
  | _, _ => None
  end.

End Forms.

(** ** [tickets/utils.py] and [tickets/views.py]: status updates *)

Module Views.
Import Models.

Definition TI_GROUP_NAME : string := "TI".
Definition TI_CHAMADOS_GROUP_JID : string := "120363421981424263@g.us".

(** [_is_ti] *)
Definition _is_ti (user : User) : bool :=
  bool_decide (TI_GROUP_NAME ∈ groups user) || is_staff user.

(** What [serialize_ticket] returns, field by field; [s_created_at] is the
    time stamp that the source renders with [isoformat()]. *)
Record SerializedTicket : Type := mkSerialized {
  s_id : nat;
  s_title : string;
  s_status : string;
  s_status_code : string;
  s_urgency : string;
  s_urgency_code : string;
  s_created_by : string;
  s_assigned_to : option string;
  s_created_at : datetime;
  s_type : string;
  s_type_code : string;
  s_responsibles : list string;
  s_responsibles_display : string
}.

Definition serialize_ticket (ticket : Ticket) : SerializedTicket :=
  let responsibles := get_working_user_names ticket in
  mkSerialized
    (ticket_pk ticket)
    (title ticket)
    (display TicketStatus_choices (status ticket))
    (status ticket)
    (display TicketUrgency_choices (urgency ticket))
    (urgency ticket)
    (_format_user (created_by ticket))
    (option_map _format_user (assigned_to ticket))
    (created_at ticket)
    (display TicketType_choices (ticket_type ticket))
    (ticket_type ticket)
    responsibles
    (match responsibles with [] => "—" | _ => join ", " responsibles end).

(** What a request does to the outside, in the order it happens. *)
Inductive effect : Type :=
| SaveTicket (t : Ticket)
| CreateEvent (e : TicketEvent)
| AddWorkingUser (ticket user : nat)
| GroupSend (group event : string) (ticket : SerializedTicket)
            (payload : option (gmap string string))
| Http (c : Wapi.http_call)
| SendMail (recipient subject message : string)
| LogException (msg : string)
| FlashMessage (level text : string).

(** What the surroundings answer during one request. *)
Record Env : Type := mkEnv {
  timezone_now : datetime;
  time_time : Q;
  channel_layer : bool;
  net : Wapi.Net;
  mail_fails : bool
}.

(** The state a request works on: the ticket object, the module-level group
    cache, and the effects so far. *)
Record World : Type := mkWorld {
  w_ticket : Ticket;
  w_cache : Wapi.GroupCache;
  w_effects : list effect
}.

(** State and exceptions. *)
Definition M (A : Type) : Type := World -> World * result A.

Definition ret {A} (a : A) : M A := fun w => (w, Ok a).

Definition bind {A B} (m : M A) (k : A -> M B) : M B :=
  fun w =>
    match m w with
    | (w', Ok a) => k a w'
    | (w', Raise e) => (w', Raise e)
    end.

Notation "x <- m ;; k" := (bind m (fun x => k))
  (at level 100, m at next level, right associativity).
Notation "m ;; k" := (bind m (fun _ => k))
  (at level 100, right associativity).

Definition emit (e : effect) : M unit :=
  fun w => (mkWorld (w_ticket w) (w_cache w) (w_effects w ++ [e]), Ok tt).

Definition get_ticket : M Ticket := fun w => (w, Ok (w_ticket w)).

Definition modify_ticket (f : Ticket -> Ticket) : M unit :=
  fun w => (mkWorld (f (w_ticket w)) (w_cache w) (w_effects w), Ok tt).

Definition when (b : bool) (m : M unit) : M unit := if b then m else ret tt.

(** [a or b] on strings. *)
Definition str_or (a b : string) : string := if is_empty a then b else a.

(** [a or b] where [a] may be [None]. *)
Definition text_or (a b : option string) : option string :=
  match a with
  | Some s => if is_empty s then b else a
  | None => b
  end.

(** [if text:] for a text that may be [None]. *)
Definition has_text (a : option string) : bool :=
  match a with
  | Some s => negb (is_empty s)
  | None => false
  end.

Definition nl : string := String (ascii_of_nat 10) EmptyString.

Definition newline_to_space (c : ascii) : ascii :=
  if Ascii.eqb c (ascii_of_nat 10) then " "%char else c.

Section Text.

(** [textwrap.shorten(text, width=..., placeholder='...')] *)
Variable shorten : string -> nat -> string.

(** [broadcast_ticket_event] *)
Definition broadcast_ticket_event (env : Env) (event_type : string)
  (payload : gmap string string) : M unit :=
  if negb (channel_layer env) then ret tt
  else
    ticket <- get_ticket ;;
    emit (GroupSend "tickets" event_type (serialize_ticket ticket)
            (if decide (payload = ∅) then None else Some payload)).

(** [send_ticket_email] *)
Definition send_ticket_email (env : Env) (recipient subject message : string) : M unit :=
  if is_empty recipient || is_empty subject || is_empty message then ret tt
  else
    emit (SendMail recipient subject message) ;;
    if mail_fails env then (fun w => (w, Raise MailError)) else ret tt.

Definition _build_whatsapp_summary (ticket : Ticket) (event_label : string)
  (extra_line : option string) : string :=
  let label := lower (strip event_label) in
  let title := shorten (strip (title ticket)) 120 in
  let description := shorten (strip (description ticket)) 160 in
  let detail :=
    shorten (strip (str_map newline_to_space
                      (match extra_line with Some l => l | None => "" end))) 180 in
  if contains "nova mensagem" label then
    "💬 Nova mensagem no chamado: " +:+ str_or detail (str_or description title)
  else if contains "status atualizado" label || contains "atualizado" label then
    "🔄 Atualizado: " +:+ str_or detail (display TicketStatus_choices (status ticket))
  else
    "🆕 Novo chamado: " +:+ title +:+ " | Mensagem: " +:+ str_or description "-".

(** [_notify_whatsapp]: only a [RequestException] is caught. *)
Definition _notify_whatsapp (env : Env) (event_label : string) (extra_line : option string)
  : M unit :=
  fun w =>
    let summary := _build_whatsapp_summary (w_ticket w) event_label extra_line in
    let '(cache, calls, sent) :=
      Wapi.send_whatsapp_message (net env) (time_time env) TI_CHAMADOS_GROUP_JID summary
        (w_cache w) in
    let w' := mkWorld (w_ticket w) cache (w_effects w ++ map Http calls) in
    match sent with
    | Ok _ => (w', Ok tt)
    | Raise e =>
        if is_RequestException e then
          emit (LogException "Nao foi possivel notificar o grupo WhatsApp") w'
        else (w', Raise e)
    end.

(** [_notify_ticket_email]: every exception of the sending is caught. *)
Definition _notify_ticket_email (env : Env) (subject body : string) : M unit :=
  fun w =>
    let recipient := email (created_by (w_ticket w)) in
    if is_empty recipient then (w, Ok tt)
    else
      match send_ticket_email env recipient subject body w with
      | (w', Ok _) => (w', Ok tt)
      | (w', Raise _) => emit (LogException "Erro ao enviar e-mail") w'
      end.

(** [_update_ticket_status]; [extra_payload] is the empty map when the
    caller passes none. *)
Definition _update_ticket_status (env : Env) (new_status : string)
  (assigned : option User) (resolution_text : option string)
  (extra_payload : gmap string string) (performed_by : option User) : M unit :=
  modify_ticket (set_status new_status) ;;
  match assigned with
  | Some _ => modify_ticket (set_assigned_to assigned)
  | None => ret tt
  end ;;
  (if String.eqb new_status RESOLVED then
     modify_ticket (fun t =>
       set_resolution (text_or resolution_text (resolution t))
         (set_resolved_at (Some (timezone_now env)) t))
   else modify_ticket (set_resolved_at None)) ;;
  ticket <- get_ticket ;;
  emit (SaveTicket ticket) ;;
  let payload : gmap string string := extra_payload ∪ {[ "status" := status ticket ]} in
  let status_display := display TicketStatus_choices (status ticket) in
  let pause_reason := extra_payload !! "pause_reason" in
  let responsible_part :=
    match assigned with
    | Some a => ["Responsável: " +:+ _format_user a]
    | None => []
    end in
  let resolution_part :=
    match resolution_text with
    | Some r => if is_empty r then [] else ["Resolução: " +:+ shorten (strip r) 200]
    | None => []
    end in
  let pause_part :=
    match pause_reason with
    | Some r => if is_empty r then [] else ["Motivo da pausa: " +:+ shorten (strip r) 200]
    | None => []
    end in
  let description_parts :=
    ["Status alterado para " +:+ status_display]
      ++ responsible_part ++ resolution_part ++ pause_part in
  emit (CreateEvent (mkEvent (ticket_pk ticket) EVENT_STATUS (join " · " description_parts)
                       (Some new_status) performed_by)) ;;
  match assigned with
  | Some a => modify_ticket (add_working_user a) ;; emit (AddWorkingUser (ticket_pk ticket) (user_pk a))
  | None => ret tt
  end ;;
  broadcast_ticket_event env "ticket_status_changed" payload ;;
  ticket <- get_ticket ;;
  let owner_part :=
    match assigned_to ticket with
    | Some o => ["Responsável: " +:+ _format_user o]
    | None => []
    end in
  let extra_lines :=
    ["Status atual: " +:+ status_display] ++ owner_part ++ resolution_part ++ pause_part in
  _notify_whatsapp env "Status atualizado" (Some (join nl extra_lines)) ;;
  _notify_ticket_email env
    ("[Chamado #" +:+ str_of_nat (ticket_pk ticket) +:+ "] Status atualizado")
    (join nl (("Status atual: " +:+ status_display) :: tl extra_lines)).

(** A request as the views read it. *)
Record Request : Type := mkRequest {
  method : string;
  user : User;
  POST : gmap string string;
  GET : gmap string string
}.

(** A bound [ResolutionForm]: whether it validates, and its cleaned text. *)
Record ResolutionForm : Type := mkResolutionForm {
  is_valid : bool;
  cleaned_resolution : string
}.

Inductive HttpResponse : Type :=
| Redirect (to : string)
| Render (template : string) (code : nat)
| HttpResponseNotAllowed
| JsonResponse (code : nat).

(** [reverse('ticket_detail', kwargs={'pk': pk})] under [tickets/urls.py]. *)
Definition reverse_ticket_detail (pk : nat) : string :=
  "/chamado/" +:+ str_of_nat pk +:+ "/".

(** [_add_working_user] for the user of the request, who is never [None]. *)
Definition _add_working_user (who : User) : M unit :=
  ticket <- get_ticket ;;
  if String.eqb (status ticket) RESOLVED then ret tt
  else
    modify_ticket (add_working_user who) ;;
    emit (AddWorkingUser (ticket_pk ticket) (user_pk who)) ;;
    emit (CreateEvent (mkEvent (ticket_pk ticket) EVENT_WORKING_USER
                         (_format_user who +:+ " passou a acompanhar o chamado")
                         None (Some who))).

(** [_handle_ticket_action]: [None] when the request carries no action that
    applies, the redirect otherwise. *)
Definition _handle_ticket_action (env : Env) (request : Request) (is_ti_user : bool)
  (resolution_form : ResolutionForm) : M (option HttpResponse) :=
  match POST request !! "action" with
  | None => ret None
  | Some action =>
      if is_empty action then ret None
      else
        ticket <- get_ticket ;;
        let next_url :=
          match POST request !! "next" with
          | Some u => if is_empty u then reverse_ticket_detail (ticket_pk ticket) else u
          | None => reverse_ticket_detail (ticket_pk ticket)
          end in
        if String.eqb action "resolve" && is_ti_user then
          if is_valid resolution_form then
            _update_ticket_status env RESOLVED None
              (Some (cleaned_resolution resolution_form)) ∅ (Some (user request)) ;;
            ret (Some (Redirect "dashboard"))
          else ret None
        else if String.eqb action "in_progress" && is_ti_user then
          _update_ticket_status env IN_PROGRESS (Some (user request)) None ∅
            (Some (user request)) ;;
          ret (Some (Redirect next_url))
        else if String.eqb action "awaiting" && is_ti_user then
          let pause_reason :=
            strip (match POST request !! "pause_reason" with Some r => r | None => "" end) in
          if is_empty pause_reason then
            emit (FlashMessage "error"
                    "Informe o motivo da pausa antes de marcar o chamado como pendente.") ;;
            ret None
          else
            _update_ticket_status env AWAITING None None
              {[ "pause_reason" := pause_reason ]} (Some (user request)) ;;
            ret (Some (Redirect next_url))
        else if String.eqb action "reopen" && String.eqb (status ticket) RESOLVED then
          _update_ticket_status env IN_PROGRESS None None ∅ (Some (user request)) ;;
          ret (Some (Redirect next_url))
        else if String.eqb action "join_work" && is_ti_user then
          let assigned :=
            match assigned_to ticket with Some owner => owner | None => user request end in
          when (negb (String.eqb (status ticket) IN_PROGRESS))
            (_update_ticket_status env IN_PROGRESS (Some assigned) None ∅
               (Some (user request))) ;;
          _add_working_user (user request) ;;
          emit (FlashMessage "success"
                  "Você agora aparece como responsável ativo por este chamado.") ;;
          ret (Some (Redirect next_url))
        else ret None
  end.

(** A bound [TicketForm]: whether it validates, and its cleaned fields. *)
Record TicketForm : Type := mkTicketForm {
  form_is_valid : bool;
  cleaned_title : string;
  cleaned_description : string;
  cleaned_urgency : string;
  cleaned_ticket_type : string
}.

(** [form.save(commit=False)] followed by [ticket.created_by = ...] and
    [ticket.save()]: the fields of the form, the defaults of the model for
    the others, the primary key and the creation time from the database. *)
Definition new_ticket (form : TicketForm) (author : User) (pk : nat) (now : datetime)
  : Ticket :=
  mkTicket pk (cleaned_title form) (cleaned_description form) author None
           (cleaned_ticket_type form) NEW (cleaned_urgency form) now None None ∅.

(** [create_ticket] behind [login_required]: the world of the new ticket when
    one was created, and the response.  Uploaded files are not modelled. *)
Definition create_ticket (env : Env) (request : Request) (form : TicketForm) (pk : nat)
  (cache : Wapi.GroupCache) : option World * result HttpResponse :=
  if negb (is_authenticated (user request)) then (None, Ok (Redirect "login"))
  else if form_is_valid form then
    let ticket := new_ticket form (user request) pk (timezone_now env) in
    let run :=
      emit (SaveTicket ticket) ;;
      emit (CreateEvent (mkEvent pk EVENT_CREATED
                           ("Chamado criado por " +:+ _format_user (created_by ticket))
                           (Some (status ticket)) (Some (created_by ticket)))) ;;
      emit (FlashMessage "success"
              "Chamado registrado! Você será redirecionado ao dashboard.") ;;
      broadcast_ticket_event env "ticket_created" ∅ ;;
      _notify_whatsapp env "Novo chamado" None ;;
      ret (Redirect "dashboard") in
    let '(w, r) := run (mkWorld ticket cache []) in (Some w, r)
  else (None, Ok (Render "ticket_form.html" 200)).

(** The worlds the application reaches: a ticket is created, then acted on
    through the ticket-action handler any number of times. *)
Inductive reachable : World -> Prop :=
| reach_created env request form pk cache w r :
    create_ticket env request form pk cache = (Some w, r) ->
    reachable w
| reach_action env request is_ti_user resolution_form w w' r :
    reachable w ->
    _handle_ticket_action env request is_ti_user resolution_form w = (w', r) ->
    reachable w'.

End Text.

(** *** The views behind the TI gate *)

(** [login_required]: an unauthenticated request is sent to the login page
    and the view is not called. *)
Definition login_required {S : Type} (view : Request -> S -> S * result HttpResponse)
  (request : Request) (s : S) : S * result HttpResponse :=
  if is_authenticated (user request) then view request s
  else (s, Ok (Redirect "login")).

Section Keys.

(** [int(raw)], by which the field of a primary key reads the key that a
    request names: [None] where [int] raises a [ValueError]. *)
Variable py_int : string -> option Z.

(** [get_object_or_404(Model, pk=raw)]: no row gives [Http404]; a key that
    [int] does not read is refused by the field with a [ValueError]. *)
Definition get_object_or_404 {A : Type} (table : gmap nat A) (raw : option string)
  : result (nat * A) :=
  match raw with
  | None => Raise Http404
  | Some key =>
      match py_int key with
      | None => Raise (ValueError "Field 'id' expected a number")
      | Some pk =>
          if (pk <? 0)%Z then Raise Http404
          else
            match table !! Z.to_nat pk with
            | Some row => Ok (Z.to_nat pk, row)
            | None => Raise Http404
            end
      end
  end.

Definition set_membership (staff : bool) (grps : gset string) (u : User) : User :=
  mkUser (user_pk u) (username u) (full_name u) (email u) staff (is_superuser u)
         (is_authenticated u) grps.

(** [manage_users] on the user table.  The new password of [reset_password]
    is no field of the rows kept here. *)
Definition manage_users_view (request : Request) (users : gmap nat User)
  : gmap nat User * result HttpResponse :=
  if negb (_is_ti (user request)) then (users, Raise PermissionDenied)
  else if String.eqb (method request) "POST" then
    match get_object_or_404 users (POST request !! "user_id") with
    | Raise e => (users, Raise e)
    | Ok (pk, target) =>
        let action := POST request !! "action" in
        let other := negb (pk =? user_pk (user request))%nat in
        let users' :=
          if bool_decide (action = Some "reset_password") then users
          else if bool_decide (action = Some "grant_ti") then
            <[pk := set_membership true ({[TI_GROUP_NAME]} ∪ groups target) target]> users
          else if bool_decide (action = Some "revoke_ti") && other then
            <[pk := set_membership (if is_superuser target then is_staff target else false)
                      (groups target ∖ {[TI_GROUP_NAME]}) target]> users
          else if bool_decide (action = Some "delete_user") && other then
            delete pk users
          else users in
        (users', Ok (Redirect "manage_users"))
    end
  else (users, Ok (Render "users_management.html" 200)).

Definition manage_users := login_required manage_users_view.

(** A bound [InventoryItemForm]. *)
Record InventoryItemForm : Type := mkItemForm {
  item_form_is_valid : bool;
  cleaned_item : InventoryItem
}.

Definition with_creator (u : User) (i : InventoryItem) : InventoryItem :=
  mkItem (item_name i) (item_category i) (item_asset_tag i) (item_serial_number i)
         (item_location i) (item_assigned_to i) (item_status i) (item_notes i) (Some u).

Definition inventory_management_view (form : InventoryItemForm) (request : Request)
  (items : list InventoryItem) : list InventoryItem * result HttpResponse :=
  if negb (_is_ti (user request)) then (items, Raise PermissionDenied)
  else if String.eqb (method request) "POST" && item_form_is_valid form then
    (items ++ [with_creator (user request) (cleaned_item form)],
     Ok (Redirect "inventory_management"))
  else (items, Ok (Render "inventory_management.html" 200)).

Definition inventory_management (form : InventoryItemForm) :=
  login_required (inventory_management_view form).

(** [finished_tickets]; the page lists the resolved tickets, which the
    response here does not carry. *)
Definition finished_tickets_view (request : Request) (tickets : list Ticket)
  : list Ticket * result HttpResponse :=
  if negb (_is_ti (user request)) then (tickets, Raise PermissionDenied)
  else (tickets, Ok (Render "finished_tickets.html" 200)).

Definition finished_tickets := login_required finished_tickets_view.

(** [whatsapp_config]: the recipient table afterwards and the response; only
    a [RequestException] of the group listing is turned into a message.
    [recipient_form.save()] saves the instance of the valid form. *)
Definition whatsapp_config_view (nt : Wapi.Net) (form : Forms.WhatsAppRecipientForm)
  (request : Request) (recipients : gmap nat WhatsAppRecipient)
  : gmap nat WhatsAppRecipient * result HttpResponse :=
  let show_page (table : gmap nat WhatsAppRecipient) :=
    match snd (Wapi.list_wapi_groups nt) with
    | Ok _ => (table, Ok (Render "whatsapp_config.html" 200))
    | Raise e =>
        if is_RequestException e then (table, Ok (Render "whatsapp_config.html" 200))
        else (table, Raise e)
    end in
  if negb (_is_ti (user request)) then (recipients, Raise PermissionDenied)
  else if String.eqb (method request) "POST" then
    if bool_decide (POST request !! "action" = Some "delete_recipient") then
      match get_object_or_404 recipients (POST request !! "recipient_id") with
      | Raise e => (recipients, Raise e)
      | Ok (pk, _) => (delete pk recipients, Ok (Redirect "whatsapp_config"))
      end
    else
      match Forms.recipient_form_is_valid recipients form with
      | Some instance =>
          match save recipients instance with
          | Raise e => (recipients, Raise e)
          | Ok table => (table, Ok (Redirect "whatsapp_config"))
          end
      | None => show_page recipients
      end
  else show_page recipients.

Definition whatsapp_config (nt : Wapi.Net) (form : Forms.WhatsAppRecipientForm) :=
  login_required (whatsapp_config_view nt form).

End Keys.

(** [whatsapp_notify_group]: both [ValueError] and [RequestException] of the
    sending end in a message and the redirect. *)
Definition whatsapp_notify_group_view (env : Env) (request : Request)
  (cache : Wapi.GroupCache) : Wapi.GroupCache * result HttpResponse :=
  if negb (_is_ti (user request)) then (cache, Raise PermissionDenied)
  else if negb (String.eqb (method request) "POST") then (cache, Ok HttpResponseNotAllowed)
  else
    let message :=
      strip (match POST request !! "message" with Some m => m | None => "" end) in
    if is_empty message then (cache, Ok (Redirect "whatsapp_config"))
    else
      let '(cache', _, sent) :=
        Wapi.send_whatsapp_message (net env) (time_time env) TI_CHAMADOS_GROUP_JID message
          cache in
      match sent with
      | Ok _ => (cache', Ok (Redirect "whatsapp_config"))
      | Raise e =>
          if is_ValueError e || is_RequestException e then
            (cache', Ok (Redirect "whatsapp_config"))
          else (cache', Raise e)
      end.

Definition whatsapp_notify_group (env : Env) := login_required (whatsapp_notify_group_view env).

(** *** [ti_reports]: the aggregation *)

(** [queryset.values(field).annotate(count=Count('id'))]: one row per value
    that occurs, with the number of tickets that have it. *)
Fixpoint bump {K : Type} `{EqDecision K} (k : K) (rows : list (K * nat)) : list (K * nat) :=
  match rows with
  | [] => [(k, 1)]
  | (k', n) :: rest =>
      if decide (k = k') then (k', S n) :: rest else (k', n) :: bump k rest
  end.

Fixpoint group_count {K : Type} `{EqDecision K} (keys : list K) : list (K * nat) :=
  match keys with
  | [] => []
  | k :: rest => bump k (group_count rest)
  end.

(** [{key: 0 for key in labels}] *)
Definition zero_counts (choices : list (string * string)) : gmap string nat :=
  list_to_map (map (fun c => (fst c, 0)) choices).

(** [for row in rows: counts[row[field]] = row['count']] *)
Definition fill_counts (counts : gmap string nat) (rows : list (string * nat))
  : gmap string nat :=
  foldl (fun acc row => <[fst row := snd row]> acc) counts rows.

Definition count_by (choices : list (string * string)) (field : Ticket -> string)
  (queryset : list Ticket) : gmap string nat :=
  fill_counts (zero_counts choices) (group_count (map field queryset)).

(** [sum(counts.values())] *)
Definition sum_counts (counts : gmap string nat) : nat :=
  map_fold (fun _ c acc => c + acc) 0 counts.

Definition date : Type := nat * nat * nat.

Definition date_of (d : datetime) : date := (dt_year d, dt_month d, dt_day d).

Definition date_leb (a b : date) : bool :=
  let '(ya, ma, da) := a in
  let '(yb, mb, db) := b in
  ((ya <? yb) || ((ya =? yb) && ((ma <? mb) || ((ma =? mb) && (da <=? db)))))%nat.

(** [TruncMonth('created_at')] *)
Definition month_of (d : datetime) : nat * nat := (dt_year d, dt_month d).

Definition month_leb (a b : nat * nat) : bool :=
  ((fst a <? fst b) || ((fst a =? fst b) && (snd a <=? snd b)))%nat.

(** [order_by('month')] on the monthly rows. *)
Fixpoint insert_row (row : (nat * nat) * nat) (rows : list ((nat * nat) * nat))
  : list ((nat * nat) * nat) :=
  match rows with
  | [] => [row]
  | r :: rest => if month_leb (fst row) (fst r) then row :: rows else r :: insert_row row rest
  end.

Definition order_by_month (rows : list ((nat * nat) * nat)) : list ((nat * nat) * nat) :=
  foldr insert_row [] rows.

(** The values the report page shows. *)
Record ReportContext : Type := mkReport {
  total_tickets : nat;
  status_counts : gmap string nat;
  urgency_counts : gmap string nat;
  type_counts : gmap string nat;
  monthly_data : list ((nat * nat) * nat);
  resolved_count : nat;
  pending_count : Z;
  status_breakdown : list (string * nat);
  urgency_breakdown : list (string * nat);
  type_breakdown : list (string * nat)
}.

Section Reports.

(** The local [_parse_date]: [Some] date when the text reads as
    [%Y-%m-%d], [None] otherwise. *)
Variable _parse_date : string -> option date.

Definition param (request : Request) (key : string) : string :=
  match GET request !! key with Some v => v | None => "" end.

(** The filtered queryset of [ti_reports]. *)
Definition report_queryset (request : Request) (tickets : list Ticket) : list Ticket :=
  let queryset := tickets in
  let queryset :=
    if is_empty (param request "status") then queryset
    else List.filter (fun t => String.eqb (status t) (param request "status")) queryset in
  let queryset :=
    if is_empty (param request "urgency") then queryset
    else List.filter (fun t => String.eqb (urgency t) (param request "urgency")) queryset in
  let queryset :=
    if is_empty (param request "ticket_type") then queryset
    else List.filter (fun t => String.eqb (ticket_type t) (param request "ticket_type"))
           queryset in
  let queryset :=
    match _parse_date (param request "from_date") with
    | Some start_date =>
        List.filter (fun t => date_leb start_date (date_of (created_at t))) queryset
    | None => queryset
    end in
  match _parse_date (param request "to_date") with
  | Some end_date => List.filter (fun t => date_leb (date_of (created_at t)) end_date) queryset
  | None => queryset
  end.

Definition breakdown (choices : list (string * string)) (counts : gmap string nat)
  : list (string * nat) :=
  map (fun c => (snd c, counts !!! fst c)) choices.

Definition report_context (request : Request) (tickets : list Ticket) : ReportContext :=
  let queryset := report_queryset request tickets in
  let status_counts := count_by TicketStatus_choices status queryset in
  let urgency_counts := count_by TicketUrgency_choices urgency queryset in
  let type_counts := count_by TicketType_choices ticket_type queryset in
  let monthly_data :=
    order_by_month (group_count (map (fun t => month_of (created_at t)) queryset)) in
  let total_tickets := length queryset in
  let resolved_count :=
    match status_counts !! RESOLVED with Some n => n | None => 0 end in
  mkReport total_tickets status_counts urgency_counts type_counts monthly_data
    resolved_count (Z.of_nat total_tickets - Z.of_nat resolved_count)%Z
    (breakdown TicketStatus_choices status_counts)
    (breakdown TicketUrgency_choices urgency_counts)
    (breakdown TicketType_choices type_counts).

Definition ti_reports_view (request : Request) (tickets : list Ticket)
  : list Ticket * result HttpResponse :=
  if negb (_is_ti (user request)) then (tickets, Raise PermissionDenied)
  else (tickets, Ok (Render "reports.html" 200)).

Definition ti_reports := login_required ti_reports_view.

End Reports.

End Views.

(** ** Notions the statements use *)

Module Spec.
Import Wapi.

(** The loop of [list_wapi_groups] passes over a URL: the request failed or
    the answer was a 404. *)
Definition skips (net : Net) (url : string) : bool :=
  match net_get net url with
  | NetworkError => true
  | Got r => (status_code r =? 404)%Z
  end.

(** One step of following the responses: an answer replaces what was kept,
    a failed request keeps it. *)
Definition keep_response (net : Net) (acc : option Response) (url : string)
  : option Response :=
  match net_get net url with Got r => Some r | NetworkError => acc end.

(** The response obtained last among the URLs asked, [None] when none of
    them answered. *)
Definition last_response (net : Net) (asked : list string) : option Response :=
  fold_left (keep_response net) asked None.

(** The first of the keys that the entry has at all, whatever its value. *)
Fixpoint first_present (keys : list string) (d : list (string * json)) : option json :=
  match keys with
  | [] => None
  | k :: rest =>
      match lookup_field k d with
      | Some v => Some v
      | None => first_present rest d
      end
  end.

(** The first of the keys whose value is truthy, [None] when there is none. *)
Fixpoint first_truthy (keys : list string) (d : list (string * json)) : json :=
  match keys with
  | [] => JNull
  | k :: rest => if truthy (dict_get k d) then dict_get k d else first_truthy rest d
  end.

Definition id_keys : list string := ["id"; "jid"; "chatId"].
Definition name_keys : list string := ["subject"; "name"; "title"].

(** A raw entry that is kept: a dict with a truthy id. *)
Definition has_id (raw : json) : bool :=
  match raw with
  | JObj d => truthy (first_truthy id_keys d)
  | _ => false
  end.

(** [entry] is the record made from the raw dict [raw]. *)
Definition group_record (raw entry : json) : Prop :=
  exists d group_id name count,
    raw = JObj d
    /\ entry = JObj [("id", group_id); ("name", name); ("participantsCount", count)]
    /\ group_id = first_truthy id_keys d
    /\ truthy group_id = true
    /\ (Forall (fun k => lookup_field k d = None) name_keys -> name = JStr "Sem nome").

(** The keys of a dict. *)
Definition keys_of (v : json) : list string :=
  match v with JObj d => map fst d | _ => [] end.

(** The digit string of a phone number after a leading 00 is stripped and
    the country code 55 is put before a local number of 10 or 11 digits. *)
Definition prepared (value : text) : text :=
  let digits := List.filter is_decimal value in
  let digits := if text_startswith digits (str "00") then skipn 2 digits else digits in
  if text_len_in digits 10 11 then str "55" ++ digits else digits.

(** The normalized form: 12 or 13 digits that start with 55. *)
Definition is_normalized (phone : text) : bool :=
  text_len_in phone 12 13 && forallb is_decimal phone && text_startswith phone (str "55").

End Spec.

(** ** The counts of a report, for the statements about it *)

Module Counting.
Import Models Views.

(** The number of tickets of a queryset whose field has the value [key]. *)
Definition tickets_with (field : Ticket -> string) (key : string) (queryset : list Ticket)
  : nat :=
  length (List.filter (fun t => String.eqb (field t) key) queryset).

(** The count a grouped result holds for [k], if it has a row for it. *)
Fixpoint row_of {K : Type} `{EqDecision K} (k : K) (rows : list (K * nat)) : option nat :=
  match rows with
  | [] => None
  | (k', n) :: rest => if decide (k = k') then Some n else row_of k rest
  end.

(** The sum of the counts of a grouped result. *)
Fixpoint rows_total {K : Type} (rows : list (K * nat)) : nat :=
  match rows with
  | [] => 0
  | (_, n) :: rest => n + rows_total rest
  end.

End Counting.

(** ** The stages of a status update, for the statements about it *)

Module Stages.
Import Models Views.

(** The ticket after the field assignments of [_update_ticket_status], as it
    is saved. *)
Definition staged (env : Env) (new_status : string) (assigned : option User)
  (resolution_text : option string) (t : Ticket) : Ticket :=
  let t := set_status new_status t in
  let t := match assigned with Some _ => set_assigned_to assigned t | None => t end in
  if String.eqb new_status RESOLVED then
    set_resolution (text_or resolution_text (resolution t))
      (set_resolved_at (Some (timezone_now env)) t)
  else set_resolved_at None t.

(** The ticket after [working_users.add]. *)
Definition joined (assigned : option User) (t : Ticket) : Ticket :=
  match assigned with Some a => add_working_user a t | None => t end.

(** The effects up to the broadcast. *)
Definition recorded (env : Env) (new_status : string) (assigned : option User)
  (extra_payload : gmap string string) (saved : Ticket) (ev : TicketEvent) : list effect :=
  [SaveTicket saved; CreateEvent ev]
  ++ match assigned with
     | Some a => [AddWorkingUser (ticket_pk saved) (user_pk a)]
     | None => []
     end
  ++ (if channel_layer env then
        [GroupSend "tickets" "ticket_status_changed"
           (serialize_ticket (joined assigned saved))
           (Some (extra_payload ∪ {[ "status" := new_status ]}))]
      else []).

(** The e-mail step on a ticket. *)
Definition mailed (env : Env) (t : Ticket) (subject body : string) : list effect :=
  if is_empty (email (created_by t)) then []
  else SendMail (email (created_by t)) subject body
       :: (if mail_fails env then [LogException "Erro ao enviar e-mail"] else []).

(** The end of the update, from what the WhatsApp client answered. *)
Definition finish (env : Env) (t : Ticket) (before : list effect) (subject body : string)
  (answer : Wapi.GroupCache * list Wapi.http_call * result json) : World * result unit :=
  let '(cache, calls, sent) := answer in
  match sent with
  | Ok _ =>
      (mkWorld t cache (before ++ map Http calls ++ mailed env t subject body), Ok tt)
  | Raise e =>
      if is_RequestException e then
        (mkWorld t cache
           (before ++ map Http calls
              ++ LogException "Nao foi possivel notificar o grupo WhatsApp"
              :: mailed env t subject body), Ok tt)
      else (mkWorld t cache (before ++ map Http calls), Raise e)
  end.

(** An action leaves the status alone or moves it into [allowed]. *)
Definition moves_within {A : Type} (allowed : list string) (m : M A) : Prop :=
  forall w, status (w_ticket (fst (m w))) = status (w_ticket w)
            \/ In (status (w_ticket (fst (m w)))) allowed.

(** The statuses the ticket-action handler assigns. *)
Definition handler_targets : list string := [RESOLVED; IN_PROGRESS; AWAITING].

(** A view raised [PermissionDenied]. *)
Definition denied {S : Type} (out : S * result HttpResponse) : Prop :=
  snd out = Raise PermissionDenied.

Definition is_group_send (e : effect) : bool :=
  match e with GroupSend _ _ _ _ => true | _ => false end.

Definition is_send_mail (e : effect) : bool :=
  match e with SendMail _ _ _ => true | _ => false end.

End Stages.

(** ** Sample data, for the statements at concrete inputs *)

Module Samples.
Import Wapi Models Views.

(** The endpoints are all down: every request fails. *)
Definition net_down : Net := mkNet (fun _ => NetworkError) NetworkError.

(** A 404 on the first endpoint, a list of groups on the second. *)
Definition net_second : Net :=
  mkNet (fun url =>
           if String.eqb url WAPI_GET_ALL_GROUPS_URL then Got (mkResponse 404 None)
           else if String.eqb url WAPI_API_GROUPS_URL then
             Got (mkResponse 200
                    (Some (JObj [("groups", JArr [JObj [("id", JStr "1@g.us");
                                                        ("subject", JStr "TI")]])])))
           else NetworkError)
        NetworkError.

(** A cache filled ten seconds ago with one group. *)
Definition warm_cache : GroupCache :=
  mkCache (Some [JObj [("id", JStr "1@g.us"); ("name", JStr "TI");
                       ("participantsCount", JNull)]])
          (Some 100%Q).

(** A stand-in for [textwrap.shorten] that keeps the text. *)
Definition keep_text (text : string) (width : nat) : string := text.

Definition alice : User :=
  mkUser 1 "alice" "Alice Souza" "alice@example.com" false false true ∅.

Definition bob : User :=
  mkUser 2 "bob" "Bob Lima" "bob@example.com" false false true {[ "TI" ]}.

Definition visitor : User := mkUser 0 "" "" "" false false false ∅.

Definition noon : datetime := mkDatetime 2025 3 14 3600.

Definition ticket0 : Ticket :=
  mkTicket 7 "Impressora nao responde" "A impressora parou." alice None
           "incident" NEW "normal" noon None None ∅.

(** The TI group is listed by the first endpoint and the send is accepted. *)
Definition net_ok : Net :=
  mkNet (fun _ => Got (mkResponse 200
                         (Some (JObj [("groups",
                                       JArr [JObj [("id", JStr TI_CHAMADOS_GROUP_JID);
                                                   ("subject", JStr "TI Chamados")]])]))))
        (Got (mkResponse 200 (Some (JObj [("status", JStr "success")])))).

(** No endpoint can be reached. *)
Definition net_off : Net := mkNet (fun _ => NetworkError) NetworkError.

(** The service answers the POST with a page that is no JSON. *)
Definition net_page : Net := mkNet (fun _ => NetworkError) (Got (mkResponse 200 None)).

Definition env_ok : Env := mkEnv noon 1000 true net_ok false.
Definition env_no_layer : Env := mkEnv noon 1000 false net_ok false.
Definition env_off : Env := mkEnv noon 1000 true net_off false.

Definition world0 : World := mkWorld ticket0 empty_cache [].

Definition post_of (fields : list (string * string)) : gmap string string :=
  list_to_map fields.

Definition request_of (who : User) (fields : list (string * string)) : Request :=
  mkRequest "POST" who (post_of fields) ∅.

Definition no_form : ResolutionForm := mkResolutionForm false "".

(** [int] on the keys of the examples: a text of plain digits is read as its
    number. *)
Definition int_of_digits (raw : string) : option Z :=
  if is_empty raw then None
  else option_map (fun digits => Z.of_nat (Nat.of_uint digits)) (NilEmpty.uint_of_string raw).

(** The same reading for a key with blanks around it, which [int] passes
    over. *)
Definition int_of_padded (raw : string) : option Z := int_of_digits (strip raw).

(** A local number of eleven digits, written in Arabic-Indic digits. *)
Definition local_number : text :=
  [0x661; 0x664; 0x669; 0x669; 0x668; 0x668; 0x662; 0x660; 0x661; 0x663; 0x664]%N.

(** Bob takes the ticket, with everything in reach. *)
Definition run_taken : World * result unit :=
  _update_ticket_status keep_text env_ok IN_PROGRESS (Some bob) None ∅ (Some bob) world0.

(** Bob resolves the ticket where no channel layer is configured. *)
Definition run_no_layer : World * result unit :=
  _update_ticket_status keep_text env_no_layer RESOLVED None (Some "Cabo trocado") ∅
    (Some bob) world0.

(** Bob resolves the ticket while the WhatsApp service cannot be reached. *)
Definition run_off : World * result unit :=
  _update_ticket_status keep_text env_off RESOLVED None (Some "Cabo trocado") ∅
    (Some bob) world0.

(** Three tickets: one new, two resolved. *)
Definition ticket1 : Ticket :=
  mkTicket 8 "Rede lenta" "A rede caiu." alice (Some bob)
           "incident" RESOLVED "high" noon (Some "Switch trocado") (Some noon) ∅.

Definition ticket2 : Ticket :=
  mkTicket 9 "Novo monitor" "Pedido de monitor." alice (Some bob)
           "request" RESOLVED "low" noon (Some "Entregue") (Some noon) ∅.

Definition tickets3 : list Ticket := [ticket0; ticket1; ticket2].


Definition form0 : TicketForm :=
  mkTicketForm true "Impressora nao responde" "A impressora parou." "normal" "incident".

(** Alice files a ticket. *)
Definition created_world : World :=
  match fst (create_ticket keep_text env_ok (request_of alice []) form0 7 empty_cache) with
  | Some w => w
  | None => world0
  end.

(** Bob then takes it through the handler. *)
Definition acted_world : World :=
  fst (_handle_ticket_action keep_text env_ok (request_of bob [("action", "in_progress")])
         true no_form created_world).

End Samples.

(** ** [login_required] for the views whose answer is modelled in full *)

Module Gated.
Import Models Views.

(** The answer of a view behind [login_required]: the redirect to the login
    page, or what the view itself answers. *)
Inductive gated (A : Type) : Type :=
| ToLogin
| Served (a : A).
Arguments ToLogin {A}.
Arguments Served {A} a.

Definition login_gate {S A : Type} (view : Request -> S -> S * result A)
  (request : Request) (s : S) : S * result (gated A) :=
  if is_authenticated (user request) then
    match view request s with
    | (s', Ok a) => (s', Ok (Served a))
    | (s', Raise e) => (s', Raise e)
    end
  else (s, Ok ToLogin).

End Gated.

(** ** [tickets/views.py]: the JSON endpoints of the WhatsApp client *)

Module Api.
Import Wapi Models Views Gated.

(** [_destination_type] *)
Definition _destination_type (destination : string) : string :=
  if negb (is_empty destination) && endswith (lower destination) "@g.us" then "group"
  else "contact".

(** A request to the service whose text is any JSON value: the endpoints
    pass on what the body of their request holds. *)
Inductive api_call : Type :=
| ApiGet (url : string)
| ApiPost (url phone : string) (message : json).

Definition of_http_call (call : http_call) : api_call :=
  match call with
  | HttpGet url => ApiGet url
  | HttpPost url phone message => ApiPost url phone (JStr message)
  end.

(** [_normalize_destination] on a JSON value: [(destination or "")] is the
    empty string for a falsy value, and [.strip()] exists on strings only. *)
Definition normalize_destination_value (destination : json) : result (string * string) :=
  if truthy destination then
    match destination with
    | JStr s => _normalize_destination s
    | _ => Raise AttributeError
    end
  else _normalize_destination "".

(** [len(message or "") if message else 0] of [_log_send]: a number and
    [True] have no length. *)
Definition log_send_fails (message : json) : bool :=
  match message with
  | JNum _ | JFloat _ | JBool _ => truthy message
  | _ => false
  end.

(** The POST of [send_whatsapp_message] and the reading of its answer, with
    the two calls of [_log_send]. *)
Definition post_value (net : Net) (message : json) : result json :=
  match net_post net with
  | NetworkError => Raise RequestException
  | Got response =>
      if is_http_error response then
        if log_send_fails message then Raise TypeError else Raise RequestException
      else match body response with
           | None => Raise JSONDecodeError
           | Some result =>
               match _normalize_response result with
               | Raise e => Raise e
               | Ok (status, message_id) =>
                   match in_success_statuses status with
                   | Raise e => Raise e
                   | Ok in_set =>
                       if log_send_fails message then Raise TypeError
                       else if in_set || truthy message_id then Ok result
                       else Raise RequestException
                   end
               end
           end
  end.

(** [send_whatsapp_message] as the endpoints call it, on JSON values. *)
Definition send_whatsapp_value (net : Net) (now : Q) (destination message : json)
  (c : GroupCache) : GroupCache * list api_call * result json :=
  match normalize_destination_value destination with
  | Raise e => (c, [], Raise e)
  | Ok (to, dest_type) =>
      let '(c', asked, checked) :=
        if String.eqb dest_type "group" then ensure_group_exists net now to c
        else (c, [], Ok tt) in
      match checked with
      | Raise e => (c', map ApiGet asked, Raise e)
      | Ok _ =>
          (c', map ApiGet asked ++ [ApiPost WAPI_SEND_URL to message], post_value net message)
      end
  end.

(** The body of a request: bytes that are no UTF-8 text, for which
    [decode] raises a [UnicodeDecodeError] (a [ValueError]) with the given
    text, or the decoded text. *)
Inductive Body : Type :=
| NotUtf8 (msg : string)
| Utf8 (text : string).

(** What an endpoint answers.  [error] is the text of the answer where the
    view, or a [ValueError] of the client, fixes it; the text of an
    exception of the HTTP library is not modelled. *)
Inductive ApiResponse : Type :=
| NotAllowed (permitted : list string)
| Failure (code : nat) (error : option string)
| Sent (to : json) (kind : string) (response : json)
| GroupList (groups : list json).

(** [str(exc)] *)
Definition error_text (e : exn) : option string :=
  match e with
  | ValueError msg => Some msg
  | _ => None
  end.

(** What the endpoints work on: the group cache of the client, and the
    requests made to the service. *)
Record Session : Type := mkSession {
  s_cache : GroupCache;
  s_calls : list api_call
}.

Section Endpoints.

(** [json.loads]: [None] for a text that is no JSON document. *)
Variable json_loads : string -> option json.

(** [json.loads(request.body.decode("utf-8") or "{}")] *)
Definition read_payload (body : Body) : result (option json) :=
  match body with
  | NotUtf8 msg => Raise (ValueError msg)
  | Utf8 text => Ok (json_loads (if is_empty text then "{}" else text))
  end.

(** [whatsapp_send] *)
Definition whatsapp_send_view (env : Env) (body : Body) (request : Request) (s : Session)
  : Session * result ApiResponse :=
  if negb (_is_ti (user request)) then (s, Raise PermissionDenied)
  else if negb (String.eqb (method request) "POST") then (s, Ok (NotAllowed ["POST"]))
  else
    match read_payload body with
    | Raise e => (s, Raise e)
    | Ok None => (s, Ok (Failure 400 (Some "JSON inválido")))
    | Ok (Some (JObj d)) =>
        let to := dict_get "to" d in
        let message := dict_get "message" d in
        if negb (truthy to) || negb (truthy message) then
          (s, Ok (Failure 400 (Some "Informe 'to' e 'message'.")))
        else
          let '(cache, calls, sent) :=
            send_whatsapp_value (net env) (time_time env) to message (s_cache s) in
          let s' := mkSession cache (s_calls s ++ calls) in
          match sent with
          | Ok result =>
              match to with
              | JStr destination => (s', Ok (Sent to (_destination_type destination) result))
              | _ => (s', Raise AttributeError)
              end
          | Raise e =>
              if is_ValueError e then (s', Ok (Failure 400 (error_text e)))
              else if is_RequestException e then (s', Ok (Failure 502 (error_text e)))
              else (s', Raise e)
          end
    | Ok (Some _) => (s, Raise AttributeError)
    end.

Definition whatsapp_send (env : Env) (body : Body) := login_gate (whatsapp_send_view env body).

(** [whatsapp_send_ti_chamados]: here the [RequestException] clause comes
    first. *)
Definition whatsapp_send_ti_chamados_view (env : Env) (body : Body) (request : Request)
  (s : Session) : Session * result ApiResponse :=
  if negb (_is_ti (user request)) then (s, Raise PermissionDenied)
  else if negb (String.eqb (method request) "POST") then (s, Ok (NotAllowed ["POST"]))
  else
    match read_payload body with
    | Raise e => (s, Raise e)
    | Ok None => (s, Ok (Failure 400 (Some "JSON inválido")))
    | Ok (Some (JObj d)) =>
        let message := dict_get "message" d in
        if negb (truthy message) then
          (s, Ok (Failure 400 (Some "Campo 'message' é obrigatório.")))
        else
          let '(cache, calls, sent) :=
            send_whatsapp_value (net env) (time_time env) (JStr TI_CHAMADOS_GROUP_JID) message
              (s_cache s) in
          let s' := mkSession cache (s_calls s ++ calls) in
          match sent with
          | Ok result => (s', Ok (Sent (JStr TI_CHAMADOS_GROUP_JID) "group" result))
          | Raise e =>
              if is_RequestException e then (s', Ok (Failure 502 (error_text e)))
              else if is_ValueError e then (s', Ok (Failure 400 (error_text e)))
              else (s', Raise e)
          end
    | Ok (Some _) => (s, Raise AttributeError)
    end.

Definition whatsapp_send_ti_chamados (env : Env) (body : Body) :=
  login_gate (whatsapp_send_ti_chamados_view env body).

End Endpoints.

(** [whatsapp_groups] *)
Definition whatsapp_groups_view (env : Env) (request : Request) (s : Session)
  : Session * result ApiResponse :=
  if negb (_is_ti (user request)) then (s, Raise PermissionDenied)
  else if negb (String.eqb (method request) "GET") then (s, Ok (NotAllowed ["GET"]))
  else
    let '(asked, listed) := list_wapi_groups (net env) in
    let s' := mkSession (s_cache s) (s_calls s ++ map ApiGet asked) in
    match listed with
    | Ok groups => (s', Ok (GroupList groups))
    | Raise e =>
        if is_RequestException e then (s', Ok (Failure 502 (error_text e)))
        else (s', Raise e)
    end.

Definition whatsapp_groups (env : Env) := login_gate (whatsapp_groups_view env).

End Api.

(** ** [tickets/views.py]: the dashboard querysets *)

Module Dashboard.
Import Models Views.

(** [_filtered_dashboard_queryset]: [created_by=user] compares primary
    keys. *)
Definition _filtered_dashboard_queryset (user : User) (tickets : list Ticket)
  : bool * list Ticket :=
  let is_ti_user := _is_ti user in
  (is_ti_user,
   if is_ti_user then List.filter (fun t => negb (String.eqb (status t) RESOLVED)) tickets
   else List.filter (fun t => (user_pk (created_by t) =? user_pk user)%nat) tickets).

(** [_build_urgency_counts] *)
Definition _build_urgency_counts (queryset : list Ticket) : gmap string nat :=
  count_by TicketUrgency_choices urgency queryset.

End Dashboard.

(** ** [tickets/views.py]: the search over resolved tickets *)

Module Search.
Import Models Views Gated.

(** A [Q] object as [_build_search_query] makes it: the lookups joined by
    [|], each a field and the text the field must contain.  The [Q] without
    a lookup is falsy, and filtering by it keeps every row. *)
Definition Query : Type := list (string * string).

(** [_build_search_query] *)
Definition _build_search_query (texts : list string) : Query :=
  flat_map
    (fun text =>
       let clean_text := strip text in
       if is_empty clean_text then []
       else [ ("title", clean_text); ("description", clean_text);
              ("resolution", clean_text) ])
    texts.

(** The value of a field that a lookup names; [resolution] may be NULL. *)
Definition field_text (field : string) (t : Ticket) : option string :=
  if String.eqb field "title" then Some (title t)
  else if String.eqb field "description" then Some (description t)
  else resolution t.

(** A row of [related_tickets]. *)
Record Suggestion : Type := mkSuggestion {
  sg_title : string;
  sg_urgency : string;
  sg_resolved_at : option datetime;
  sg_resolution : option string;
  sg_url : string
}.

Definition suggest (t : Ticket) : Suggestion :=
  mkSuggestion (title t) (display TicketUrgency_choices (urgency t)) (resolved_at t)
    (resolution t) ("/chamado/" +:+ str_of_nat (ticket_pk t) +:+ "/").

Section Lookup.

(** [field__icontains=text] as the database decides it, on a value that is
    not NULL. *)
Variable icontains : string -> string -> bool.

(** [order_by] on the named fields, as the database orders the rows. *)
Variable order_by : list string -> list Ticket -> list Ticket.

Definition matches (query : Query) (t : Ticket) : bool :=
  existsb
    (fun lookup =>
       match field_text (fst lookup) t with
       | Some value => icontains value (snd lookup)
       | None => false
       end)
    query.

(** [queryset.filter(query)] *)
Definition filter_query (query : Query) (queryset : list Ticket) : list Ticket :=
  match query with
  | [] => queryset
  | _ => List.filter (matches query) queryset
  end.

(** [finished_tickets] with the context of its page: the tickets listed
    and the query text. *)
Definition finished_tickets_page (request : Request) (tickets : list Ticket)
  : list Ticket * result (list Ticket * string) :=
  if negb (_is_ti (user request)) then (tickets, Raise PermissionDenied)
  else
    let query_text := default "" (GET request !! "q") in
    let resolved := List.filter (fun t => String.eqb (status t) RESOLVED) tickets in
    let search_query := _build_search_query [query_text] in
    let found :=
      match search_query with
      | [] => resolved
      | _ => filter_query search_query resolved
      end in
    (tickets, Ok (order_by ["-resolved_at"; "-created_at"] found, query_text)).

Definition finished_tickets_listing := login_gate finished_tickets_page.

(** [related_tickets] *)
Definition related_tickets_view (pk : nat) (request : Request) (tickets : list Ticket)
  : list Ticket * result (list Suggestion) :=
  match List.find (fun t => (ticket_pk t =? pk)%nat) tickets with
  | None => (tickets, Raise Http404)
  | Some ticket =>
      if negb (_is_ti (user request)) then (tickets, Raise PermissionDenied)
      else
        let source_texts :=
          match GET request !! "q" with
          | Some search_text => if is_empty search_text then [] else [strip search_text]
          | None => []
          end in
        let source_texts :=
          match source_texts with
          | [] =>
              [title ticket]
                ++ (if is_empty (description ticket) then [] else [description ticket])
                ++ match resolution ticket with
                   | Some r => if is_empty r then [] else [r]
                   | None => []
                   end
          | _ => source_texts
          end in
        let query := _build_search_query source_texts in
        let suggestions :=
          firstn 6
            (order_by ["-resolved_at"]
               (List.filter (fun t => negb (ticket_pk t =? ticket_pk ticket)%nat)
                  (filter_query query
                     (List.filter (fun t => String.eqb (status t) RESOLVED) tickets)))) in
        (tickets, Ok (map suggest suggestions))
  end.

Definition related_tickets (pk : nat) := login_gate (related_tickets_view pk).

End Lookup.

End Search.

(** ** [tickets/consumers.py]: the websocket consumer *)

Module Consumers.
Import Models.

(** The groups of a channel layer are a map from the name of a group to the
    channel names in it. *)
Definition members (layer : gmap string (gset string)) (group : string) : gset string :=
  default ∅ (layer !! group).

(** [channel_layer.group_add] *)
Definition group_add (group channel : string) (layer : gmap string (gset string))
  : gmap string (gset string) :=
  <[group := {[channel]} ∪ members layer group]> layer.

(** [channel_layer.group_discard] *)
Definition group_discard (group channel : string) (layer : gmap string (gset string))
  : gmap string (gset string) :=
  match layer !! group with
  | Some channels => <[group := channels ∖ {[channel]}]> layer
  | None => layer
  end.

(** [TicketConsumer._is_ti_user] *)
Definition _is_ti_user (user : User) : bool :=
  bool_decide ("TI" ∈ groups user) || is_staff user.

Inductive socket : Type :=
| Closed
| Accepted.

(** [TicketConsumer.connect]; the consumer has no channel layer ([None])
    where none is configured. *)
Definition connect (user : User) (channel_name : string)
  (layer : option (gmap string (gset string)))
  : option (gmap string (gset string)) * result socket :=
  if negb (is_authenticated user) then (layer, Ok Closed)
  else
    let is_ti := _is_ti_user user in
    match layer with
    | None => (None, Raise AttributeError)
    | Some groups =>
        let groups := group_add "tickets" channel_name groups in
        let groups := if is_ti then group_add "ti" channel_name groups else groups in
        (Some groups, Ok Accepted)
    end.

(** [TicketConsumer.disconnect] *)
Definition disconnect (channel_name : string) (layer : option (gmap string (gset string)))
  : option (gmap string (gset string)) * result unit :=
  match layer with
  | None => (None, Raise AttributeError)
  | Some groups =>
      (Some (group_discard "ti" channel_name (group_discard "tickets" channel_name groups)),
       Ok tt)
  end.

(** The layers that connecting and disconnecting sockets lead to. *)
Inductive served : gmap string (gset string) -> Prop :=
| served_empty : served ∅
| served_connect user channel_name groups groups' reply :
    served groups ->
    connect user channel_name (Some groups) = (Some groups', reply) ->
    served groups'
| served_disconnect channel_name groups groups' reply :
    served groups ->
    disconnect channel_name (Some groups) = (Some groups', reply) ->
    served groups'.

End Consumers.

(** ** [tickets/views.py]: the page of one ticket *)

Module Detail.
Import Wapi Models Views Gated.

(** [TicketMessage] *)
Record TicketMessage : Type := mkMessage {
  msg_ticket : nat;
  msg_author : User;
  msg_text : string;
  msg_is_internal : bool;
  msg_created_at : datetime
}.

(** A bound [TicketMessageForm]: whether it validates, and its cleaned
    fields; the uploaded files by their names. *)
Record TicketMessageForm : Type := mkMessageForm {
  message_form_is_valid : bool;
  cleaned_text : string;
  cleaned_internal_note : bool;
  cleaned_attachments : list string
}.

(** What a request to the page does, in the order it happens: the effects
    of the action handler and of the notifications, the saving of a message,
    its broadcast with the payload the view builds, and the attachments. *)
Inductive detail_effect : Type :=
| Core (e : effect)
| SaveMessage (m : TicketMessage)
| MessageSend (group event : string) (ticket : SerializedTicket)
              (author text : string) (created_at : datetime)
| CreateAttachment (ticket : nat) (file : string) (m : TicketMessage).

(** The ticket table, the group cache of the WhatsApp client, and what was
    done so far. *)
Record State : Type := mkState {
  d_tickets : list Ticket;
  d_cache : GroupCache;
  d_log : list detail_effect
}.

(** The row of the ticket after the request worked on it. *)
Definition store_ticket (t : Ticket) (tickets : list Ticket) : list Ticket :=
  map (fun row => if (ticket_pk row =? ticket_pk t)%nat then t else row) tickets.

Section Page.

Variable shorten : string -> nat -> string.

(** [ticket_detail] *)
Definition ticket_detail_view (env : Env) (pk : nat) (resolution_form : ResolutionForm)
  (message_form : TicketMessageForm) (request : Request) (s : State)
  : State * result HttpResponse :=
  match List.find (fun t => (ticket_pk t =? pk)%nat) (d_tickets s) with
  | None => (s, Ok (Render "ticket_not_found.html" 404))
  | Some ticket =>
      if negb (_is_ti (user request)
               || (user_pk (created_by ticket) =? user_pk (user request))%nat)
      then (s, Raise PermissionDenied)
      else
        let is_ti_user := _is_ti (user request) in
        if String.eqb (method request) "POST" then
          let '(w1, handled) :=
            _handle_ticket_action shorten env request is_ti_user resolution_form
              (mkWorld ticket (d_cache s) []) in
          let s1 :=
            mkState (store_ticket (w_ticket w1) (d_tickets s)) (w_cache w1)
              (d_log s ++ map Core (w_effects w1)) in
          match handled with
          | Raise e => (s1, Raise e)
          | Ok (Some response) => (s1, Ok response)
          | Ok None =>
              if message_form_is_valid message_form then
                let message :=
                  mkMessage (ticket_pk (w_ticket w1)) (user request)
                    (cleaned_text message_form)
                    (if is_ti_user then cleaned_internal_note message_form else false)
                    (timezone_now env) in
                let author := _format_user (user request) in
                let sent :=
                  if channel_layer env then
                    [MessageSend "tickets" "ticket_message" (serialize_ticket (w_ticket w1))
                       author (msg_text message) (msg_created_at message)]
                  else [] in
                let notify :=
                  when (_is_ti (user request))
                    (_notify_ticket_email env
                       ("[Chamado #" +:+ str_of_nat (ticket_pk (w_ticket w1))
                          +:+ "] Mensagem da TI")
                       (join nl ["Mensagem de " +:+ author;
                                 shorten (strip (msg_text message)) 400])) ;;
                  _notify_whatsapp shorten env "Nova mensagem no chamado"
                    (Some ("📩 Mensagem de " +:+ author +:+ ":" +:+ nl
                             +:+ shorten (strip (msg_text message)) 200)) in
                let '(w2, notified) := notify (mkWorld (w_ticket w1) (w_cache w1) []) in
                let s2 :=
                  mkState (d_tickets s1) (w_cache w2)
                    (d_log s1 ++ [SaveMessage message] ++ sent ++ map Core (w_effects w2)) in
                match notified with
                | Raise e => (s2, Raise e)
                | Ok _ =>
                    (mkState (d_tickets s2) (d_cache s2)
                       (d_log s2
                          ++ map (fun file => CreateAttachment (msg_ticket message) file message)
                               (cleaned_attachments message_form)),
                     Ok (Redirect (reverse_ticket_detail pk)))
                end
              else (s1, Ok (Render "ticket_detail.html" 200))
          end
        else (s, Ok (Render "ticket_detail.html" 200))
  end.

Definition ticket_detail (env : Env) (pk : nat) (resolution_form : ResolutionForm)
  (message_form : TicketMessageForm) :=
  login_required (ticket_detail_view env pk resolution_form message_form).

End Page.

End Detail.

(** ** [tickets/views.py]: filing a ticket, with its uploaded files *)

Module Filing.
Import Wapi Models Views.

(** What filing a ticket does, in the order it happens: the effects that the
    status updates have too, and the attachments created for the files. *)
Inductive filing_effect : Type :=
| Did (e : effect)
| AttachFile (ticket : nat) (file : string).

(** The group cache of the WhatsApp client, and what was done so far. *)
Record Desk : Type := mkDesk {
  f_cache : GroupCache;
  f_log : list filing_effect
}.

Section Form.

Variable shorten : string -> nat -> string.

(** [create_ticket]; [attachments] stands for
    [request.FILES.getlist('attachments')], the files by their names, and
    [pk] for the primary key the database gives the new ticket. *)
Definition create_ticket_view (env : Env) (form : TicketForm) (attachments : list string)
  (pk : nat) (request : Request) (s : Desk) : Desk * result HttpResponse :=
  if form_is_valid form then
    let ticket := new_ticket form (user request) pk (timezone_now env) in
    let saved :=
      f_log s ++ [Did (SaveTicket ticket)] ++ map (AttachFile (ticket_pk ticket)) attachments in
    let run :=
      emit (CreateEvent (mkEvent (ticket_pk ticket) EVENT_CREATED
                           ("Chamado criado por " +:+ _format_user (created_by ticket))
                           (Some (status ticket)) (Some (created_by ticket)))) ;;
      emit (FlashMessage "success"
              "Chamado registrado! Você será redirecionado ao dashboard.") ;;
      broadcast_ticket_event env "ticket_created" ∅ ;;
      _notify_whatsapp shorten env "Novo chamado" None ;;
      ret (Redirect "dashboard") in
    let '(w, r) := run (mkWorld ticket (f_cache s) []) in
    (mkDesk (w_cache w) (saved ++ map Did (w_effects w)), r)
  else (s, Ok (Render "ticket_form.html" 200)).

Definition create_ticket (env : Env) (form : TicketForm) (attachments : list string)
  (pk : nat) :=
  login_required (create_ticket_view env form attachments pk).

End Form.

End Filing.

(** ** [tickets/views.py]: the summary of the filters of a report *)

Module Filters.
Import Models Views.

(** The list [active_filters] of [ti_reports]: a line for every filter that
    was given, with the label of a declared value. *)
Definition active_filters (request : Request) : list string :=
  (if is_empty (param request "status") then []
   else ["Status: " +:+ display TicketStatus_choices (param request "status")])
  ++ (if is_empty (param request "urgency") then []
      else ["Urgência: " +:+ display TicketUrgency_choices (param request "urgency")])
  ++ (if is_empty (param request "ticket_type") then []
      else ["Tipo: " +:+ display TicketType_choices (param request "ticket_type")])
  ++ (if is_empty (param request "from_date") then []
      else ["A partir de " +:+ param request "from_date"])
  ++ (if is_empty (param request "to_date") then []
      else ["Até " +:+ param request "to_date"]).

(** The entry [filters_summary] of the context. *)
Definition filters_summary (request : Request) : string :=
  match active_filters request with
  | [] => "Nenhum filtro aplicado."
  | lines => join " • " lines
  end.

End Filters.

(** ** Further notions the statements use *)

Module Notions.

(** A string that does not begin with white space. *)
Definition tight (s : string) : Prop :=
  match s with
  | EmptyString => True
  | String c _ => is_space c = false
  end.

(** No two rows of the recipient table have the same phone number. *)
Definition distinct_phones (table : gmap nat Models.WhatsAppRecipient) : Prop :=
  forall i j ri rj,
    table !! i = Some ri -> table !! j = Some rj ->
    Models.rc_phone_number ri = Models.rc_phone_number rj -> i = j.

(** A ticket has the text in its title, its description or its resolution. *)
Definition mentions (icontains : string -> string -> bool) (needle : string)
  (t : Models.Ticket) : bool :=
  icontains (Models.title t) needle || icontains (Models.description t) needle
  || match Models.resolution t with
     | Some r => icontains r needle
     | None => false
     end.

(** Between two sessions a text was posted to the service. *)
Definition posted_since (before after : Api.Session) : Prop :=
  exists calls url phone message,
    Api.s_calls after = Api.s_calls before ++ calls
    /\ In (Api.ApiPost url phone message) calls.

(** An action leaves a part of the ticket as it is. *)
Definition keeps {A B : Type} (part : Models.Ticket -> A) (m : Views.M B) : Prop :=
  forall w, part (Views.w_ticket (fst (m w))) = part (Views.w_ticket w).

(** What identifies a ticket and what its creator wrote. *)
Definition filed (t : Models.Ticket)
  : nat * Models.User * string * string * string * string * Models.datetime :=
  (Models.ticket_pk t, Models.created_by t, Models.title t, Models.description t,
   Models.urgency t, Models.ticket_type t, Models.created_at t).

(** The rows of a monthly series stand in the order of their months. *)
Definition by_month (rows : list ((nat * nat) * nat)) : Prop :=
  StronglySorted (fun a b => Views.month_leb (fst a) (fst b) = true) rows.

(** The number of tickets of a queryset that were created in a month. *)
Definition created_in (month : nat * nat) (queryset : list Models.Ticket) : nat :=
  length (List.filter
            (fun t => bool_decide (Views.month_of (Models.created_at t) = month)) queryset).

End Notions.

(* ===================================================================== *)
(** * Part II: theorems                                                    *)
(* ===================================================================== *)

Module WapiFacts.
Import Wapi Spec Samples.

Lemma try_endpoints_response (net : Net) (urls : list string) (resp : option Response) :
  fst (try_endpoints net urls resp)
  = fold_left (keep_response net) (snd (try_endpoints net urls resp)) resp.
Proof.
  revert resp. induction urls as [|url rest IH]; intros resp; cbn; [reflexivity|].
  unfold _fetch_groups_from.
  destruct (net_get net url) as [|r] eqn:Hget.
  - specialize (IH resp). destruct (try_endpoints net rest resp) as [r' asked].
    cbn in *. unfold keep_response at 2. now rewrite Hget.
  - destruct (status_code r =? 404)%Z.
    + specialize (IH (Some r)). destruct (try_endpoints net rest (Some r)) as [r' asked].
      cbn in *. unfold keep_response at 2. now rewrite Hget.
    + cbn. unfold keep_response. now rewrite Hget.
Qed.

Lemma try_endpoints_asked (net : Net) (urls : list string) (resp : option Response) :
  exists rest : list string,
    urls = snd (try_endpoints net urls resp) ++ rest
    /\ Forall (fun url => skips net url = true)
              (removelast (snd (try_endpoints net urls resp)))
    /\ (rest <> [] ->
        exists url r, last (snd (try_endpoints net urls resp)) = Some url
                      /\ net_get net url = Got r /\ status_code r <> 404%Z).
Proof.
  revert resp. induction urls as [|url more IH]; intros resp.
  - exists []. cbn. split; [reflexivity|]. split; [constructor|]. intros H; now elim H.
  - cbn. unfold _fetch_groups_from.
    assert (Hskip : forall resp',
      skips net url = true ->
      exists rest : list string,
        url :: more = (url :: snd (try_endpoints net more resp')) ++ rest
        /\ Forall (fun u => skips net u = true)
                  (removelast (url :: snd (try_endpoints net more resp')))
        /\ (rest <> [] ->
            exists u r, last (url :: snd (try_endpoints net more resp')) = Some u
                        /\ net_get net u = Got r /\ status_code r <> 404%Z)).
    { intros resp' Hs. destruct (IH resp') as (rest & Heq & Hall & Hstop).
      exists rest. split; [cbn; now rewrite <- Heq|]. split.
      - destruct (snd (try_endpoints net more resp')) as [|a asked] eqn:Hasked.
        + constructor.
        + cbn [removelast]. constructor; [exact Hs|exact Hall].
      - intros Hne. destruct (Hstop Hne) as (u & r & Hlast & Hget & H404).
        exists u, r. split; [|now split].
        destruct (snd (try_endpoints net more resp')) as [|a asked]; [discriminate|].
        now rewrite last_cons_cons. }
    destruct (net_get net url) as [|r] eqn:Hget.
    + destruct (Hskip resp) as (rest & H); [unfold skips; now rewrite Hget|].
      destruct (try_endpoints net more resp) as [r' asked]. cbn in *. now exists rest.
    + destruct (status_code r =? 404)%Z eqn:H404.
      * destruct (Hskip (Some r)) as (rest & H); [unfold skips; now rewrite Hget|].
        destruct (try_endpoints net more (Some r)) as [r' asked]. cbn in *. now exists rest.
      * exists more. cbn. split; [reflexivity|]. split; [constructor|].
        intros _. exists url, r. split; [reflexivity|]. split; [exact Hget|].
        now apply Z.eqb_neq.
Qed.

Lemma keep_response_errors (net : Net) (asked : list string) (resp : option Response) :
  (forall url, In url asked -> net_get net url = NetworkError) ->
  fold_left (keep_response net) asked resp = resp.
Proof.
  revert resp. induction asked as [|url rest IH]; intros resp Hall; cbn; [reflexivity|].
  unfold keep_response at 2. rewrite (Hall url) by now left.
  apply IH. intros u Hu. apply Hall. now right.
Qed.

Lemma list_wapi_groups_asked (net : Net) :
  fst (list_wapi_groups net) = snd (try_endpoints net endpoints None).
Proof.
  unfold list_wapi_groups. now destruct (try_endpoints net endpoints None).
Qed.

Lemma list_wapi_groups_empty_on (net : Net) (r : Response) :
  fst (try_endpoints net endpoints None) = Some r ->
  status_code r = 404%Z ->
  snd (list_wapi_groups net) = Ok [].
Proof.
  unfold list_wapi_groups. destruct (try_endpoints net endpoints None) as [resp asked].
  cbn. intros -> H404. cbn. unfold ok, is_http_error. rewrite H404. reflexivity.
Qed.

(** C1: [list_wapi_groups] asks the four group-list endpoints in their fixed
    order (get-all-groups, api/instance/groups, groups, the legacy list),
    passes over an endpoint whose request fails or answers 404, and stops at
    the first endpoint that answers anything else; when no endpoint answers,
    or the last answer obtained is a 404, it returns the empty list. *)
Theorem list_wapi_groups_endpoint_order (net : Net) :
  endpoints = [ WAPI_GET_ALL_GROUPS_URL; WAPI_API_GROUPS_URL;
                WAPI_GROUPS_URL; WAPI_LEGACY_GROUPS_URL ]
  /\ (exists rest : list string,
        endpoints = fst (list_wapi_groups net) ++ rest
        /\ Forall (fun url => skips net url = true) (removelast (fst (list_wapi_groups net)))
        /\ (rest <> [] ->
            exists url r, last (fst (list_wapi_groups net)) = Some url
                          /\ net_get net url = Got r /\ status_code r <> 404%Z))
  /\ ((forall url, In url endpoints -> net_get net url = NetworkError) ->
      snd (list_wapi_groups net) = Ok [])
  /\ (forall r, last_response net (fst (list_wapi_groups net)) = Some r ->
                status_code r = 404%Z ->
                snd (list_wapi_groups net) = Ok []).
Proof.
  split; [reflexivity|]. rewrite list_wapi_groups_asked.
  destruct (try_endpoints_asked net endpoints None) as (rest & Heq & Hall & Hstop).
  split; [now exists rest|].
  pose proof (try_endpoints_response net endpoints None) as Hresp.
  split.
  - intros Hdown.
    rewrite keep_response_errors in Hresp.
    + unfold list_wapi_groups.
      destruct (try_endpoints net endpoints None) as [resp asked]. cbn in *.
      now subst resp.
    + intros url Hin. apply Hdown. rewrite Heq. apply in_or_app. now left.
  - intros r Hlast H404. apply (list_wapi_groups_empty_on net r); [|exact H404].
    rewrite Hresp. exact Hlast.
Qed.

Lemma list_wapi_groups_endpoint_order_witness :
  snd (list_wapi_groups net_down) = Ok [].
Proof.
  apply (proj1 (proj2 (proj2 (list_wapi_groups_endpoint_order net_down)))).
  intros url _. reflexivity.
Defined.

Example list_wapi_groups_second_endpoint :
  list_wapi_groups net_second
  = ([WAPI_GET_ALL_GROUPS_URL; WAPI_API_GROUPS_URL],
     Ok [JObj [("id", JStr "1@g.us"); ("name", JStr "TI"); ("participantsCount", JNull)]]).
Proof. vm_compute. reflexivity. Qed.

(** A server error ends the search as well, and gives the empty list: the
    response object is falsy. *)
Example list_wapi_groups_server_error :
  list_wapi_groups (mkNet (fun _ => Got (mkResponse 500 None)) NetworkError)
  = ([WAPI_GET_ALL_GROUPS_URL], Ok []).
Proof. vm_compute. reflexivity. Qed.

(** *** [_normalize_groups_payload] *)

Lemma py_or_truthy (a b : json) : truthy a = true -> py_or a b = a.
Proof. unfold py_or. now intros ->. Qed.

Lemma py_or_falsy (a b : json) : truthy a = false -> py_or a b = b.
Proof. unfold py_or. now intros ->. Qed.

Lemma id_chain_truthy (d : list (string * json)) :
  truthy (py_or (py_or (dict_get "id" d) (dict_get "jid" d)) (dict_get "chatId" d))
  = truthy (first_truthy id_keys d).
Proof.
  cbn. unfold py_or.
  destruct (truthy (dict_get "id" d)) eqn:H1;
    destruct (truthy (dict_get "jid" d)) eqn:H2;
    destruct (truthy (dict_get "chatId" d)) eqn:H3;
    rewrite ?H1, ?H2, ?H3; reflexivity.
Qed.

Lemma id_chain_value (d : list (string * json)) :
  truthy (first_truthy id_keys d) = true ->
  py_or (py_or (dict_get "id" d) (dict_get "jid" d)) (dict_get "chatId" d)
  = first_truthy id_keys d.
Proof.
  cbn. unfold py_or.
  destruct (truthy (dict_get "id" d)) eqn:H1;
    destruct (truthy (dict_get "jid" d)) eqn:H2;
    destruct (truthy (dict_get "chatId" d)) eqn:H3;
    rewrite ?H1, ?H2, ?H3; cbn; intros; try reflexivity; discriminate.
Qed.

Lemma name_chain_default (d : list (string * json)) :
  Forall (fun k => lookup_field k d = None) name_keys ->
  py_or (py_or (py_or (dict_get "subject" d) (dict_get "name" d)) (dict_get "title" d))
        (JStr "Sem nome")
  = JStr "Sem nome".
Proof.
  intros H. unfold name_keys in H.
  inversion H as [|k1 l1 Hs H1]; subst. inversion H1 as [|k2 l2 Hn H2]; subst.
  inversion H2 as [|k3 l3 Ht H3]; subst.
  unfold dict_get. rewrite Hs, Hn, Ht. reflexivity.
Qed.

Lemma normalize_entries_records (groups : list json) :
  Forall2 group_record (List.filter has_id groups) (normalize_entries groups).
Proof.
  induction groups as [|raw rest IH]; [constructor|].
  destruct raw as [| b | n | x | s | items | d];
    cbn [List.filter has_id normalize_entries]; try exact IH.
  rewrite id_chain_truthy.
  destruct (truthy (first_truthy id_keys d)) eqn:Hid; [|exact IH].
  constructor; [|exact IH].
  exists d. eexists. eexists. eexists.
  split; [reflexivity|]. split; [reflexivity|].
  split; [now apply id_chain_value|].
  split; [now rewrite id_chain_value|].
  apply name_chain_default.
Qed.

(** C3, as the code has it: [_normalize_groups_payload] returns on every
    JSON list (and on every value that is no dict), and on every dict whose
    selected groups value can be iterated; every element of the result is
    then a dict with exactly the keys id, name and participantsCount, made
    from a raw entry that is a dict; its id is the first truthy value among
    the entry's id, jid and chatId; its name is "Sem nome" when subject, name
    and title are all absent; the raw entries that are no dicts or have no
    truthy id are dropped, and the others are kept in their order. *)
Theorem normalize_groups_payload_records (payload : json) :
  (is_dict payload = false -> returns (_normalize_groups_payload payload) = true)
  /\ (forall groups : list json,
        py_iter (select_groups payload) = Some groups ->
        exists out : list json,
          _normalize_groups_payload payload = Ok out
          /\ Forall2 group_record (List.filter has_id groups) out
          /\ Forall (fun entry => keys_of entry = ["id"; "name"; "participantsCount"]) out).
Proof.
  split.
  - unfold _normalize_groups_payload. now destruct payload.
  - intros groups Hiter. exists (normalize_entries groups).
    unfold _normalize_groups_payload. rewrite Hiter. split; [reflexivity|].
    pose proof (normalize_entries_records groups) as Hrec. split; [exact Hrec|].
    induction Hrec as [|raw entry raws entries Hone _ IH]; constructor; [|exact IH].
    destruct Hone as (d & gid & nm & cnt & _ & -> & _). reflexivity.
Qed.

Lemma normalize_groups_payload_records_witness :
  exists out : list json,
    _normalize_groups_payload
      (JObj [("data", JArr [JObj [("jid", JStr "7@g.us")]; JStr "noise"; JObj [("id", JNum 0)]])])
    = Ok out
    /\ Forall2 group_record
         (List.filter has_id [JObj [("jid", JStr "7@g.us")]; JStr "noise"; JObj [("id", JNum 0)]])
         out
    /\ Forall (fun entry => keys_of entry = ["id"; "name"; "participantsCount"]) out.
Proof.
  apply (proj2 (normalize_groups_payload_records
                  (JObj [("data", JArr [JObj [("jid", JStr "7@g.us")]; JStr "noise";
                                        JObj [("id", JNum 0)]])]))).
  reflexivity.
Defined.

(** C3, as it is stated, fails: an entry whose id is present but empty gets
    the jid, which is not the first of the three keys that is present. *)
Lemma normalize_groups_payload_id_not_first_present :
  _normalize_groups_payload (JArr [JObj [("id", JStr ""); ("jid", JStr "g1")]])
  = Ok [JObj [("id", JStr "g1"); ("name", JStr "Sem nome"); ("participantsCount", JNull)]]
  /\ first_present id_keys [("id", JStr ""); ("jid", JStr "g1")] = Some (JStr "")
  /\ JStr "g1" <> JStr "".
Proof. split; [reflexivity|]. split; [reflexivity|]. discriminate. Qed.

(** A groups value that is a number cannot be iterated: the call raises. *)
Example normalize_groups_payload_number :
  _normalize_groups_payload (JObj [("groups", JNum 5)]) = Raise TypeError.
Proof. reflexivity. Qed.

(** *** [ensure_group_exists] *)

Lemma list_wapi_groups_asks (net : Net) : fst (list_wapi_groups net) <> [].
Proof.
  rewrite list_wapi_groups_asked. unfold endpoints.
  generalize [WAPI_API_GROUPS_URL; WAPI_GROUPS_URL; WAPI_LEGACY_GROUPS_URL].
  intros more. cbn [try_endpoints].
  destruct (_fetch_groups_from net WAPI_GET_ALL_GROUPS_URL) as [|r].
  - destruct (try_endpoints net more None). discriminate.
  - destruct (status_code r =? 404)%Z; [|discriminate].
    destruct (try_endpoints net more (Some r)). discriminate.
Qed.

Lemma ensure_group_exists_fresh (net : Net) (now : Q) (group_id : string) (c : GroupCache) :
  must_refetch now c = false ->
  exists groups, cache_groups c = Some groups
    /\ ensure_group_exists net now group_id c = (c, [], check_member group_id groups).
Proof.
  intros Hfresh. unfold ensure_group_exists. rewrite Hfresh.
  unfold must_refetch in Hfresh.
  destruct (cache_groups c) as [groups|]; [|discriminate].
  now exists groups.
Qed.

Lemma ensure_group_exists_refetch (net : Net) (now : Q) (group_id : string) (c : GroupCache) :
  must_refetch now c = true ->
  snd (fst (ensure_group_exists net now group_id c)) = fst (list_wapi_groups net)
  /\ (forall groups, snd (list_wapi_groups net) = Ok groups ->
        ensure_group_exists net now group_id c
        = (mkCache (Some groups) (Some now), fst (list_wapi_groups net),
           check_member group_id groups))
  /\ (forall e, snd (list_wapi_groups net) = Raise e ->
        fst (fst (ensure_group_exists net now group_id c)) = c).
Proof.
  intros Hold. unfold ensure_group_exists. rewrite Hold.
  destruct (list_wapi_groups net) as [asked [groups|e]]; cbn.
  - split; [reflexivity|]. split; [|discriminate].
    intros groups' [= <-]. reflexivity.
  - destruct (is_RequestException e); cbn; (split; [reflexivity|]); split;
      try discriminate; reflexivity.
Qed.

Lemma must_refetch_fresh (now ts : Q) (groups : list json) (c : GroupCache) :
  cache_groups c = Some groups -> groups <> [] ->
  cache_ts c = Some ts -> ~ (ts == 0)%Q -> (now - ts <= 30)%Q ->
  must_refetch now c = false.
Proof.
  intros Hg Hne Ht Hnz Hage. unfold must_refetch. rewrite Hg, Ht. cbn.
  destruct groups as [|g gs]; [now elim Hne|]. cbn.
  destruct (Qeq_bool ts 0) eqn:Hz; [apply Qeq_bool_iff in Hz; contradiction|].
  apply (proj2 (Qle_bool_iff _ _)) in Hage. now rewrite Hage.
Qed.

Lemma must_refetch_stale (now : Q) (c : GroupCache) :
  cache_groups c = None \/ cache_groups c = Some [] \/ cache_ts c = None
  \/ (exists ts, cache_ts c = Some ts /\ (30 < now - ts)%Q) ->
  must_refetch now c = true.
Proof.
  unfold must_refetch. intros [Hg | [Hg | [Ht | (ts & Ht & Hold)]]].
  - now rewrite Hg.
  - now rewrite Hg.
  - rewrite Ht. cbn. apply orb_true_r.
  - rewrite Ht. cbn.
    destruct (Qle_bool (now - ts) 30) eqn:Hle.
    + apply Qle_bool_iff in Hle. exfalso. exact (Qlt_not_le _ _ Hold Hle).
    + apply orb_true_r.
Qed.

(** C2, as the code has it: a call that finds a non-empty cached list whose
    time stamp is at most 30 seconds old answers the existence check from
    that list, asks no endpoint and leaves the cache as it is; a call that
    finds no list, an empty list, or a time stamp more than 30 seconds old
    asks the endpoints through [list_wapi_groups] and, when that returns a
    list, puts the list and the current time into the cache, while a failed
    fetch leaves the cache as it was.  So of two calls, the second at most 30
    seconds after the first filled the cache with a non-empty list, the
    second is answered from that list without a request. *)
Theorem ensure_group_exists_cache_window
  (net : Net) (now : Q) (group_id : string) (c : GroupCache) :
  (forall groups ts,
      cache_groups c = Some groups -> groups <> [] ->
      cache_ts c = Some ts -> ~ (ts == 0)%Q -> (now - ts <= 30)%Q ->
      ensure_group_exists net now group_id c = (c, [], check_member group_id groups))
  /\ (cache_groups c = None \/ cache_groups c = Some [] \/ cache_ts c = None
      \/ (exists ts, cache_ts c = Some ts /\ (30 < now - ts)%Q) ->
      snd (fst (ensure_group_exists net now group_id c)) = fst (list_wapi_groups net)
      /\ fst (list_wapi_groups net) <> []
      /\ (forall groups, snd (list_wapi_groups net) = Ok groups ->
            ensure_group_exists net now group_id c
            = (mkCache (Some groups) (Some now), fst (list_wapi_groups net),
               check_member group_id groups))
      /\ (forall e, snd (list_wapi_groups net) = Raise e ->
            fst (fst (ensure_group_exists net now group_id c)) = c))
  /\ (forall (net' : Net) (later : Q) (group_id' : string) (groups : list json),
        cache_groups c = None \/ cache_groups c = Some [] \/ cache_ts c = None
        \/ (exists ts, cache_ts c = Some ts /\ (30 < now - ts)%Q) ->
        snd (list_wapi_groups net) = Ok groups -> groups <> [] ->
        ~ (now == 0)%Q -> (later - now <= 30)%Q ->
        ensure_group_exists net' later group_id'
          (fst (fst (ensure_group_exists net now group_id c)))
        = (mkCache (Some groups) (Some now), [], check_member group_id' groups)).
Proof.
  split; [|split].
  - intros groups ts Hg Hne Ht Hnz Hage.
    destruct (ensure_group_exists_fresh net now group_id c) as (groups' & Hg' & Heq).
    + now apply (must_refetch_fresh now ts groups).
    + rewrite Hg in Hg'. now injection Hg' as <-.
  - intros Hstale. apply must_refetch_stale in Hstale.
    destruct (ensure_group_exists_refetch net now group_id c Hstale) as (Ha & Hok & Herr).
    split; [exact Ha|]. split; [apply list_wapi_groups_asks|]. now split.
  - intros net' later group_id' groups Hstale Hlist Hne Hnz Hage.
    apply must_refetch_stale in Hstale.
    destruct (ensure_group_exists_refetch net now group_id c Hstale) as (_ & Hok & _).
    rewrite (Hok groups Hlist). cbn [fst].
    destruct (ensure_group_exists_fresh net' later group_id'
                (mkCache (Some groups) (Some now))) as (groups' & Hg' & Heq).
    + now apply (must_refetch_fresh later now groups).
    + cbn in Hg'. now injection Hg' as <-.
Qed.

Lemma ensure_group_exists_cache_window_witness :
  ensure_group_exists net_down 110%Q "1@g.us" warm_cache = (warm_cache, [], Ok tt)
  /\ ensure_group_exists net_second 131%Q "1@g.us" warm_cache
     = (mkCache (Some [JObj [("id", JStr "1@g.us"); ("name", JStr "TI");
                             ("participantsCount", JNull)]])
                (Some 131%Q),
        [WAPI_GET_ALL_GROUPS_URL; WAPI_API_GROUPS_URL], Ok tt).
Proof.
  split.
  - apply (proj1 (ensure_group_exists_cache_window net_down 110%Q "1@g.us" warm_cache)
             [JObj [("id", JStr "1@g.us"); ("name", JStr "TI"); ("participantsCount", JNull)]]
             100%Q); try reflexivity; try discriminate.
  - destruct (ensure_group_exists_cache_window net_second 131%Q "1@g.us" warm_cache)
      as (_ & Hstale & _).
    destruct Hstale as (_ & _ & Hlist & _).
    + right. right. right. exists 100%Q. split; reflexivity.
    + apply Hlist. reflexivity.
Defined.

(** C2, as it is stated, fails: the cache was filled one second ago, with the
    empty list that a service without an answer gives, and the second call
    asks the endpoints again. *)
Lemma ensure_group_exists_refetches_empty_list :
  fst (fst (ensure_group_exists net_down 100%Q "1@g.us" empty_cache))
  = mkCache (Some []) (Some 100%Q)
  /\ (101 - 100 <= 30)%Q
  /\ snd (fst (ensure_group_exists net_down 101%Q "1@g.us" (mkCache (Some []) (Some 100%Q))))
     = endpoints.
Proof. split; [reflexivity|]. split; [discriminate|]. reflexivity. Qed.

End WapiFacts.

Module PhoneFacts.
Import Utils Models Spec.

Lemma is_empty_true (s : string) : is_empty s = true <-> s = "".
Proof. unfold is_empty. apply String.eqb_eq. Qed.

Lemma is_empty_false (s : string) : is_empty s = false <-> s <> "".
Proof. unfold is_empty. apply String.eqb_neq. Qed.

Lemma str_forall_filter (p : ascii -> bool) (s : string) :
  str_forall p (str_filter p s) = true.
Proof.
  induction s as [|c rest IH]; cbn; [reflexivity|].
  destruct (p c) eqn:Hc; cbn; [now rewrite Hc|exact IH].
Qed.

Lemma str_forall_append (p : ascii -> bool) (a b : string) :
  str_forall p a = true -> str_forall p b = true -> str_forall p (a +:+ b) = true.
Proof.
  induction a as [|c rest IH]; intros Ha Hb; [exact Hb|].
  cbn in Ha. apply andb_true_iff in Ha as [Hc Hrest].
  change (String c rest +:+ b) with (String c (rest +:+ b)).
  cbn [str_forall]. rewrite Hc. cbn. now apply IH.
Qed.



Lemma text_len_in_true (s : text) (a b : nat) :
  text_len_in s a b = true <-> length s = a \/ length s = b.
Proof.
  unfold text_len_in. rewrite orb_true_iff, !Nat.eqb_eq. reflexivity.
Qed.

Lemma forallb_filter_same (p : N -> bool) (s : text) : forallb p (List.filter p s) = true.
Proof.
  induction s as [|c rest IH]; cbn; [reflexivity|].
  destruct (p c) eqn:Hc; cbn; [now rewrite Hc|exact IH].
Qed.

Lemma forallb_skipn (p : N -> bool) (n : nat) (s : text) :
  forallb p s = true -> forallb p (skipn n s) = true.
Proof.
  revert s. induction n as [|n IH]; intros s Hs; [exact Hs|].
  destruct s as [|c rest]; cbn; [reflexivity|].
  apply IH. cbn in Hs. now apply andb_true_iff in Hs.
Qed.

Lemma prepared_digits (value : text) : forallb is_decimal (prepared value) = true.
Proof.
  unfold prepared.
  assert (Hd : forallb is_decimal
                 (if text_startswith (List.filter is_decimal value) (str "00")
                  then skipn 2 (List.filter is_decimal value)
                  else List.filter is_decimal value) = true).
  { destruct (text_startswith _ _); [apply forallb_skipn|]; apply forallb_filter_same. }
  destruct (text_len_in _ 10 11); [|exact Hd].
  rewrite forallb_app, Hd. reflexivity.
Qed.



Lemma normalize_phone_number_prepared (value : text) :
  normalize_phone_number value (str "55")
  = if text_is_empty value then Raise (ValueError "Telefone não pode ficar vazio.")
    else if text_is_empty (List.filter is_decimal value) then
      Raise (ValueError "Telefone deve conter dígitos.")
    else if negb (text_len_in (prepared value) 12 13) then
      Raise (ValueError "Telefone precisa ter o código internacional (ex: 55149988208134).")
    else if negb (text_startswith (prepared value) (str "55")) then
      Raise (ValueError "Telefone deve começar com o código internacional (ex: 55...).")
    else Ok (prepared value).
Proof. reflexivity. Qed.

Lemma normalize_phone_number_value (value digits : text) :
  normalize_phone_number value (str "55") = Ok digits -> digits = prepared value.
Proof.
  rewrite normalize_phone_number_prepared.
  destruct (text_is_empty value); [discriminate|].
  destruct (text_is_empty (List.filter is_decimal value)); [discriminate|].
  destruct (negb (text_len_in (prepared value) 12 13)); [discriminate|].
  destruct (negb (text_startswith (prepared value) (str "55"))); [discriminate|].
  now intros [= <-].
Qed.

Lemma normalize_phone_number_ok (value digits : text) :
  normalize_phone_number value (str "55") = Ok digits -> is_normalized digits = true.
Proof.
  rewrite normalize_phone_number_prepared.
  destruct (text_is_empty value); [discriminate|].
  destruct (text_is_empty (List.filter is_decimal value)); [discriminate|].
  destruct (text_len_in (prepared value) 12 13) eqn:Hlen; [|discriminate].
  destruct (text_startswith (prepared value) (str "55")) eqn:Hcc; [|discriminate].
  cbn [negb]. intros [= <-]. unfold is_normalized.
  now rewrite Hlen, Hcc, prepared_digits.
Qed.

Lemma normalize_phone_number_error (value : text) (e : exn) :
  normalize_phone_number value (str "55") = Raise e -> exists msg, e = ValueError msg.
Proof.
  rewrite normalize_phone_number_prepared.
  destruct (text_is_empty value); [intros [= <-]; eauto|].
  destruct (text_is_empty (List.filter is_decimal value)); [intros [= <-]; eauto|].
  destruct (negb (text_len_in (prepared value) 12 13)); [intros [= <-]; eauto|].
  destruct (negb (text_startswith (prepared value) (str "55"))); [intros [= <-]; eauto|].
  discriminate.
Qed.

Lemma clean_row (r r' : WhatsAppRecipient) :
  clean r = Ok r' ->
  exists digits,
    normalize_phone_number (rc_phone_number r) (str "55") = Ok digits
    /\ r' = mkRecipient (rc_name r) digits (rc_phone_number r).
Proof.
  unfold clean.
  destruct (normalize_phone_number (rc_phone_number r) (str "55")) as [digits|e].
  - intros [= <-]. now exists digits.
  - destruct e; discriminate.
Qed.

Lemma clean_error (r : WhatsAppRecipient) (e : exn) :
  clean r = Raise e ->
  exists msg, e = ValidationError msg
              /\ normalize_phone_number (rc_phone_number r) (str "55") = Raise (ValueError msg).
Proof.
  unfold clean.
  destruct (normalize_phone_number (rc_phone_number r) (str "55")) as [digits|e'] eqn:Hn;
    [discriminate|].
  destruct (normalize_phone_number_error _ _ Hn) as (msg & ->).
  intros [= <-]. now exists msg.
Qed.

Lemma full_clean_row (table : gmap nat WhatsAppRecipient) (r r' : WhatsAppRecipient) :
  full_clean table r = Ok r' ->
  clean r = Ok r' /\ clean_fields r = true /\ phone_is_free table r' = true.
Proof.
  unfold full_clean. destruct (clean r) as [cleaned|e]; [|discriminate].
  destruct (clean_fields r); [|discriminate].
  destruct (phone_is_free table cleaned) eqn:Hfree; [|discriminate].
  cbn. now intros [= <-].
Qed.

Lemma fresh_key_unused (table : gmap nat WhatsAppRecipient) :
  table !! fresh (dom table) = None.
Proof. apply not_elem_of_dom. apply is_fresh. Qed.

Lemma save_row (table table' : gmap nat WhatsAppRecipient) (r : WhatsAppRecipient) :
  save table r = Ok table' ->
  exists digits,
    normalize_phone_number (rc_phone_number r) (str "55") = Ok digits
    /\ table' = <[fresh (dom table) := mkRecipient (rc_name r) digits (rc_phone_number r)]> table
    /\ phone_is_free table (mkRecipient (rc_name r) digits (rc_phone_number r)) = true.
Proof.
  unfold save. destruct (full_clean table r) as [r'|e] eqn:Hfull; [|discriminate].
  apply full_clean_row in Hfull as (Hclean & _ & Hfree).
  apply clean_row in Hclean as (digits & Hn & ->).
  intros [= <-]. now exists digits.
Qed.

Lemma save_inserts_normalized (table table' : gmap nat WhatsAppRecipient)
  (r : WhatsAppRecipient) :
  save table r = Ok table' ->
  exists row, table' = <[fresh (dom table) := row]> table
              /\ is_normalized (rc_phone_number row) = true.
Proof.
  intros Hsave. destruct (save_row table table' r Hsave) as (digits & Hn & -> & _).
  eexists. split; [reflexivity|].
  now apply (normalize_phone_number_ok (rc_phone_number r)).
Qed.



End PhoneFacts.

Module StatusFacts.
Import Models Views Spec Stages.

Lemma status_payload_not_empty (extra : gmap string string) (st : string) :
  extra ∪ {[ "status" := st ]} ≠ ∅.
Proof.
  intros H. apply (f_equal (fun m : gmap string string => m !! "status")) in H.
  rewrite lookup_empty in H.
  destruct (extra !! "status") as [v|] eqn:Hv.
  - erewrite lookup_union_Some_l in H by exact Hv. discriminate.
  - rewrite lookup_union_r in H by exact Hv.
    rewrite lookup_singleton_eq in H. discriminate.
Qed.

Lemma is_empty_lead (c : ascii) (s t : string) : is_empty (String c s +:+ t) = false.
Proof. reflexivity. Qed.

Lemma is_empty_join_lead (sep : string) (c : ascii) (s t : string) (rest : list string) :
  is_empty (join sep ((String c s +:+ t) :: rest)) = false.
Proof. destruct rest; reflexivity. Qed.

(** The whole run of [_update_ticket_status], stage by stage. *)
Lemma update_ticket_status_run (shorten : string -> nat -> string) (env : Env)
  (new_status : string) (assigned : option User) (resolution_text : option string)
  (extra_payload : gmap string string) (performed_by : option User) (w : World) :
  exists (ev : TicketEvent) (summary subject body : string),
    _update_ticket_status shorten env new_status assigned resolution_text extra_payload
      performed_by w
    = finish env
        (joined assigned (staged env new_status assigned resolution_text (w_ticket w)))
        (w_effects w
           ++ recorded env new_status assigned extra_payload
                (staged env new_status assigned resolution_text (w_ticket w)) ev)
        subject body
        (Wapi.send_whatsapp_message (net env) (time_time env) TI_CHAMADOS_GROUP_JID
           summary (w_cache w))
    /\ ev_type ev = EVENT_STATUS
    /\ ev_status ev = Some new_status
    /\ ev_performed_by ev = performed_by
    /\ ev_ticket ev = ticket_pk (w_ticket w).
Proof.
  unfold _update_ticket_status, finish, recorded, mailed, joined, staged.
  cbv [bind ret emit get_ticket modify_ticket when broadcast_ticket_event
       _notify_whatsapp _notify_ticket_email send_ticket_email].
  destruct assigned as [a|];
    destruct (String.eqb new_status RESOLVED) eqn:Hst;
    destruct (channel_layer env) eqn:Hch;
    cbn [negb w_ticket w_cache w_effects status set_status set_assigned_to set_resolution
         set_resolved_at add_working_user];
    try (destruct (decide (extra_payload ∪ {["status" := new_status]} = ∅)) as [Hempty|_];
         [now apply status_payload_not_empty in Hempty|]);
    do 4 eexists;
    (split;
     [ match goal with
       | |- context [Wapi.send_whatsapp_message ?n ?t ?d ?m ?c] =>
           tryif is_evar m then fail
           else (match goal with
                 | |- context [Wapi.send_whatsapp_message _ _ _ ?m' _] =>
                     is_evar m'; unify m' m
                 end;
                 destruct (Wapi.send_whatsapp_message n t d m c) as [[cache calls] [sent|e]])
       end;
       [|destruct (is_RequestException e)];
       cbn [w_ticket w_cache w_effects fst snd];
       try (destruct (is_empty (email (created_by (w_ticket w)))) eqn:Hmail);
       cbn [w_ticket w_cache w_effects fst snd created_by set_status set_assigned_to
            set_resolution set_resolved_at add_working_user orb is_empty];
       rewrite ?Hmail, ?is_empty_lead, ?is_empty_join_lead;
       cbn [orb];
       try (destruct (mail_fails env));
       cbn [w_ticket w_cache w_effects fst snd app];
       rewrite <- ?app_assoc; cbn [app]; rewrite ?app_nil_r; reflexivity
     | repeat split ]).
Qed.

Lemma finish_ticket (env : Env) (t : Ticket) (before : list effect) (subject body : string)
  (answer : Wapi.GroupCache * list Wapi.http_call * result json) :
  w_ticket (fst (finish env t before subject body answer)) = t.
Proof.
  destruct answer as [[cache calls] [sent|e]]; cbn; [reflexivity|].
  now destruct (is_RequestException e).
Qed.

Lemma update_ticket_status_ticket (shorten : string -> nat -> string) (env : Env)
  (new_status : string) (assigned : option User) (resolution_text : option string)
  (extra_payload : gmap string string) (performed_by : option User) (w : World) :
  w_ticket (fst (_update_ticket_status shorten env new_status assigned resolution_text
                   extra_payload performed_by w))
  = joined assigned (staged env new_status assigned resolution_text (w_ticket w)).
Proof.
  destruct (update_ticket_status_run shorten env new_status assigned resolution_text
              extra_payload performed_by w) as (ev & summary & subject & body & Hrun & _).
  rewrite Hrun. apply finish_ticket.
Qed.

Lemma staged_status (env : Env) (st : string) (assigned : option User)
  (rt : option string) (t : Ticket) :
  status (staged env st assigned rt t) = st.
Proof. unfold staged. destruct assigned; destruct (String.eqb st RESOLVED); reflexivity. Qed.

Lemma staged_resolved_at (env : Env) (st : string) (assigned : option User)
  (rt : option string) (t : Ticket) :
  resolved_at (staged env st assigned rt t)
  = if String.eqb st RESOLVED then Some (timezone_now env) else None.
Proof. unfold staged. destruct assigned; destruct (String.eqb st RESOLVED); reflexivity. Qed.

Lemma staged_resolution (env : Env) (st : string) (assigned : option User)
  (rt : option string) (t : Ticket) :
  resolution (staged env st assigned rt t)
  = if String.eqb st RESOLVED then text_or rt (resolution t) else resolution t.
Proof. unfold staged. destruct assigned; destruct (String.eqb st RESOLVED); reflexivity. Qed.

Lemma joined_fields (assigned : option User) (t : Ticket) :
  status (joined assigned t) = status t
  /\ resolved_at (joined assigned t) = resolved_at t
  /\ resolution (joined assigned t) = resolution t
  /\ assigned_to (joined assigned t) = assigned_to t
  /\ created_by (joined assigned t) = created_by t.
Proof. destruct assigned; repeat split. Qed.

Lemma text_or_no_text (a b : option string) : has_text a = false -> text_or a b = b.
Proof.
  destruct a as [s|]; cbn; [|reflexivity].
  destruct (is_empty s); [reflexivity|discriminate].
Qed.

(** C10: after every status update through [_update_ticket_status] the
    ticket's resolved_at is set if and only if its status is resolved: an
    update to resolved puts the current time there and keeps the earlier
    resolution text when no new text is given, an update to another status
    clears it.  The row that is saved carries the same fields. *)
Theorem update_ticket_status_resolved_at (shorten : string -> nat -> string) (env : Env)
  (new_status : string) (assigned : option User) (resolution_text : option string)
  (extra_payload : gmap string string) (performed_by : option User) (w : World) :
  let w' := fst (_update_ticket_status shorten env new_status assigned resolution_text
                   extra_payload performed_by w) in
  status (w_ticket w') = new_status
  /\ (is_Some (resolved_at (w_ticket w')) <-> status (w_ticket w') = RESOLVED)
  /\ (new_status = RESOLVED ->
      resolved_at (w_ticket w') = Some (timezone_now env)
      /\ resolution (w_ticket w') = text_or resolution_text (resolution (w_ticket w))
      /\ (has_text resolution_text = false ->
          resolution (w_ticket w') = resolution (w_ticket w)))
  /\ (new_status <> RESOLVED -> resolved_at (w_ticket w') = None)
  /\ (exists saved later,
        w_effects w' = w_effects w ++ SaveTicket saved :: later
        /\ status saved = status (w_ticket w')
        /\ resolved_at saved = resolved_at (w_ticket w')
        /\ resolution saved = resolution (w_ticket w')).
Proof.
  intros w'.
  assert (Ht : w_ticket w'
               = joined assigned (staged env new_status assigned resolution_text (w_ticket w)))
    by apply update_ticket_status_ticket.
  destruct (joined_fields assigned
              (staged env new_status assigned resolution_text (w_ticket w)))
    as (Hs & Hr & Hx & _).
  rewrite Ht, Hs, Hr, Hx, staged_status, staged_resolved_at, staged_resolution.
  split; [reflexivity|]. split; [|split; [|split]].
  - destruct (String.eqb new_status RESOLVED) eqn:Hst.
    + apply String.eqb_eq in Hst. split; [intros _; exact Hst|intros _; eauto].
    + apply String.eqb_neq in Hst. split; [intros [x Hx']; discriminate|contradiction].
  - intros ->. cbn. split; [reflexivity|]. split; [reflexivity|].
    apply text_or_no_text.
  - intros Hne. apply String.eqb_neq in Hne. now rewrite Hne.
  - destruct (update_ticket_status_run shorten env new_status assigned resolution_text
                extra_payload performed_by w) as (ev & summary & subject & body & Hrun & _).
    subst w'. rewrite Hrun.
    exists (staged env new_status assigned resolution_text (w_ticket w)).
    unfold finish, recorded.
    destruct (Wapi.send_whatsapp_message _ _ _ _ _) as [[cache calls] [sent|e]];
      [|destruct (is_RequestException e)]; cbn [fst w_effects];
      rewrite <- ?app_assoc; cbn [app]; eexists;
      (split; [reflexivity|]);
      now rewrite staged_status, staged_resolved_at, staged_resolution.
Qed.

Lemma update_ticket_status_resolved_at_witness :
  resolved_at
    (w_ticket (fst (_update_ticket_status Samples.keep_text Samples.env_ok RESOLVED None
                      (Some "Cabo trocado") ∅ (Some Samples.bob) Samples.world0)))
  = Some Samples.noon
  /\ resolved_at
       (w_ticket (fst (_update_ticket_status Samples.keep_text Samples.env_ok AWAITING None
                         None ∅ (Some Samples.bob) Samples.world0)))
     = None.
Proof.
  split.
  - apply (proj1 (proj1 (proj2 (proj2
             (update_ticket_status_resolved_at Samples.keep_text Samples.env_ok RESOLVED None
                (Some "Cabo trocado") ∅ (Some Samples.bob) Samples.world0))) eq_refl)).
  - apply (proj1 (proj2 (proj2 (proj2
             (update_ticket_status_resolved_at Samples.keep_text Samples.env_ok AWAITING None
                None ∅ (Some Samples.bob) Samples.world0))))).
    discriminate.
Defined.

(** *** Working users *)

Lemma add_working_user_run (who : User) (w : World) :
  w_ticket (fst (_add_working_user who w))
  = if String.eqb (status (w_ticket w)) RESOLVED then w_ticket w
    else add_working_user who (w_ticket w).
Proof.
  unfold _add_working_user. cbv [bind ret emit get_ticket modify_ticket].
  now destruct (String.eqb (status (w_ticket w)) RESOLVED).
Qed.

(** C6, as the code has it: the working users are a relation of their own
    beside the single assigned_to owner; a status update that names an
    assigned user makes that user the owner and also puts that user among the
    working users, a status update that names none leaves both as they are,
    and [_add_working_user] puts a user among the working users of a ticket
    that is not resolved without touching the owner. *)
Theorem update_ticket_status_working_users (shorten : string -> nat -> string) (env : Env)
  (new_status : string) (assigned : option User) (resolution_text : option string)
  (extra_payload : gmap string string) (performed_by : option User) (w : World) :
  let t' := w_ticket (fst (_update_ticket_status shorten env new_status assigned
                             resolution_text extra_payload performed_by w)) in
  (forall a, assigned = Some a ->
     assigned_to t' = Some a
     /\ working_users t' = <[user_pk a := a]> (working_users (w_ticket w)))
  /\ (assigned = None ->
      assigned_to t' = assigned_to (w_ticket w)
      /\ working_users t' = working_users (w_ticket w))
  /\ (forall who,
        let t'' := w_ticket (fst (_add_working_user who w)) in
        assigned_to t'' = assigned_to (w_ticket w)
        /\ working_users t''
           = if String.eqb (status (w_ticket w)) RESOLVED then working_users (w_ticket w)
             else <[user_pk who := who]> (working_users (w_ticket w))).
Proof.
  intros t'. subst t'. rewrite update_ticket_status_ticket.
  split; [|split].
  - intros a ->. unfold joined, staged.
    destruct (String.eqb new_status RESOLVED); split; reflexivity.
  - intros ->. unfold joined, staged.
    destruct (String.eqb new_status RESOLVED); split; reflexivity.
  - intros who t''. subst t''. rewrite add_working_user_run.
    destruct (String.eqb (status (w_ticket w)) RESOLVED); split; reflexivity.
Qed.

(** The migration that introduced the relation made every owner a working
    user of the ticket. *)
Lemma copy_assigned_to_working_owner (tickets : list Ticket) (t : Ticket) (owner : User) :
  In t (_copy_assigned_to_working tickets) ->
  assigned_to t = Some owner ->
  working_users t !! user_pk owner = Some owner.
Proof.
  unfold _copy_assigned_to_working. rewrite in_map_iff.
  intros (t0 & <- & _). destruct (assigned_to t0) as [o|] eqn:Ho; cbn.
  - rewrite Ho. intros [= <-]. apply lookup_insert_eq.
  - rewrite Ho. discriminate.
Qed.

Lemma update_ticket_status_working_users_witness :
  working_users
    (w_ticket (fst (_update_ticket_status Samples.keep_text Samples.env_ok AWAITING None None
                      {[ "pause_reason" := "aguardando peca" ]} (Some Samples.bob)
                      Samples.world0)))
  = working_users Samples.ticket0.
Proof.
  apply (proj2 (proj1 (proj2
           (update_ticket_status_working_users Samples.keep_text Samples.env_ok AWAITING None
              None {[ "pause_reason" := "aguardando peca" ]} (Some Samples.bob)
              Samples.world0)) eq_refl)).
Defined.

(** C6, as it is stated, fails: the status update that assigns the ticket to
    Bob also makes Bob a working user of a ticket that had none. *)
Lemma update_ticket_status_inserts_owner :
  working_users Samples.ticket0 !! 2 = None
  /\ assigned_to
       (w_ticket (fst (_update_ticket_status Samples.keep_text Samples.env_ok IN_PROGRESS
                         (Some Samples.bob) None ∅ (Some Samples.bob) Samples.world0)))
     = Some Samples.bob
  /\ working_users
       (w_ticket (fst (_update_ticket_status Samples.keep_text Samples.env_ok IN_PROGRESS
                         (Some Samples.bob) None ∅ (Some Samples.bob) Samples.world0)))
     !! 2 = Some Samples.bob.
Proof. vm_compute. repeat split. Qed.

(** *** The three channels *)

Lemma send_whatsapp_message_posts (nt : Wapi.Net) (now : Q) (destination message to kind : string)
  (c c' : Wapi.GroupCache) (calls : list Wapi.http_call) (answer : json) :
  Wapi._normalize_destination destination = Ok (to, kind) ->
  Wapi.send_whatsapp_message nt now destination message c = (c', calls, Ok answer) ->
  In (Wapi.HttpPost Wapi.WAPI_SEND_URL to message) calls.
Proof.
  unfold Wapi.send_whatsapp_message. intros ->.
  destruct (if String.eqb kind "group" then Wapi.ensure_group_exists nt now to c
            else (c, [], Ok tt)) as [[c1 asked] [u|e]]; intros [= <- <- Hpost].
  apply in_or_app. right. now left.
Qed.

Lemma group_jid_destination :
  Wapi._normalize_destination TI_CHAMADOS_GROUP_JID = Ok (TI_CHAMADOS_GROUP_JID, "group").
Proof. vm_compute. reflexivity. Qed.

Lemma mailed_sends (env : Env) (t : Ticket) (subject body : string) :
  (email (created_by t) <> "" ->
   In (SendMail (email (created_by t)) subject body) (mailed env t subject body))
  /\ (email (created_by t) = "" -> mailed env t subject body = []).
Proof.
  unfold mailed. split.
  - intros Hne. apply String.eqb_neq in Hne. unfold is_empty. rewrite Hne. now left.
  - intros ->. reflexivity.
Qed.

Lemma recorded_broadcast (env : Env) (st : string) (assigned : option User)
  (extra : gmap string string) (saved : Ticket) (ev : TicketEvent) :
  In (CreateEvent ev) (recorded env st assigned extra saved ev)
  /\ (channel_layer env = true ->
      In (GroupSend "tickets" "ticket_status_changed" (serialize_ticket (joined assigned saved))
            (Some (extra ∪ {[ "status" := st ]})))
         (recorded env st assigned extra saved ev))
  /\ (channel_layer env = false ->
      existsb is_group_send (recorded env st assigned extra saved ev) = false)
  /\ existsb is_send_mail (recorded env st assigned extra saved ev) = false.
Proof.
  unfold recorded. split; [right; now left|]. split; [|split].
  - intros ->. apply in_or_app. right. apply in_or_app. right. now left.
  - intros ->. now destruct assigned.
  - now destruct assigned, (channel_layer env).
Qed.

Lemma existsb_http (p : effect -> bool) (calls : list Wapi.http_call) :
  (forall c, p (Http c) = false) -> existsb p (map Http calls) = false.
Proof.
  intros Hp. induction calls as [|c rest IH]; cbn; [reflexivity|]. now rewrite Hp.
Qed.

Lemma mailed_no_group_send (env : Env) (t : Ticket) (subject body : string) :
  existsb is_group_send (mailed env t subject body) = false.
Proof.
  unfold mailed. destruct (is_empty _); [reflexivity|]. now destruct (mail_fails env).
Qed.

(** C4, as the code has it: a status update through [_update_ticket_status]
    records a TicketEvent of type status_change; it broadcasts a
    ticket_status_changed event that carries the serialized ticket to the
    channel group when a channel layer is configured, and nothing otherwise;
    it calls the WhatsApp client for the configured TI group, whose requests
    are made, the send among them when the client returns; and when that call
    returns or fails with a request error, the update returns and one e-mail
    goes to the ticket creator's address exactly when there is one. *)
Theorem update_ticket_status_channels (shorten : string -> nat -> string) (env : Env)
  (new_status : string) (assigned : option User) (resolution_text : option string)
  (extra_payload : gmap string string) (performed_by : option User) (w w' : World)
  (r : result unit) :
  _update_ticket_status shorten env new_status assigned resolution_text extra_payload
    performed_by w = (w', r) ->
  exists (ev : TicketEvent) (summary : string) (calls : list Wapi.http_call)
         (sent : result json) (news : list effect),
    w_effects w' = w_effects w ++ news
    /\ Wapi.send_whatsapp_message (net env) (time_time env) TI_CHAMADOS_GROUP_JID summary
         (w_cache w) = (w_cache w', calls, sent)
    /\ In (CreateEvent ev) news
    /\ ev_type ev = EVENT_STATUS /\ ev_status ev = Some new_status
    /\ ev_performed_by ev = performed_by
    /\ (channel_layer env = true ->
        In (GroupSend "tickets" "ticket_status_changed" (serialize_ticket (w_ticket w'))
              (Some (extra_payload ∪ {[ "status" := new_status ]}))) news)
    /\ (channel_layer env = false -> existsb is_group_send news = false)
    /\ (forall c, In c calls -> In (Http c) news)
    /\ (returns sent = true ->
        In (Http (Wapi.HttpPost Wapi.WAPI_SEND_URL TI_CHAMADOS_GROUP_JID summary)) news)
    /\ (returns sent = true \/ (exists e, sent = Raise e /\ is_RequestException e = true) ->
        r = Ok tt
        /\ (email (created_by (w_ticket w')) <> "" ->
            exists subject body,
              In (SendMail (email (created_by (w_ticket w'))) subject body) news)
        /\ (email (created_by (w_ticket w')) = "" -> existsb is_send_mail news = false)).
Proof.
  destruct (update_ticket_status_run shorten env new_status assigned resolution_text
              extra_payload performed_by w)
    as (ev & summary & subject & body & Hrun & Hty & Hst & Hby & _).
  rewrite Hrun. clear Hrun.
  set (saved := staged env new_status assigned resolution_text (w_ticket w)).
  destruct (recorded_broadcast env new_status assigned extra_payload saved ev)
    as (Hev & Hon & Hoff & Hnomail).
  destruct (mailed_sends env (joined assigned saved) subject body) as (Hmail & Hnone).
  pose proof (mailed_no_group_send env (joined assigned saved) subject body) as Hmg.
  unfold finish.
  destruct (Wapi.send_whatsapp_message (net env) (time_time env) TI_CHAMADOS_GROUP_JID
              summary (w_cache w)) as [[cache calls] sent] eqn:Hsend.
  assert (Hcalls : forall tail c, In c calls ->
            In (Http c) (recorded env new_status assigned extra_payload saved ev
                           ++ map Http calls ++ tail)).
  { intros tail c Hc. apply in_or_app. right. apply in_or_app. left. now apply in_map. }
  destruct sent as [answer|e]; [|destruct (is_RequestException e) eqn:He].
  - intros [= <- <-]. cbn [w_effects w_cache w_ticket]. rewrite <- ?app_assoc.
    exists ev, summary, calls, (Ok answer). eexists. split; [reflexivity|].
    split; [exact Hsend|]. split; [apply in_or_app; now left|].
    do 3 (split; [assumption|]).
    split; [intros H; apply in_or_app; left; now apply Hon|].
    split; [intros H; rewrite !existsb_app, (Hoff H), Hmg, existsb_http; reflexivity|].
    split; [apply Hcalls|].
    split; [intros _; apply Hcalls;
            now apply (send_whatsapp_message_posts _ _ _ _ _ _ _ _ _ _
                         group_jid_destination Hsend)|].
    intros _. split; [reflexivity|]. split.
    + intros Hne. exists subject, body. apply in_or_app. right. apply in_or_app. right.
      now apply Hmail.
    + intros Hno. rewrite (Hnone Hno), !existsb_app, Hnomail, existsb_http; reflexivity.
  - intros [= <- <-]. cbn [w_effects w_cache w_ticket]. rewrite <- ?app_assoc.
    exists ev, summary, calls, (Raise e). eexists. split; [reflexivity|].
    split; [exact Hsend|]. split; [apply in_or_app; now left|].
    do 3 (split; [assumption|]).
    split; [intros H; apply in_or_app; left; now apply Hon|].
    split; [intros H; rewrite !existsb_app, (Hoff H), existsb_http by reflexivity;
            cbn; exact Hmg|].
    split; [apply Hcalls|].
    split; [discriminate|].
    intros _. split; [reflexivity|]. split.
    + intros Hne. exists subject, body. apply in_or_app. right. apply in_or_app. right.
      right. now apply Hmail.
    + intros Hno. rewrite (Hnone Hno), !existsb_app, Hnomail, existsb_http; reflexivity.
  - intros [= <- <-]. cbn [w_effects w_cache w_ticket]. rewrite <- ?app_assoc.
    exists ev, summary, calls, (Raise e). eexists. split; [reflexivity|].
    split; [exact Hsend|]. split; [apply in_or_app; now left|].
    do 3 (split; [assumption|]).
    split; [intros H; apply in_or_app; left; now apply Hon|].
    split; [intros H; rewrite !existsb_app, (Hoff H), existsb_http; reflexivity|].
    split; [intros c Hc; specialize (Hcalls [] c Hc); now rewrite app_nil_r in Hcalls|].
    split; [discriminate|].
    intros [Hret | (e' & [= <-] & He')]; [discriminate|congruence].
Qed.

Lemma update_ticket_status_channels_witness :
  exists subject body,
    In (SendMail "alice@example.com" subject body) (w_effects (fst Samples.run_taken)).
Proof.
  assert (Hrun : _update_ticket_status Samples.keep_text Samples.env_ok IN_PROGRESS
                   (Some Samples.bob) None ∅ (Some Samples.bob) Samples.world0
                 = (fst Samples.run_taken, snd Samples.run_taken))
    by (unfold Samples.run_taken; apply surjective_pairing).
  destruct (update_ticket_status_channels Samples.keep_text Samples.env_ok IN_PROGRESS
              (Some Samples.bob) None ∅ (Some Samples.bob) Samples.world0
              (fst Samples.run_taken) (snd Samples.run_taken) Hrun)
    as (ev & summary & calls & sent & news & Heff & Hsend & _ & _ & _ & _ & _ & _ & _ & _ & Hmail).
  assert (Hret : returns sent = true).
  { vm_compute in Hsend. injection Hsend as _ <-. reflexivity. }
  destruct (Hmail (or_introl Hret)) as (_ & Hsome & _).
  destruct Hsome as (subject & body & Hin); [vm_compute; discriminate|].
  exists subject, body. rewrite Heff. apply in_or_app. right. exact Hin.
Defined.

(** C4, as it is stated, fails: where no channel layer is configured the
    status change goes through and nothing is broadcast. *)
Lemma update_ticket_status_without_channel_layer :
  snd Samples.run_no_layer = Ok tt
  /\ status (w_ticket (fst Samples.run_no_layer)) = RESOLVED
  /\ existsb is_group_send (w_effects (fst Samples.run_no_layer)) = false.
Proof. vm_compute. repeat split. Qed.

(** When the group cannot be validated the WhatsApp client raises a
    [ValueError], which [_notify_whatsapp] lets through: the update stops
    after the broadcast and the creator, who has an address, gets no e-mail. *)
Example update_ticket_status_value_error :
  snd Samples.run_off
  = Raise (ValueError "Grupo não encontrado na sessão atual do WhatsApp.")
  /\ status (w_ticket (fst Samples.run_off)) = RESOLVED
  /\ existsb is_group_send (w_effects (fst Samples.run_off)) = true
  /\ email (created_by (w_ticket (fst Samples.run_off))) = "alice@example.com"
  /\ existsb is_send_mail (w_effects (fst Samples.run_off)) = false.
Proof. vm_compute. repeat split. Qed.

(** The view that sends to the same group catches that [ValueError]. *)
Example whatsapp_notify_group_value_error :
  snd (whatsapp_notify_group Samples.env_off
         (Samples.request_of Samples.bob [("message", "Manutencao as 18h")])
         Wapi.empty_cache)
  = Ok (Redirect "whatsapp_config").
Proof. vm_compute. reflexivity. Qed.

(** In general: an exception of the WhatsApp client that is no
    [RequestException] ends the update with that exception, after the ticket
    was saved, and no e-mail is sent. *)
Lemma update_ticket_status_other_error (shorten : string -> nat -> string) (env : Env)
  (new_status : string) (assigned : option User) (resolution_text : option string)
  (extra_payload : gmap string string) (performed_by : option User) (w w' : World)
  (r : result unit) :
  _update_ticket_status shorten env new_status assigned resolution_text extra_payload
    performed_by w = (w', r) ->
  exists (summary : string) (calls : list Wapi.http_call) (sent : result json)
         (news : list effect),
    w_effects w' = w_effects w ++ news
    /\ Wapi.send_whatsapp_message (net env) (time_time env) TI_CHAMADOS_GROUP_JID summary
         (w_cache w) = (w_cache w', calls, sent)
    /\ (forall e, sent = Raise e -> is_RequestException e = false ->
          r = Raise e
          /\ status (w_ticket w') = new_status
          /\ existsb is_send_mail news = false).
Proof.
  destruct (update_ticket_status_run shorten env new_status assigned resolution_text
              extra_payload performed_by w)
    as (ev & summary & subject & body & Hrun & _).
  rewrite Hrun. clear Hrun.
  set (saved := staged env new_status assigned resolution_text (w_ticket w)).
  destruct (recorded_broadcast env new_status assigned extra_payload saved ev)
    as (_ & _ & _ & Hnomail).
  assert (Hst : status (joined assigned saved) = new_status).
  { destruct (joined_fields assigned saved) as (-> & _). apply staged_status. }
  unfold finish.
  destruct (Wapi.send_whatsapp_message (net env) (time_time env) TI_CHAMADOS_GROUP_JID
              summary (w_cache w)) as [[cache calls] sent] eqn:Hsend.
  destruct sent as [answer|e]; [|destruct (is_RequestException e) eqn:He];
    intros [= <- <-]; cbn [w_effects w_cache w_ticket]; rewrite <- ?app_assoc;
    exists summary, calls; eexists; eexists;
    (split; [reflexivity|]); (split; [exact Hsend|]).
  - discriminate.
  - intros e' [= <-] He'. congruence.
  - intros e' [= <-] _. split; [reflexivity|]. split; [exact Hst|].
    now rewrite existsb_app, Hnomail, existsb_http.
Qed.

(** *** The ticket-action handler *)

Lemma moves_ret {A : Type} (allowed : list string) (a : A) : moves_within allowed (ret a).
Proof. intros w. now left. Qed.

Lemma moves_emit (allowed : list string) (e : effect) : moves_within allowed (emit e).
Proof. intros w. now left. Qed.

Lemma moves_bind {A B : Type} (allowed : list string) (m : M A) (k : A -> M B) :
  moves_within allowed m -> (forall a, moves_within allowed (k a)) ->
  moves_within allowed (bind m k).
Proof.
  intros Hm Hk w. unfold bind. specialize (Hm w).
  destruct (m w) as [w1 [a|e]]; cbn in Hm; [|exact Hm].
  destruct (Hk a w1) as [Hsame|Hin]; [|now right].
  rewrite Hsame. exact Hm.
Qed.

Lemma moves_when (allowed : list string) (b : bool) (m : M unit) :
  moves_within allowed m -> moves_within allowed (when b m).
Proof. destruct b; [trivial|intros _; apply moves_ret]. Qed.

Lemma moves_update (allowed : list string) (shorten : string -> nat -> string) (env : Env)
  (new_status : string) (assigned : option User) (resolution_text : option string)
  (extra_payload : gmap string string) (performed_by : option User) :
  In new_status allowed ->
  moves_within allowed
    (_update_ticket_status shorten env new_status assigned resolution_text extra_payload
       performed_by).
Proof.
  intros Hin w. right. rewrite update_ticket_status_ticket.
  destruct (joined_fields assigned
              (staged env new_status assigned resolution_text (w_ticket w))) as (-> & _).
  now rewrite staged_status.
Qed.

Lemma moves_add_working_user (allowed : list string) (who : User) :
  moves_within allowed (_add_working_user who).
Proof.
  intros w. left. rewrite add_working_user_run.
  now destruct (String.eqb (status (w_ticket w)) RESOLVED).
Qed.

Lemma moves_broadcast (allowed : list string) (env : Env) (event : string)
  (payload : gmap string string) :
  moves_within allowed (broadcast_ticket_event env event payload).
Proof.
  intros w. left. unfold broadcast_ticket_event. now destruct (channel_layer env).
Qed.

Lemma moves_notify_whatsapp (allowed : list string) (shorten : string -> nat -> string)
  (env : Env) (label : string) (extra_line : option string) :
  moves_within allowed (_notify_whatsapp shorten env label extra_line).
Proof.
  intros w. left. unfold _notify_whatsapp.
  destruct (Wapi.send_whatsapp_message _ _ _ _ _) as [[cache calls] [sent|e]];
    [reflexivity|]. now destruct (is_RequestException e).
Qed.

Lemma handle_ticket_action_moves (shorten : string -> nat -> string) (env : Env)
  (request : Request) (is_ti_user : bool) (resolution_form : ResolutionForm) :
  moves_within handler_targets
    (_handle_ticket_action shorten env request is_ti_user resolution_form).
Proof.
  unfold _handle_ticket_action.
  destruct (POST request !! "action") as [action|]; [|apply moves_ret].
  destruct (is_empty action); [apply moves_ret|].
  apply moves_bind; [intros w; now left|]. intros ticket.
  repeat match goal with
  | |- moves_within _ (if ?b then _ else _) => destruct b
  | |- moves_within _ (bind _ _) => apply moves_bind; [|intros ?]
  | |- moves_within _ (ret _) => apply moves_ret
  | |- moves_within _ (emit _) => apply moves_emit
  | |- moves_within _ (when _ _) => apply moves_when
  | |- moves_within _ (_add_working_user _) => apply moves_add_working_user
  | |- moves_within _ (_update_ticket_status _ _ _ _ _ _ _) =>
      apply moves_update; unfold handler_targets; cbn; tauto
  end.
Qed.

Lemma create_ticket_status (shorten : string -> nat -> string) (env : Env) (request : Request)
  (form : TicketForm) (pk : nat) (cache : Wapi.GroupCache) (w : World)
  (r : result HttpResponse) :
  create_ticket shorten env request form pk cache = (Some w, r) ->
  status (w_ticket w) = NEW.
Proof.
  unfold create_ticket.
  destruct (negb (is_authenticated (user request))); [discriminate|].
  destruct (form_is_valid form); [|discriminate].
  match goal with
  | |- (let '(_, _) := ?run ?start in _) = _ -> _ =>
      assert (Hrun : moves_within [] run); [|specialize (Hrun start); destruct (run start)]
  end.
  { repeat match goal with
    | |- moves_within _ (bind _ _) => apply moves_bind; [|intros ?]
    | |- moves_within _ (ret _) => apply moves_ret
    | |- moves_within _ (emit _) => apply moves_emit
    | |- moves_within _ (broadcast_ticket_event _ _ _) => apply moves_broadcast
    | |- moves_within _ (_notify_whatsapp _ _ _ _) => apply moves_notify_whatsapp
    end. }
  intros [= <- _]. destruct Hrun as [Hsame|[]]. exact Hsame.
Qed.

(** C7: a ticket's status is always one of exactly the four values new,
    in_progress, awaiting and resolved: a ticket that was just created has
    status new, every run of the ticket-action handler leaves the status as
    it is or sets it to resolved, in_progress or awaiting, and so every
    ticket the application reaches has one of the four. *)
Theorem ticket_status_is_declared (shorten : string -> nat -> string) :
  values TicketStatus_choices = ["new"; "in_progress"; "awaiting"; "resolved"]
  /\ (forall form author pk now, status (new_ticket form author pk now) = "new")
  /\ (forall env request is_ti_user resolution_form w,
        let w' := fst (_handle_ticket_action shorten env request is_ti_user
                         resolution_form w) in
        status (w_ticket w') = status (w_ticket w)
        \/ In (status (w_ticket w')) ["resolved"; "in_progress"; "awaiting"])
  /\ (forall w, reachable shorten w ->
                In (status (w_ticket w)) (values TicketStatus_choices)).
Proof.
  split; [reflexivity|]. split; [reflexivity|]. split.
  - intros env request is_ti_user resolution_form w.
    apply (handle_ticket_action_moves shorten env request is_ti_user resolution_form w).
  - intros w Hreach. induction Hreach as [env request form pk cache w r Hnew
                                         |env request is_ti form w w' r _ IH Hact].
    + rewrite (create_ticket_status shorten env request form pk cache w r Hnew).
      cbn. tauto.
    + pose proof (handle_ticket_action_moves shorten env request is_ti form w) as Hmove.
      rewrite Hact in Hmove. cbn [fst] in Hmove.
      destruct Hmove as [Hsame|Hin]; [now rewrite Hsame|].
      unfold handler_targets in Hin. cbn in Hin |- *. tauto.
Qed.

Lemma ticket_status_is_declared_witness :
  reachable Samples.keep_text Samples.acted_world
  /\ status (w_ticket Samples.acted_world) = "in_progress"
  /\ In (status (w_ticket Samples.acted_world)) (values TicketStatus_choices).
Proof.
  assert (Hreach : reachable Samples.keep_text Samples.acted_world).
  { apply (reach_action Samples.keep_text Samples.env_ok
             (Samples.request_of Samples.bob [("action", "in_progress")]) true
             Samples.no_form Samples.created_world Samples.acted_world
             (snd (_handle_ticket_action Samples.keep_text Samples.env_ok
                     (Samples.request_of Samples.bob [("action", "in_progress")]) true
                     Samples.no_form Samples.created_world))).
    - apply (reach_created Samples.keep_text Samples.env_ok
               (Samples.request_of Samples.alice []) Samples.form0 7 Wapi.empty_cache
               Samples.created_world (Ok (Redirect "dashboard"))).
      vm_compute. reflexivity.
    - unfold Samples.acted_world. apply surjective_pairing. }
  split; [exact Hreach|]. split; [vm_compute; reflexivity|].
  exact (proj2 (proj2 (proj2 (ticket_status_is_declared Samples.keep_text)))
           Samples.acted_world Hreach).
Defined.

End StatusFacts.

Module GateFacts.
Import Models Forms Views Spec Stages.

Lemma is_ti_member (u : User) : TI_GROUP_NAME ∈ groups u -> _is_ti u = true.
Proof. intros H. unfold _is_ti. now rewrite bool_decide_eq_true_2. Qed.

Lemma is_ti_outsider (u : User) :
  TI_GROUP_NAME ∉ groups u -> is_staff u = false -> _is_ti u = false.
Proof. intros H Hs. unfold _is_ti. rewrite bool_decide_eq_false_2 by exact H. now rewrite Hs. Qed.

Lemma get_object_or_404_not_denied {A : Type} (py_int : string -> option Z)
  (table : gmap nat A) (raw : option string) :
  get_object_or_404 py_int table raw <> Raise PermissionDenied.
Proof.
  unfold get_object_or_404. destruct raw as [key|]; [|discriminate].
  destruct (py_int key) as [pk|]; [|discriminate].
  destruct (pk <? 0)%Z; [discriminate|].
  destruct (table !! Z.to_nat pk); discriminate.
Qed.

Lemma save_not_denied (table : gmap nat WhatsAppRecipient) (r : WhatsAppRecipient) :
  save table r <> Raise PermissionDenied.
Proof.
  unfold save, full_clean.
  destruct (clean r) as [cleaned|e] eqn:Hclean.
  - destruct (negb (clean_fields r)); [discriminate|].
    destruct (negb (phone_is_free table _)); discriminate.
  - destruct (PhoneFacts.clean_error r e Hclean) as (msg & -> & _). discriminate.
Qed.

Lemma normalize_groups_payload_not_denied (payload : json) :
  Wapi._normalize_groups_payload payload <> Raise PermissionDenied.
Proof.
  unfold Wapi._normalize_groups_payload.
  destruct (py_iter (Wapi.select_groups payload)); discriminate.
Qed.

Lemma list_wapi_groups_not_denied (nt : Wapi.Net) :
  snd (Wapi.list_wapi_groups nt) <> Raise PermissionDenied.
Proof.
  unfold Wapi.list_wapi_groups.
  destruct (Wapi.try_endpoints nt Wapi.endpoints None) as [[r|] asked]; cbn; [|discriminate].
  destruct (negb (Wapi.ok r)); [discriminate|].
  destruct (Wapi.status_code r =? 404)%Z; [discriminate|].
  destruct (Wapi.is_http_error r); [discriminate|].
  destruct (Wapi.body r) as [payload|]; [|discriminate].
  apply normalize_groups_payload_not_denied.
Qed.

Section Gate.

Variable py_int : string -> option Z.
Variables (request : Request) (users : gmap nat User) (items : list InventoryItem)
  (tickets : list Ticket) (recipients : gmap nat WhatsAppRecipient) (nt : Wapi.Net)
  (item_form : InventoryItemForm) (recipient_form : WhatsAppRecipientForm).

Lemma manage_users_passes :
  _is_ti (user request) = true -> ~ denied (manage_users_view py_int request users).
Proof.
  unfold denied, manage_users_view. intros ->. cbn [negb].
  destruct (String.eqb (method request) "POST"); [|discriminate].
  pose proof (get_object_or_404_not_denied py_int users (POST request !! "user_id")) as Hget.
  destruct (get_object_or_404 py_int users (POST request !! "user_id")) as [[pk target]|e]; cbn.
  - discriminate.
  - intros [= ->]. now apply Hget.
Qed.

Lemma inventory_management_passes :
  _is_ti (user request) = true -> ~ denied (inventory_management_view item_form request items).
Proof.
  unfold denied, inventory_management_view. intros ->. cbn [negb].
  destruct (String.eqb (method request) "POST" && item_form_is_valid item_form); discriminate.
Qed.

Lemma whatsapp_config_passes :
  _is_ti (user request) = true ->
  ~ denied (whatsapp_config_view py_int nt recipient_form request recipients).
Proof.
  unfold denied, whatsapp_config_view. intros ->. cbn [negb].
  assert (Hpage : forall table : gmap nat WhatsAppRecipient,
            snd (match snd (Wapi.list_wapi_groups nt) with
                 | Ok _ => (table, Ok (Render "whatsapp_config.html" 200))
                 | Raise e =>
                     if is_RequestException e
                     then (table, Ok (Render "whatsapp_config.html" 200))
                     else (table, Raise e)
                 end) <> Raise PermissionDenied).
  { intros table. pose proof (list_wapi_groups_not_denied nt) as Hlist.
    destruct (snd (Wapi.list_wapi_groups nt)) as [groups|e]; [discriminate|].
    destruct (is_RequestException e); [discriminate|].
    cbn. intros [= ->]. now apply Hlist. }
  destruct (String.eqb (method request) "POST"); [|apply Hpage].
  destruct (bool_decide (POST request !! "action" = Some "delete_recipient")).
  - pose proof (get_object_or_404_not_denied py_int recipients
                  (POST request !! "recipient_id")) as Hget.
    destruct (get_object_or_404 py_int recipients (POST request !! "recipient_id"))
      as [[pk row]|e]; cbn; [discriminate|].
    intros [= ->]. now apply Hget.
  - destruct (recipient_form_is_valid recipients recipient_form) as [instance|];
      [|apply Hpage].
    pose proof (save_not_denied recipients instance) as Hsave.
    destruct (save recipients instance) as [table|e]; cbn; [discriminate|].
    intros [= ->]. now apply Hsave.
Qed.

(** C5, as the code has it: for an authenticated user who is a member of the
    group TI, the user-management, inventory, reports, finished-tickets and
    WhatsApp-configuration views do not raise PermissionDenied; for an
    authenticated user who is neither in that group nor staff, each of them
    raises PermissionDenied; and a request that is not authenticated is sent
    to the login page by each of them, without the check being made. *)
Theorem ti_group_gates_views :
  (is_authenticated (user request) = true -> TI_GROUP_NAME ∈ groups (user request) ->
   ~ denied (manage_users py_int request users)
   /\ ~ denied (inventory_management item_form request items)
   /\ ~ denied (ti_reports request tickets)
   /\ ~ denied (finished_tickets request tickets)
   /\ ~ denied (whatsapp_config py_int nt recipient_form request recipients))
  /\ (is_authenticated (user request) = true ->
      TI_GROUP_NAME ∉ groups (user request) -> is_staff (user request) = false ->
      denied (manage_users py_int request users)
      /\ denied (inventory_management item_form request items)
      /\ denied (ti_reports request tickets)
      /\ denied (finished_tickets request tickets)
      /\ denied (whatsapp_config py_int nt recipient_form request recipients))
  /\ (is_authenticated (user request) = false ->
      manage_users py_int request users = (users, Ok (Redirect "login"))
      /\ inventory_management item_form request items = (items, Ok (Redirect "login"))
      /\ ti_reports request tickets = (tickets, Ok (Redirect "login"))
      /\ finished_tickets request tickets = (tickets, Ok (Redirect "login"))
      /\ whatsapp_config py_int nt recipient_form request recipients
         = (recipients, Ok (Redirect "login"))).
Proof.
  unfold manage_users, inventory_management, ti_reports, finished_tickets, whatsapp_config,
    login_required.
  split; [|split].
  - intros -> Hmember. apply is_ti_member in Hmember.
    split; [now apply manage_users_passes|].
    split; [now apply inventory_management_passes|].
    split; [unfold denied, ti_reports_view; now rewrite Hmember|].
    split; [unfold denied, finished_tickets_view; now rewrite Hmember|].
    now apply whatsapp_config_passes.
  - intros -> Hout Hstaff. pose proof (is_ti_outsider _ Hout Hstaff) as Hno.
    unfold denied, manage_users_view, inventory_management_view, ti_reports_view,
      finished_tickets_view, whatsapp_config_view.
    rewrite Hno. repeat split.
  - intros ->. repeat split.
Qed.

End Gate.

(** Every write of the WhatsApp-configuration view keeps the recipient table
    in the normalized form. *)
Lemma whatsapp_config_keeps_normalized (py_int : string -> option Z) (nt : Wapi.Net)
  (form : WhatsAppRecipientForm) (request : Request)
  (recipients : gmap nat WhatsAppRecipient) :
  map_Forall (fun _ row => is_normalized (rc_phone_number row) = true) recipients ->
  map_Forall (fun _ row => is_normalized (rc_phone_number row) = true)
    (fst (whatsapp_config py_int nt form request recipients)).
Proof.
  intros Hall. unfold whatsapp_config, login_required, whatsapp_config_view.
  destruct (is_authenticated (user request)); [|exact Hall].
  destruct (negb (_is_ti (user request))); [exact Hall|].
  assert (Hpage : map_Forall (fun _ row => is_normalized (rc_phone_number row) = true)
                    (fst (match snd (Wapi.list_wapi_groups nt) with
                          | Ok _ => (recipients, Ok (Render "whatsapp_config.html" 200))
                          | Raise e =>
                              if is_RequestException e
                              then (recipients, Ok (Render "whatsapp_config.html" 200))
                              else (recipients, Raise e)
                          end))).
  { destruct (snd (Wapi.list_wapi_groups nt)) as [groups|e]; [exact Hall|].
    now destruct (is_RequestException e). }
  destruct (String.eqb (method request) "POST"); [|exact Hpage].
  destruct (bool_decide (POST request !! "action" = Some "delete_recipient")).
  - destruct (get_object_or_404 py_int recipients (POST request !! "recipient_id"))
      as [[pk row]|e]; cbn; [|exact Hall].
    now apply map_Forall_delete.
  - destruct (recipient_form_is_valid recipients form) as [instance|]; [|exact Hpage].
    destruct (save recipients instance) as [table|e] eqn:Hsave; cbn; [|exact Hall].
    destruct (PhoneFacts.save_inserts_normalized recipients table _ Hsave)
      as (row & -> & Hrow).
    now apply map_Forall_insert_2.
Qed.

Lemma ti_group_gates_views_witness :
  (~ denied (manage_users Samples.int_of_digits
               (Samples.request_of Samples.bob [("user_id", "1"); ("action", "grant_ti")])
               {[ 1 := Samples.alice ]}))
  /\ denied (manage_users Samples.int_of_digits (Samples.request_of Samples.alice [])
               {[ 1 := Samples.alice ]}).
Proof.
  split.
  - refine (proj1 (proj1 (ti_group_gates_views Samples.int_of_digits
                            (Samples.request_of Samples.bob
                               [("user_id", "1"); ("action", "grant_ti")])
                            {[ 1 := Samples.alice ]} [] [] ∅ Samples.net_ok
                            (mkItemForm false (mkItem "" "" "" "" "" "" "" "" None))
                            (mkRecipientForm None None))
                         eq_refl _)).
    unfold Samples.request_of, Samples.bob, TI_GROUP_NAME. cbn. set_solver.
  - refine (proj1 (proj1 (proj2 (ti_group_gates_views Samples.int_of_digits
                                   (Samples.request_of Samples.alice [])
                                   {[ 1 := Samples.alice ]} [] [] ∅ Samples.net_ok
                                   (mkItemForm false (mkItem "" "" "" "" "" "" "" "" None))
                                   (mkRecipientForm None None)))
                         eq_refl _ eq_refl)).
    unfold Samples.request_of, Samples.alice, TI_GROUP_NAME. cbn. set_solver.
Defined.

(** C5, as it is stated, fails: a visitor who is not logged in is neither in
    the group TI nor staff, and the user-management view answers with the
    redirect to the login page instead of raising PermissionDenied. *)
Lemma manage_users_redirects_visitor :
  (TI_GROUP_NAME ∉ groups Samples.visitor)
  /\ is_staff Samples.visitor = false
  /\ manage_users Samples.int_of_digits (mkRequest "GET" Samples.visitor ∅ ∅)
       {[ 1 := Samples.alice ]}
     = ({[ 1 := Samples.alice ]}, Ok (Redirect "login"))
  /\ ~ denied (manage_users Samples.int_of_digits (mkRequest "GET" Samples.visitor ∅ ∅)
                 {[ 1 := Samples.alice ]}).
Proof.
  split; [unfold Samples.visitor; cbn; set_solver|].
  split; [reflexivity|]. split; [reflexivity|]. unfold denied. cbn. discriminate.
Qed.

End GateFacts.

Module ReportFacts.
Import Models Views Counting.

Section Grouping.

Context {K : Type} `{EqDecision K}.

Lemma row_of_bump (k k' : K) (rows : list (K * nat)) :
  row_of k (bump k' rows)
  = if decide (k = k') then Some (S (default 0 (row_of k rows))) else row_of k rows.
Proof.
  induction rows as [|[k0 n] rest IH]; cbn.
  - destruct (decide (k = k')); reflexivity.
  - destruct (decide (k' = k0)) as [->|Hne]; cbn.
    + destruct (decide (k = k0)); reflexivity.
    + destruct (decide (k = k0)) as [->|Hk].
      * destruct (decide (k0 = k')); [congruence|reflexivity].
      * exact IH.
Qed.

Lemma in_bump (x k : K) (rows : list (K * nat)) :
  In x (map fst (bump k rows)) <-> x = k \/ In x (map fst rows).
Proof.
  induction rows as [|[k0 n] rest IH]; cbn.
  - split; intros [->|[]]; now left.
  - destruct (decide (k = k0)) as [->|Hne]; cbn.
    + split; [tauto|]. intros [->|[->|Hin]]; tauto.
    + rewrite IH. tauto.
Qed.

Lemma nodup_bump (k : K) (rows : list (K * nat)) :
  List.NoDup (map fst rows) -> List.NoDup (map fst (bump k rows)).
Proof.
  induction rows as [|[k0 n] rest IH]; cbn; intros Hnd.
  - constructor; [intros []|constructor].
  - destruct (decide (k = k0)) as [->|Hne]; cbn; [exact Hnd|].
    apply List.NoDup_cons_iff in Hnd as [Hout Hrest].
    apply List.NoDup_cons_iff. split; [|now apply IH].
    rewrite in_bump. intros [Heq|Hin]; [congruence|contradiction].
Qed.

Lemma nodup_group_count (keys : list K) : List.NoDup (map fst (group_count keys)).
Proof.
  induction keys as [|k rest IH]; cbn; [constructor|now apply nodup_bump].
Qed.

Lemma rows_total_bump (k : K) (rows : list (K * nat)) :
  rows_total (bump k rows) = S (rows_total rows).
Proof.
  induction rows as [|[k0 n] rest IH]; cbn; [reflexivity|].
  destruct (decide (k = k0)); cbn; [lia|]. rewrite IH. lia.
Qed.

Lemma rows_total_group_count (keys : list K) :
  rows_total (group_count keys) = length keys.
Proof.
  induction keys as [|k rest IH]; cbn; [reflexivity|].
  now rewrite rows_total_bump, IH.
Qed.

Lemma row_of_absent (k : K) (rows : list (K * nat)) :
  ~ In k (map fst rows) -> row_of k rows = None.
Proof.
  induction rows as [|[k0 n] rest IH]; cbn; intros Hout; [reflexivity|].
  destruct (decide (k = k0)) as [->|Hne]; [exfalso; apply Hout; now left|].
  apply IH. intros Hin. apply Hout. now right.
Qed.

End Grouping.

Lemma row_of_group_count (k : string) (keys : list string) :
  row_of k (group_count keys)
  = let n := length (List.filter (fun x => String.eqb x k) keys) in
    if (n =? 0)%nat then None else Some n.
Proof.
  induction keys as [|k0 rest IH]; cbn; [reflexivity|].
  rewrite row_of_bump, IH. cbn zeta.
  destruct (decide (k = k0)) as [->|Hne].
  - rewrite String.eqb_refl. cbn.
    now destruct (length (List.filter (fun x => String.eqb x k0) rest)).
  - assert (Hb : String.eqb k0 k = false) by (apply String.eqb_neq; congruence).
    now rewrite Hb.
Qed.

Lemma fill_counts_lookup (counts : gmap string nat) (rows : list (string * nat)) (k : string) :
  List.NoDup (map fst rows) ->
  fill_counts counts rows !! k
  = match row_of k rows with Some n => Some n | None => counts !! k end.
Proof.
  revert counts. induction rows as [|[k0 n] rest IH]; intros counts Hnd; [reflexivity|].
  cbn in Hnd. apply List.NoDup_cons_iff in Hnd as [Hout Hrest].
  change (fill_counts counts ((k0, n) :: rest)) with (fill_counts (<[k0:=n]> counts) rest).
  rewrite (IH _ Hrest). cbn [row_of].
  destruct (decide (k = k0)) as [->|Hne].
  - rewrite (row_of_absent k0 rest Hout). apply lookup_insert_eq.
  - destruct (row_of k rest); [reflexivity|]. apply lookup_insert_ne. congruence.
Qed.

Lemma zero_counts_declared (choices : list (string * string)) (k : string) :
  In k (values choices) -> zero_counts choices !! k = Some 0.
Proof.
  unfold zero_counts, values. induction choices as [|[k0 label] rest IH]; cbn; [intros []|].
  intros [->|Hin].
  - apply lookup_insert_eq.
  - destruct (decide (k0 = k)) as [->|Hne]; [apply lookup_insert_eq|].
    rewrite lookup_insert_ne by exact Hne. now apply IH.
Qed.

Lemma zero_counts_value (choices : list (string * string)) (k : string) (v : nat) :
  zero_counts choices !! k = Some v -> v = 0.
Proof.
  unfold zero_counts. induction choices as [|[k0 label] rest IH]; cbn.
  - rewrite lookup_empty. discriminate.
  - destruct (decide (k0 = k)) as [->|Hne].
    + rewrite lookup_insert_eq. now intros [= <-].
    + rewrite lookup_insert_ne by exact Hne. exact IH.
Qed.

Lemma sum_counts_insert_fresh (counts : gmap string nat) (k : string) (n : nat) :
  counts !! k = None -> sum_counts (<[k:=n]> counts) = n + sum_counts counts.
Proof.
  intros Hk. unfold sum_counts. rewrite map_fold_insert_L; [reflexivity| |exact Hk].
  intros. lia.
Qed.

Lemma sum_counts_insert (counts : gmap string nat) (k : string) (n : nat) :
  counts !! k = None \/ counts !! k = Some 0 ->
  sum_counts (<[k:=n]> counts) = n + sum_counts counts.
Proof.
  intros [Hk|Hk]; [now apply sum_counts_insert_fresh|].
  rewrite <- (insert_delete_eq counts k n).
  rewrite sum_counts_insert_fresh by apply lookup_delete_eq.
  rewrite <- (insert_delete_id counts k 0 Hk) at 2.
  rewrite sum_counts_insert_fresh by apply lookup_delete_eq. reflexivity.
Qed.

Lemma sum_counts_zeros (counts : gmap string nat) :
  (forall k v, counts !! k = Some v -> v = 0) -> sum_counts counts = 0.
Proof.
  induction counts as [|k v counts Hk _ IH] using map_first_key_ind; intros Hz.
  - reflexivity.
  - rewrite sum_counts_insert_fresh by exact Hk.
    rewrite (Hz k v) by apply lookup_insert_eq.
    apply IH. intros j w Hj. apply (Hz j).
    rewrite lookup_insert_ne; [exact Hj|]. intros ->. congruence.
Qed.

Lemma sum_counts_fill (counts : gmap string nat) (rows : list (string * nat)) :
  List.NoDup (map fst rows) ->
  (forall k, In k (map fst rows) -> counts !! k = None \/ counts !! k = Some 0) ->
  sum_counts (fill_counts counts rows) = sum_counts counts + rows_total rows.
Proof.
  revert counts. induction rows as [|[k0 n] rest IH]; intros counts Hnd Hz.
  - cbn. lia.
  - cbn in Hnd. apply List.NoDup_cons_iff in Hnd as [Hout Hrest].
    change (fill_counts counts ((k0, n) :: rest)) with (fill_counts (<[k0:=n]> counts) rest).
    rewrite (IH _ Hrest).
    + rewrite sum_counts_insert by (apply Hz; now left).
      cbn. lia.
    + intros k Hin. rewrite lookup_insert_ne; [apply Hz; now right|].
      intros ->. contradiction.
Qed.

Lemma count_by_lookup (choices : list (string * string)) (field : Ticket -> string)
  (queryset : list Ticket) (key : string) :
  In key (values choices) ->
  count_by choices field queryset !! key = Some (tickets_with field key queryset).
Proof.
  intros Hin. unfold count_by. rewrite fill_counts_lookup by apply nodup_group_count.
  rewrite row_of_group_count. cbn zeta.
  assert (Hlen : length (List.filter (fun x => String.eqb x key) (map field queryset))
                 = tickets_with field key queryset).
  { unfold tickets_with. induction queryset as [|t rest IH]; cbn; [reflexivity|].
    destruct (String.eqb (field t) key); cbn; now rewrite IH. }
  rewrite Hlen. destruct (tickets_with field key queryset) as [|n] eqn:Hn; cbn.
  - now apply zero_counts_declared.
  - reflexivity.
Qed.

Lemma count_by_sum (choices : list (string * string)) (field : Ticket -> string)
  (queryset : list Ticket) :
  sum_counts (count_by choices field queryset) = length queryset.
Proof.
  unfold count_by. rewrite sum_counts_fill.
  - rewrite sum_counts_zeros by apply zero_counts_value.
    rewrite rows_total_group_count. now rewrite length_map.
  - apply nodup_group_count.
  - intros k _. destruct (zero_counts choices !! k) as [v|] eqn:Hv; [|now left].
    right. now rewrite (zero_counts_value choices k v Hv).
Qed.




End ReportFacts.

Module TextFacts.
Import Notions.

Lemma str_app_cons (c : ascii) (a b : string) : String c a +:+ b = String c (a +:+ b).
Proof. reflexivity. Qed.

Lemma str_app_nil_r (s : string) : s +:+ "" = s.
Proof. induction s as [|c rest IH]; [reflexivity|]. now rewrite str_app_cons, IH. Qed.

Lemma str_app_assoc (a b c : string) : a +:+ (b +:+ c) = (a +:+ b) +:+ c.
Proof. induction a as [|x rest IH]; [reflexivity|]. now rewrite !str_app_cons, IH. Qed.

Lemma str_rev_onto_app (s acc : string) :
  str_rev_onto s acc = str_rev s +:+ acc.
Proof.
  unfold str_rev. revert acc. induction s as [|c rest IH]; intros acc; cbn; [reflexivity|].
  rewrite IH, (IH (String c EmptyString)).
  rewrite <- str_app_assoc. reflexivity.
Qed.

Lemma str_rev_cons (c : ascii) (s : string) :
  str_rev (String c s) = str_rev s +:+ String c EmptyString.
Proof. unfold str_rev at 1. cbn. apply str_rev_onto_app. Qed.

Lemma str_rev_app (a b : string) : str_rev (a +:+ b) = str_rev b +:+ str_rev a.
Proof.
  induction a as [|c rest IH].
  - cbn. change (str_rev "") with "". now rewrite str_app_nil_r.
  - rewrite str_app_cons, !str_rev_cons, IH. now rewrite str_app_assoc.
Qed.

Lemma str_rev_involutive (s : string) : str_rev (str_rev s) = s.
Proof.
  induction s as [|c rest IH]; [reflexivity|].
  rewrite str_rev_cons, str_rev_app, IH. reflexivity.
Qed.

Lemma lstrip_tight (s : string) : tight (lstrip s).
Proof.
  induction s as [|c rest IH]; cbn; [exact I|].
  destruct (is_space c) eqn:Hc; [exact IH|exact Hc].
Qed.

Lemma lstrip_of_tight (s : string) : tight s -> lstrip s = s.
Proof. destruct s as [|c rest]; cbn; [reflexivity|]. now intros ->. Qed.

(** Dropping the white space in front of [a +:+ b], where [b] begins with
    another character, leaves a string that still ends in [b]. *)
Lemma lstrip_app_tight (a b : string) :
  b <> "" -> tight b -> exists a', lstrip (a +:+ b) = a' +:+ b /\ tight (a' +:+ b).
Proof.
  intros Hb Ht. induction a as [|c rest IH].
  - exists "". cbn. split; [now apply lstrip_of_tight|exact Ht].
  - rewrite str_app_cons. cbn [lstrip]. destruct (is_space c) eqn:Hc.
    + exact IH.
    + exists (String c rest). split; [reflexivity|exact Hc].
Qed.

Lemma tight_rev_strip (s : string) : tight (strip s) /\ tight (str_rev (strip s)).
Proof.
  unfold strip. rewrite str_rev_involutive. split; [|apply lstrip_tight].
  pose proof (lstrip_tight s) as Hv.
  destruct (lstrip s) as [|c v]; [exact I|].
  rewrite str_rev_cons.
  destruct (lstrip_app_tight (str_rev v) (String c "")) as (a' & -> & _);
    [discriminate|exact Hv|].
  rewrite str_rev_app. cbn. exact Hv.
Qed.

Lemma strip_fixed (s : string) : tight s -> tight (str_rev s) -> strip s = s.
Proof.
  intros Hs Hr. unfold strip.
  rewrite (lstrip_of_tight s Hs), (lstrip_of_tight _ Hr). apply str_rev_involutive.
Qed.

Lemma strip_idempotent (s : string) : strip (strip s) = strip s.
Proof. apply strip_fixed; apply tight_rev_strip. Qed.

End TextFacts.

Module DestinationFacts.
Import Wapi Notions TextFacts.

Lemma isdigit_plain (c : ascii) :
  isdigit c = true ->
  is_space c = false /\ lower_char c = c /\ c <> "s"%char.
Proof.
  destruct c as [b0 b1 b2 b3 b4 b5 b6 b7].
  destruct b0, b1, b2, b3, b4, b5, b6, b7; vm_compute; intros H;
    first [discriminate H | repeat split; discriminate].
Qed.

Lemma str_filter_fixed (p : ascii -> bool) (s : string) :
  str_forall p s = true -> str_filter p s = s.
Proof.
  induction s as [|c rest IH]; cbn; [reflexivity|].
  intros H. apply andb_true_iff in H as [Hc Hrest]. now rewrite Hc, IH.
Qed.

Lemma str_forall_rev (p : ascii -> bool) (s : string) :
  str_forall p s = true -> str_forall p (str_rev s) = true.
Proof.
  induction s as [|c rest IH]; [trivial|].
  intros H. cbn [str_forall] in H. apply andb_true_iff in H as [Hc Hrest].
  rewrite str_rev_cons. apply PhoneFacts.str_forall_append; [now apply IH|].
  cbn. now rewrite Hc.
Qed.

Lemma str_map_app (f : ascii -> ascii) (a b : string) :
  str_map f (a +:+ b) = str_map f a +:+ str_map f b.
Proof. induction a as [|c rest IH]; [reflexivity|]. rewrite str_app_cons. cbn. now rewrite IH. Qed.

Lemma str_map_rev (f : ascii -> ascii) (s : string) :
  str_map f (str_rev s) = str_rev (str_map f s).
Proof.
  induction s as [|c rest IH]; [reflexivity|].
  cbn [str_map]. rewrite !str_rev_cons, str_map_app, IH. reflexivity.
Qed.

Lemma str_map_digits (s : string) : str_forall isdigit s = true -> lower s = s.
Proof.
  unfold lower. induction s as [|c rest IH]; cbn; [reflexivity|].
  intros H. apply andb_true_iff in H as [Hc Hrest].
  destruct (isdigit_plain c Hc) as (_ & -> & _). now rewrite IH.
Qed.

Lemma tight_digits (s : string) : str_forall isdigit s = true -> tight s.
Proof.
  destruct s as [|c rest]; cbn; [trivial|].
  intros H. apply andb_true_iff in H as [Hc _]. now destruct (isdigit_plain c Hc).
Qed.

(** A string of digits ends in none of the JID suffixes. *)
Lemma endswith_digits (s suffix : string) :
  str_forall isdigit s = true -> s <> "" -> endswith (lower s) (suffix +:+ "s") = false.
Proof.
  intros Hd Hne. rewrite (str_map_digits s Hd). unfold endswith.
  rewrite str_rev_app. change (str_rev "s") with "s".
  pose proof (str_forall_rev isdigit s Hd) as Hr.
  destruct (str_rev s) as [|c rest] eqn:Hrev.
  - exfalso. apply Hne. rewrite <- (str_rev_involutive s), Hrev. reflexivity.
  - cbn in Hr. apply andb_true_iff in Hr as [Hc _].
    destruct (isdigit_plain c Hc) as (_ & _ & Hs).
    change ("s" +:+ str_rev suffix) with (String "s" (str_rev suffix)).
    cbn [String.prefix].
    destruct (Ascii.ascii_dec "s" c) as [<-|_]; [now contradiction Hs|reflexivity].
Qed.


Lemma normalize_destination_jid (s : string) :
  strip s = s -> s <> "" ->
  _normalize_destination s
  = if endswith (lower s) "@g.us" then Ok (s, "group")
    else if endswith (lower s) "@c.us" then Ok (s, "contact")
    else if is_empty (str_filter isdigit s) then
      Raise (ValueError "Destino inválido. Informe um número ou JID válido.")
    else Ok (str_filter isdigit s, "contact").
Proof.
  intros Hs Hne. unfold _normalize_destination. rewrite Hs.
  apply PhoneFacts.is_empty_false in Hne. now rewrite Hne.
Qed.

Lemma normalize_destination_digits (s : string) :
  str_forall isdigit s = true -> s <> "" -> _normalize_destination s = Ok (s, "contact").
Proof.
  intros Hd Hne.
  assert (Hstrip : strip s = s).
  { apply strip_fixed; apply tight_digits; [exact Hd|now apply str_forall_rev]. }
  rewrite (normalize_destination_jid s Hstrip Hne).
  pose proof (endswith_digits s "@g.u" Hd Hne) as Hg.
  pose proof (endswith_digits s "@c.u" Hd Hne) as Hc.
  change ("@g.u" +:+ "s") with "@g.us" in Hg. change ("@c.u" +:+ "s") with "@c.us" in Hc.
  rewrite Hg, Hc.
  rewrite (str_filter_fixed isdigit s Hd).
  apply PhoneFacts.is_empty_false in Hne. now rewrite Hne.
Qed.

(** X1: A destination that [_normalize_destination] accepts comes back non-empty,
    is a group exactly when the stripped input ends in "@g.us" (any case), in
    which case it is the stripped input itself, and is left as it is when
    normalised again.  A refused destination raises [ValueError], and only when
    the stripped input is empty or (not being a JID) holds no digit. *)
Theorem normalize_destination_contract (destination : string) :
  (forall to kind,
     _normalize_destination destination = Ok (to, kind) ->
     to <> ""
     /\ (kind = "group" /\ to = strip destination /\ endswith (lower to) "@g.us" = true
         \/ kind = "contact" /\ endswith (lower (strip destination)) "@g.us" = false)
     /\ _normalize_destination to = Ok (to, kind))
  /\ (forall e,
        _normalize_destination destination = Raise e ->
        (exists msg, e = ValueError msg)
        /\ (strip destination = "" \/ str_filter isdigit (strip destination) = "")).
Proof.
  unfold _normalize_destination at 1 3.
  destruct (is_empty (strip destination)) eqn:Hempty.
  { split; [discriminate|]. intros e [= <-]. split; [eauto|].
    left. now apply PhoneFacts.is_empty_true. }
  apply PhoneFacts.is_empty_false in Hempty.
  pose proof (strip_idempotent destination) as Hidem.
  destruct (endswith (lower (strip destination)) "@g.us") eqn:Hg.
  { split; [|discriminate]. intros to kind [= <- <-].
    split; [exact Hempty|]. split; [left; auto|].
    rewrite (normalize_destination_jid _ Hidem Hempty). now rewrite Hg. }
  destruct (endswith (lower (strip destination)) "@c.us") eqn:Hc.
  { split; [|discriminate]. intros to kind [= <- <-].
    split; [exact Hempty|]. split; [right; auto|].
    rewrite (normalize_destination_jid _ Hidem Hempty). now rewrite Hg, Hc. }
  destruct (is_empty (str_filter isdigit (strip destination))) eqn:Hd.
  { split; [discriminate|]. intros e [= <-]. split; [eauto|].
    right. now apply PhoneFacts.is_empty_true. }
  split; [|discriminate]. intros to kind [= <- <-].
  apply PhoneFacts.is_empty_false in Hd.
  split; [exact Hd|]. split; [right; auto|].
  apply normalize_destination_digits; [apply PhoneFacts.str_forall_filter|exact Hd].
Qed.

End DestinationFacts.

Module SendFacts.
Import Wapi Spec.

Lemma normalize_entries_lookup (group_id : string) (raw : list json) :
  exists found,
    any_group_id group_id (normalize_entries raw) = Ok found
    /\ (found = true
        <-> exists d, In (JObj d) (normalize_entries raw)
                      /\ lookup_field "id" d = Some (JStr group_id)).
Proof.
  induction raw as [|entry rest (found & Hfound & Hiff)].
  - exists false. split; [reflexivity|]. split; [discriminate|]. intros (d & [] & _).
  - cbn [normalize_entries]. destruct entry as [| | | | |items|d];
      try (exists found; split; [exact Hfound|exact Hiff]).
    set (group_id' := py_or (py_or (dict_get "id" d) (dict_get "jid" d)) (dict_get "chatId" d)).
    destruct (truthy group_id') eqn:Hid;
      [|exists found; split; [exact Hfound|exact Hiff]].
    cbn [any_group_id lookup_field String.eqb Ascii.eqb Bool.eqb].
    destruct (eq_str group_id' group_id) eqn:Heq.
    + exists true. split; [reflexivity|]. split; [intros _|reflexivity].
      eexists. split; [left; reflexivity|]. cbn.
      destruct group_id' as [| | | |s| |]; try discriminate Heq.
      cbn in Heq. apply String.eqb_eq in Heq. now subst.
    + exists found. split; [exact Hfound|]. rewrite Hiff. split.
      * intros (d' & Hin & Hd'). exists d'. split; [now right|exact Hd'].
      * intros (d' & [Hhead|Hin] & Hd'); [|now exists d'].
        injection Hhead as <-. cbn in Hd'. injection Hd' as Hd'.
        rewrite Hd' in Heq. cbn in Heq. now rewrite String.eqb_refl in Heq.
Qed.

(** X3: Looking a group up in a list that [_normalize_groups_payload] returned
    never raises: every record carries an id.  The lookup succeeds exactly
    when some record has the id. *)
Theorem normalized_groups_lookup (payload : json) (groups : list json) (group_id : string) :
  _normalize_groups_payload payload = Ok groups ->
  exists found,
    any_group_id group_id groups = Ok found
    /\ (found = true
        <-> exists d, In (JObj d) groups /\ lookup_field "id" d = Some (JStr group_id))
    /\ check_member group_id groups
       = if found then Ok tt
         else Raise (ValueError "Grupo não encontrado na sessão atual do WhatsApp.").
Proof.
  unfold _normalize_groups_payload.
  destruct (py_iter (select_groups payload)) as [raw|]; [|discriminate].
  intros [= <-]. destruct (normalize_entries_lookup group_id raw) as (found & Hfound & Hiff).
  exists found. split; [exact Hfound|]. split; [exact Hiff|].
  unfold check_member. rewrite Hfound. now destruct found.
Qed.

Lemma normalized_groups_lookup_witness :
  exists found,
    any_group_id "1@g.us" [JObj [("id", JStr "1@g.us"); ("name", JStr "TI");
                                  ("participantsCount", JNull)]] = Ok found
    /\ found = true.
Proof.
  destruct (normalized_groups_lookup
              (JObj [("groups", JArr [JObj [("id", JStr "1@g.us"); ("subject", JStr "TI")]])])
              [JObj [("id", JStr "1@g.us"); ("name", JStr "TI"); ("participantsCount", JNull)]]
              "1@g.us" eq_refl) as (found & Hfound & Hiff & _).
  exists found. split; [exact Hfound|].
  apply Hiff. eexists. split; [left; reflexivity|reflexivity].
Defined.


Lemma check_member_found (group_id : string) (groups : list json) :
  check_member group_id groups = Ok tt -> any_group_id group_id groups = Ok true.
Proof.
  unfold check_member. destruct (any_group_id group_id groups) as [[|]|e]; try discriminate.
  reflexivity.
Qed.

Lemma check_member_error (group_id : string) (groups : list json) (e : exn) :
  check_member group_id groups = Raise e -> is_RequestException e = false.
Proof.
  unfold check_member. destruct (any_group_id group_id groups) as [[|]|e'] eqn:Hany;
    [discriminate|intros [= <-]; reflexivity|].
  intros [= <-]. clear -Hany. revert e' Hany.
  induction groups as [|entry rest IH]; cbn; [discriminate|].
  intros e'. destruct entry as [| | | | | |d]; try (intros [= <-]; reflexivity).
  destruct (lookup_field "id" d) as [v|]; [|intros [= <-]; reflexivity].
  destruct (eq_str v group_id); [discriminate|apply IH].
Qed.

Lemma ensure_group_exists_found (net : Net) (now : Q) (group_id : string) (c c' : GroupCache)
  (asked : list string) :
  ensure_group_exists net now group_id c = (c', asked, Ok tt) ->
  exists groups, cache_groups c' = Some groups /\ any_group_id group_id groups = Ok true.
Proof.
  unfold ensure_group_exists. destruct (must_refetch now c).
  - destruct (list_wapi_groups net) as [urls [groups|e]].
    + intros [= <- _ Hmem]. exists groups. split; [reflexivity|now apply check_member_found].
    + destruct (is_RequestException e); discriminate.
  - destruct (cache_groups c) as [groups|] eqn:Hc; [|discriminate].
    intros [= <- _ Hmem]. exists groups. split; [exact Hc|now apply check_member_found].
Qed.

Lemma ensure_group_exists_error (net : Net) (now : Q) (group_id : string) (c c' : GroupCache)
  (asked : list string) (e : exn) :
  ensure_group_exists net now group_id c = (c', asked, Raise e) ->
  is_RequestException e = false.
Proof.
  unfold ensure_group_exists. destruct (must_refetch now c).
  - destruct (list_wapi_groups net) as [urls [groups|e']].
    + intros [= _ _ Hmem]. now apply check_member_error in Hmem.
    + destruct (is_RequestException e') eqn:He'; intros [= _ _ <-]; [reflexivity|exact He'].
  - destruct (cache_groups c) as [groups|]; [|intros [= _ _ <-]; reflexivity].
    intros [= _ _ Hmem]. now apply check_member_error in Hmem.
Qed.

Lemma in_post_of_gets (asked : list string) (call : http_call) (url phone text : string) :
  In (HttpPost url phone text) (map HttpGet asked ++ [call]) -> call = HttpPost url phone text.
Proof.
  rewrite in_app_iff. intros [Hin|[Heq|[]]]; [|exact Heq].
  apply in_map_iff in Hin as (u & Hu & _). discriminate.
Qed.

Lemma in_post_of_gets_only (asked : list string) (url phone text : string) :
  ~ In (HttpPost url phone text) (map HttpGet asked).
Proof. intros Hin. apply in_map_iff in Hin as (u & Hu & _). discriminate. Qed.

(** X4: A text is posted only to the destination that was asked for, and to a
    group only after the group was found in the list of the session: the
    cache then holds a list with the group's id.  A contact is posted to
    without any look at the groups. *)
Theorem send_whatsapp_message_known_group (net : Net) (now : Q) (destination message : string)
  (c c' : GroupCache) (calls : list http_call) (r : result json) :
  send_whatsapp_message net now destination message c = (c', calls, r) ->
  forall url phone text,
    In (HttpPost url phone text) calls ->
    url = WAPI_SEND_URL /\ text = message
    /\ exists kind,
         _normalize_destination destination = Ok (phone, kind)
         /\ (kind = "group" ->
             exists groups, cache_groups c' = Some groups
                            /\ any_group_id phone groups = Ok true)
         /\ (kind <> "group" ->
             c' = c /\ calls = [HttpPost WAPI_SEND_URL phone message]).
Proof.
  unfold send_whatsapp_message.
  destruct (_normalize_destination destination) as [[to kind]|e]; [|intros [= _ <- _] ? ? ? []].
  destruct (String.eqb kind "group") eqn:Hkind.
  - apply String.eqb_eq in Hkind. subst kind.
    destruct (ensure_group_exists net now to c) as [[c1 asked] [[]|e]] eqn:Hens.
    + intros [= <- <- _] url phone text Hin.
      apply in_post_of_gets in Hin. injection Hin as <- <- <-.
      split; [reflexivity|]. split; [reflexivity|]. exists "group".
      split; [reflexivity|]. split; [|congruence].
      intros _. now apply (ensure_group_exists_found net now to c c1 asked).
    + intros [= _ <- _] url phone text Hin. now apply in_post_of_gets_only in Hin.
  - apply String.eqb_neq in Hkind.
    intros [= <- <- _] url phone text [Hin|[]]. injection Hin as <- <- <-.
    split; [reflexivity|]. split; [reflexivity|]. exists kind.
    split; [reflexivity|]. split; [congruence|]. intros _. split; reflexivity.
Qed.

Lemma post_message_ok (net : Net) (to message : string) (result : json) :
  post_message net to message = Ok result ->
  exists response d,
    net_post net = Got response /\ is_http_error response = false
    /\ body response = Some result /\ result = JObj d
    /\ ((exists s, py_or (dict_get "status" d) (dict_get "state" d) = JStr s
                   /\ In s SUCCESS_STATUSES)
        \/ truthy (py_or (dict_get "messageId" d) (dict_get "insertedId" d)) = true).
Proof.
  unfold post_message. destruct (net_post net) as [|response]; [discriminate|].
  destruct (is_http_error response) eqn:Herr; [discriminate|].
  destruct (body response) as [res|] eqn:Hbody; [|discriminate].
  destruct res as [| | | | | |d]; try discriminate. cbn [_normalize_response].
  destruct (in_success_statuses _) as [in_set|e] eqn:Hin; [|discriminate].
  destruct (in_set || truthy _) eqn:Hor; [|discriminate].
  intros [= <-]. exists response, d. repeat (split; [reflexivity || assumption|]).
  apply orb_true_iff in Hor as [->|Hid]; [|now right]. left.
  unfold in_success_statuses in Hin.
  destruct (py_or (dict_get "status" d) (dict_get "state" d)) as [| | | |s| |];
    try discriminate Hin.
  injection Hin as Hin. exists s. split; [reflexivity|].
  assert (Hex : existsb (String.eqb s) SUCCESS_STATUSES = true) by exact Hin.
  apply existsb_exists in Hex as (x & Hx & Heq). apply String.eqb_eq in Heq. now subst.
Qed.

Lemma post_message_error (net : Net) (to message msg : string) :
  post_message net to message <> Raise (ValueError msg).
Proof.
  unfold post_message. destruct (net_post net) as [|response]; [discriminate|].
  destruct (is_http_error response); [discriminate|].
  destruct (body response) as [res|]; [|discriminate].
  destruct res as [| | | | | |d]; try discriminate. cbn [_normalize_response].
  destruct (in_success_statuses _) as [in_set|e] eqn:Hin.
  - destruct (in_set || truthy _); discriminate.
  - unfold in_success_statuses in Hin.
    destruct (py_or _ _); try discriminate Hin; injection Hin as <-; discriminate.
Qed.

Lemma post_message_decode (net : Net) (to message : string) :
  post_message net to message = Raise JSONDecodeError ->
  exists response,
    net_post net = Got response /\ is_http_error response = false /\ body response = None.
Proof.
  unfold post_message. destruct (net_post net) as [|response]; [discriminate|].
  destruct (is_http_error response) eqn:Herr; [discriminate|].
  destruct (body response) as [res|] eqn:Hbody; [|intros _; now exists response].
  destruct res as [| | | | | |d]; try discriminate. cbn [_normalize_response].
  destruct (in_success_statuses _) as [in_set|e] eqn:Hin.
  - destruct (in_set || truthy _); discriminate.
  - unfold in_success_statuses in Hin.
    destruct (py_or _ _); try discriminate Hin; injection Hin as <-; discriminate.
Qed.

Lemma normalize_destination_raises (destination : string) (e : exn) :
  _normalize_destination destination = Raise e -> exists msg, e = ValueError msg.
Proof.
  unfold _normalize_destination.
  destruct (is_empty (strip destination)); [intros [= <-]; eauto|].
  destruct (endswith _ _); [discriminate|]. destruct (endswith _ _); [discriminate|].
  destruct (is_empty _); [intros [= <-]; eauto|discriminate].
Qed.

Lemma value_error_proper (e : exn) :
  is_ValueError e = true -> is_RequestException e = false -> exists msg, e = ValueError msg.
Proof. destruct e; try discriminate. eauto. Qed.

(** X5: What the outcome of [send_whatsapp_message] tells its caller.  A result
    is returned only for a POST that the service answered without an error
    status and acknowledged, by a status of success or by a message id.  Of
    the exceptions that a handler for [ValueError] catches, a [ValueError]
    proper means that nothing was posted, while the [JSONDecodeError] of the
    HTTP library, which is a [ValueError] too, means that the text was
    posted and answered, without an error status, by a body that is no
    JSON.  Every exception that a handler for [RequestException] catches
    means that the POST was made. *)
Theorem send_whatsapp_message_outcome (net : Net) (now : Q) (destination message : string)
  (c c' : GroupCache) (calls : list http_call) (r : result json) :
  send_whatsapp_message net now destination message c = (c', calls, r) ->
  (forall result,
     r = Ok result ->
     exists response d to asked,
       net_post net = Got response /\ is_http_error response = false
       /\ body response = Some result /\ result = JObj d
       /\ ((exists s, py_or (dict_get "status" d) (dict_get "state" d) = JStr s
                      /\ In s SUCCESS_STATUSES)
           \/ truthy (py_or (dict_get "messageId" d) (dict_get "insertedId" d)) = true)
       /\ calls = map HttpGet asked ++ [HttpPost WAPI_SEND_URL to message])
  /\ (forall e,
        r = Raise e -> is_ValueError e = true ->
        (exists msg, e = ValueError msg)
        /\ (forall url phone text, ~ In (HttpPost url phone text) calls)
        \/ e = JSONDecodeError
           /\ exists to asked response,
                calls = map HttpGet asked ++ [HttpPost WAPI_SEND_URL to message]
                /\ net_post net = Got response /\ is_http_error response = false
                /\ body response = None)
  /\ (forall e,
        r = Raise e -> is_RequestException e = true ->
        exists to asked, calls = map HttpGet asked ++ [HttpPost WAPI_SEND_URL to message]).
Proof.
  unfold send_whatsapp_message.
  destruct (_normalize_destination destination) as [[to kind]|e] eqn:Hnorm.
  2:{ intros [= _ <- <-]. apply normalize_destination_raises in Hnorm as (msg & ->).
      split; [discriminate|]. split.
      - intros e [= <-] _. left. split; [eauto|]. intros ? ? ? [].
      - intros e [= <-]. discriminate. }
  destruct (if String.eqb kind "group" then ensure_group_exists net now to c
            else (c, [], Ok tt)) as [[c1 asked] [[]|e]] eqn:Hens.
  - intros [= _ <- <-]. split; [|split].
    + intros result Hpost. apply post_message_ok in Hpost as (response & d & H).
      exists response, d, to, asked. tauto.
    + intros e Hpost Hvalue. right.
      destruct e; try discriminate Hvalue.
      * split; [reflexivity|]. apply post_message_decode in Hpost as (response & H).
        now exists to, asked, response.
      * now apply post_message_error in Hpost.
    + intros e _ _. now exists to, asked.
  - intros [= _ <- <-].
    assert (Herr : is_RequestException e = false).
    { destruct (String.eqb kind "group"); [|discriminate].
      now apply ensure_group_exists_error in Hens. }
    split; [discriminate|]. split.
    + intros e' [= <-] Hvalue. left. split; [now apply value_error_proper|].
      intros url phone text. apply in_post_of_gets_only.
    + intros e' [= <-] Hrequest. congruence.
Qed.

Lemma send_whatsapp_message_known_group_witness :
  exists groups,
    cache_groups (fst (fst (send_whatsapp_message Samples.net_ok 1000 "120363421981424263@g.us"
                              "Teste" empty_cache))) = Some groups
    /\ any_group_id "120363421981424263@g.us" groups = Ok true.
Proof.
  set (run := send_whatsapp_message Samples.net_ok 1000 "120363421981424263@g.us" "Teste"
                empty_cache).
  assert (Hrun : run = (fst (fst run), snd (fst run), snd run))
    by (now destruct run as [[c' calls] r]).
  destruct (send_whatsapp_message_known_group _ _ _ _ _ _ _ _ Hrun
              WAPI_SEND_URL "120363421981424263@g.us" "Teste")
    as (_ & _ & kind & Hkind & Hgroup & _).
  - vm_compute. tauto.
  - apply Hgroup. vm_compute in Hkind. now injection Hkind as <-.
Defined.

Lemma send_whatsapp_message_outcome_witness :
  snd (send_whatsapp_message Samples.net_page 1000 "5514998820134" "Teste" empty_cache)
  = Raise JSONDecodeError
  /\ is_ValueError JSONDecodeError = true
  /\ In (HttpPost WAPI_SEND_URL "5514998820134" "Teste")
        (snd (fst (send_whatsapp_message Samples.net_page 1000 "5514998820134" "Teste"
                     empty_cache))).
Proof.
  set (run := send_whatsapp_message Samples.net_page 1000 "5514998820134" "Teste"
                empty_cache).
  assert (Hrun : run = (fst (fst run), snd (fst run), snd run))
    by (now destruct run as [[c' calls] r]).
  assert (Hraise : snd run = Raise JSONDecodeError) by (vm_compute; reflexivity).
  split; [exact Hraise|]. split; [reflexivity|].
  destruct (proj1 (proj2 (send_whatsapp_message_outcome _ _ _ _ _ _ _ _ Hrun))
              JSONDecodeError Hraise eq_refl)
    as [((msg & Hmsg) & _) | (_ & to & asked & response & Hcalls & _)];
    [discriminate Hmsg|].
  vm_compute. left. reflexivity.
Defined.

End SendFacts.

Module RecipientFacts.
Import Utils Models Forms Views Spec Notions.

Lemma filter_fixed (p : N -> bool) (s : text) : forallb p s = true -> List.filter p s = s.
Proof.
  induction s as [|c rest IH]; cbn; [reflexivity|].
  intros H. apply andb_true_iff in H as [Hc Hrest]. rewrite Hc. now rewrite IH.
Qed.

Lemma normalized_prepared (phone : text) : is_normalized phone = true -> prepared phone = phone.
Proof.
  unfold is_normalized, prepared. intros H.
  apply andb_true_iff in H as [H Hcc]. apply andb_true_iff in H as [Hlen Hdig].
  rewrite (filter_fixed is_decimal phone Hdig).
  apply PhoneFacts.text_len_in_true in Hlen.
  assert (H00 : text_startswith phone (str "00") = false).
  { change (str "55") with [53; 53]%N in Hcc. change (str "00") with [48; 48]%N.
    destruct phone as [|a rest]; [discriminate Hcc|].
    cbn [text_startswith] in Hcc |- *.
    apply andb_true_iff in Hcc as [Ha _]. apply N.eqb_eq in Ha. now subst a. }
  rewrite H00.
  assert (Hshort : text_len_in phone 10 11 = false).
  { unfold text_len_in. destruct Hlen as [-> | ->]; reflexivity. }
  now rewrite Hshort.
Qed.

Lemma normalize_phone_number_fixed (phone : text) :
  is_normalized phone = true -> normalize_phone_number phone (str "55") = Ok phone.
Proof.
  intros H. rewrite PhoneFacts.normalize_phone_number_prepared.
  rewrite (normalized_prepared phone H).
  unfold is_normalized in H.
  apply andb_true_iff in H as [H Hcc]. apply andb_true_iff in H as [Hlen Hdig].
  rewrite (filter_fixed is_decimal phone Hdig), Hlen, Hcc.
  assert (Hne : text_is_empty phone = false).
  { apply PhoneFacts.text_len_in_true in Hlen. destruct phone; [|reflexivity].
    destruct Hlen; discriminate. }
  now rewrite Hne.
Qed.

(** X6: [normalize_phone_number] returns its own results unchanged: normalising
    twice is normalising once. *)
Theorem normalize_phone_number_idempotent (value digits : text) :
  normalize_phone_number value (str "55") = Ok digits ->
  normalize_phone_number digits (str "55") = Ok digits.
Proof.
  intros H. apply normalize_phone_number_fixed.
  now apply (PhoneFacts.normalize_phone_number_ok value).
Qed.

Lemma normalize_phone_number_idempotent_witness :
  normalize_phone_number (str "0055 (14) 99882-0134") (str "55") = Ok (str "5514998820134")
  /\ normalize_phone_number (str "5514998820134") (str "55") = Ok (str "5514998820134").
Proof.
  split; [vm_compute; reflexivity|].
  exact (normalize_phone_number_idempotent (str "0055 (14) 99882-0134") (str "5514998820134")
           ltac:(vm_compute; reflexivity)).
Defined.

(** X7: What [clean_phone_number] of the recipient form returns is what
    [normalize_phone_number] makes of the field: a text of 12 or 13 digits
    that starts with 55, where a digit is a decimal digit of any script, as
    [re] reads them.  The model's own [clean] accepts it and leaves it as it
    is; the record then holds the normalised number as its [original_input]
    too.  What the form refuses, it refuses with the text of the
    [ValueError]. *)
Theorem recipient_form_phone_number (value : option text) :
  (forall phone name original,
     clean_phone_number value = Ok phone ->
     normalize_phone_number (default [] value) (str "55") = Ok phone
     /\ phone = prepared (default [] value)
     /\ (length phone = 12 \/ length phone = 13)
     /\ forallb is_decimal phone = true
     /\ text_startswith phone (str "55") = true
     /\ clean (mkRecipient name phone original) = Ok (mkRecipient name phone phone))
  /\ (forall e,
        clean_phone_number value = Raise e ->
        exists msg, e = ValidationError msg
                    /\ normalize_phone_number (default [] value) (str "55")
                       = Raise (ValueError msg)).
Proof.
  unfold clean_phone_number.
  destruct (normalize_phone_number (default [] value) (str "55")) as [digits|e] eqn:Hn.
  - split; [|discriminate]. intros phone name original [= <-].
    pose proof (PhoneFacts.normalize_phone_number_ok _ _ Hn) as Hok.
    split; [reflexivity|]. split; [now apply PhoneFacts.normalize_phone_number_value|].
    assert (Hform := Hok). unfold is_normalized in Hform.
    apply andb_true_iff in Hform as [Hform Hcc]. apply andb_true_iff in Hform as [Hlen Hdig].
    apply PhoneFacts.text_len_in_true in Hlen.
    split; [exact Hlen|]. split; [exact Hdig|]. split; [exact Hcc|].
    unfold clean. cbn [rc_phone_number rc_name].
    now rewrite (normalize_phone_number_fixed digits Hok).
  - destruct (PhoneFacts.normalize_phone_number_error _ _ Hn) as (msg & ->).
    split; [discriminate|]. intros e [= <-]. now exists msg.
Qed.

Lemma recipient_form_phone_number_witness :
  clean_phone_number (Some Samples.local_number) = Ok (str "55" ++ Samples.local_number)
  /\ clean (mkRecipient "Joao" (str "55" ++ Samples.local_number) [])
     = Ok (mkRecipient "Joao" (str "55" ++ Samples.local_number)
             (str "55" ++ Samples.local_number)).
Proof.
  split; [vm_compute; reflexivity|].
  exact (proj2 (proj2 (proj2 (proj2 (proj2
           (proj1 (recipient_form_phone_number (Some Samples.local_number))
              (str "55" ++ Samples.local_number) "Joao" []
              ltac:(vm_compute; reflexivity))))))).
Defined.

Lemma phone_is_free_spec (table : gmap nat WhatsAppRecipient) (r : WhatsAppRecipient) :
  phone_is_free table r = true
  <-> forall k row, table !! k = Some row -> rc_phone_number row <> rc_phone_number r.
Proof.
  unfold phone_is_free. rewrite negb_true_iff. split.
  - intros Hfree k row Hk Heq.
    assert (Hex : existsb (fun kv => bool_decide (rc_phone_number (snd kv) = rc_phone_number r))
                    (map_to_list table) = true).
    { apply existsb_exists. exists (k, row). split.
      - apply list_elem_of_In. now apply elem_of_map_to_list.
      - cbn. now apply bool_decide_eq_true_2. }
    congruence.
  - intros Hall. apply not_true_is_false. intros Hex.
    apply existsb_exists in Hex as ([k row] & Hin & Heq).
    apply list_elem_of_In, elem_of_map_to_list in Hin.
    cbn in Heq. apply bool_decide_eq_true_1 in Heq. now apply (Hall k row Hin).
Qed.

Lemma save_keeps_distinct (table table' : gmap nat WhatsAppRecipient) (r : WhatsAppRecipient) :
  distinct_phones table -> save table r = Ok table' -> distinct_phones table'.
Proof.
  intros Hdist Hsave.
  destruct (PhoneFacts.save_row table table' r Hsave) as (digits & _ & -> & Hfree).
  rewrite phone_is_free_spec in Hfree. cbn [rc_phone_number] in Hfree.
  intros i j ri rj Hi Hj Heq.
  destruct (decide (i = fresh (dom table))) as [->|Hni];
    destruct (decide (j = fresh (dom table))) as [->|Hnj]; [reflexivity| | |].
  - rewrite lookup_insert_eq in Hi. injection Hi as <-.
    rewrite lookup_insert_ne in Hj by congruence.
    exfalso. apply (Hfree j rj Hj). now rewrite <- Heq.
  - rewrite lookup_insert_eq in Hj. injection Hj as <-.
    rewrite lookup_insert_ne in Hi by congruence.
    exfalso. now apply (Hfree i ri Hi).
  - rewrite lookup_insert_ne in Hi by congruence.
    rewrite lookup_insert_ne in Hj by congruence.
    now apply (Hdist i j ri rj).
Qed.

(** X8: Saving keeps the phone numbers of the recipient table distinct, and a
    number that is in the table cannot be saved again, however it is
    written: the save is refused with a [ValidationError]. *)
Theorem save_keeps_phone_numbers_unique (table table' : gmap nat WhatsAppRecipient)
  (r : WhatsAppRecipient) :
  distinct_phones table ->
  save table r = Ok table' ->
  distinct_phones table'
  /\ size table' = S (size table)
  /\ (forall k row, table !! k = Some row -> table' !! k = Some row)
  /\ (forall again,
        normalize_phone_number (rc_phone_number again) (str "55")
        = normalize_phone_number (rc_phone_number r) (str "55") ->
        exists msg, save table' again = Raise (ValidationError msg)).
Proof.
  intros Hdist Hsave. split; [now apply (save_keeps_distinct table table' r)|].
  destruct (PhoneFacts.save_row table table' r Hsave) as (digits & Hn & -> & Hfree).
  split; [apply map_size_insert_None, PhoneFacts.fresh_key_unused|].
  split.
  { intros k row Hk. rewrite lookup_insert_ne; [exact Hk|].
    intros <-. rewrite PhoneFacts.fresh_key_unused in Hk. discriminate. }
  intros again Hsame. unfold save, full_clean, clean. rewrite Hsame, Hn.
  destruct (negb (clean_fields again)); [eauto|].
  match goal with |- context [phone_is_free ?t ?x] => destruct (phone_is_free t x) eqn:Hagain end;
    [|cbn; eauto].
  exfalso. rewrite phone_is_free_spec in Hagain.
  apply (Hagain (fresh (dom table)) _ (lookup_insert_eq _ _ _)). reflexivity.
Qed.

Lemma save_keeps_phone_numbers_unique_witness :
  exists msg,
    save {[ 0 := mkRecipient "Joao Silva" (str "5514998820134") (str "(14) 99882-0134") ]}
         (mkRecipient "Joao" (str "+55 14 99882-0134") [])
    = Raise (ValidationError msg).
Proof.
  assert (Hempty : distinct_phones (∅ : gmap nat WhatsAppRecipient)).
  { intros i j ri rj Hi. rewrite lookup_empty in Hi. discriminate. }
  assert (Hsave : save ∅ (mkRecipient "Joao Silva" (str "(14) 99882-0134") [])
                  = Ok {[ 0 := mkRecipient "Joao Silva" (str "5514998820134")
                                  (str "(14) 99882-0134") ]}).
  { vm_compute. reflexivity. }
  exact (proj2 (proj2 (proj2 (save_keeps_phone_numbers_unique _ _ _ Hempty Hsave)))
           (mkRecipient "Joao" (str "+55 14 99882-0134") []) ltac:(vm_compute; reflexivity)).
Defined.

Lemma clean_fields_instance (name : string) (phone : text) :
  clean_fields (mkRecipient name phone []) = true ->
  (length phone <=? 32)%nat = true ->
  clean_fields (mkRecipient name phone phone) = true.
Proof.
  unfold clean_fields. cbn [rc_name rc_phone_number rc_original_input length].
  intros H Hlen. rewrite andb_true_r in H. now rewrite H, Hlen.
Qed.

(** The instance of a valid recipient form: its name and its phone number
    are what [clean_name] and [clean_phone_number] return, the number is in
    the normalized form and is the [original_input] too, and the model's
    [save] accepts the instance as it is. *)
Lemma recipient_form_instance (table : gmap nat WhatsAppRecipient)
  (form : WhatsAppRecipientForm) (instance : WhatsAppRecipient) :
  recipient_form_is_valid table form = Some instance ->
  (exists name phone,
     field_name form = Some name /\ field_phone_number form = Some phone
     /\ clean_name (Some name) = Ok (rc_name instance)
     /\ normalize_phone_number phone (str "55") = Ok (rc_phone_number instance))
  /\ rc_original_input instance = rc_phone_number instance
  /\ is_normalized (rc_phone_number instance) = true
  /\ save table instance = Ok (<[fresh (dom table) := instance]> table).
Proof.
  unfold recipient_form_is_valid.
  destruct (field_name form) as [name|]; [|discriminate].
  destruct (field_phone_number form) as [phone|]; [|discriminate].
  destruct (clean_name (Some name)) as [name'|e] eqn:Hname; [|discriminate].
  unfold clean_phone_number. change (default [] (Some phone)) with phone.
  destruct (normalize_phone_number phone (str "55")) as [digits|e] eqn:Hn.
  2:{ destruct e; discriminate. }
  destruct (full_clean table (mkRecipient name' digits [])) as [row|e] eqn:Hfull;
    [|discriminate].
  intros [= <-].
  pose proof (PhoneFacts.normalize_phone_number_ok _ _ Hn) as Hok.
  pose proof (normalize_phone_number_fixed digits Hok) as Hfixed.
  apply PhoneFacts.full_clean_row in Hfull as (Hclean & Hfields & Hfree).
  unfold clean in Hclean. cbn [rc_phone_number rc_name] in Hclean.
  rewrite Hfixed in Hclean. injection Hclean as <-.
  cbn [rc_name rc_phone_number rc_original_input].
  split; [exists name, phone; now repeat split|].
  split; [reflexivity|]. split; [exact Hok|].
  assert (Hlen : (length digits <=? 32)%nat = true).
  { unfold is_normalized in Hok. apply andb_true_iff in Hok as [Hok _].
    apply andb_true_iff in Hok as [Hlen _]. apply PhoneFacts.text_len_in_true in Hlen.
    destruct Hlen as [-> | ->]; reflexivity. }
  unfold save, full_clean, clean. cbn [rc_phone_number rc_name].
  rewrite Hfixed, (clean_fields_instance name' digits Hfields Hlen). cbn [negb].
  now rewrite Hfree.
Qed.

End RecipientFacts.

Module ConfigFacts.
Import Utils Models Forms Views Spec Notions.

Lemma delete_keeps_distinct (table : gmap nat WhatsAppRecipient) (pk : nat) :
  distinct_phones table -> distinct_phones (delete pk table).
Proof.
  intros Hdist i j ri rj Hi Hj. apply lookup_delete_Some in Hi as [_ Hi].
  apply lookup_delete_Some in Hj as [_ Hj]. now apply (Hdist i j ri rj).
Qed.

Ltac conjs := repeat match goal with |- _ /\ _ => split end.

Lemma show_page_table (nt : Wapi.Net) (table : gmap nat WhatsAppRecipient) :
  fst (match snd (Wapi.list_wapi_groups nt) with
       | Ok _ => (table, Ok (Render "whatsapp_config.html" 200))
       | Raise e =>
           if is_RequestException e
           then (table, Ok (Render "whatsapp_config.html" 200))
           else (table, Raise e)
       end) = table.
Proof.
  destruct (snd (Wapi.list_wapi_groups nt)) as [groups|e]; [reflexivity|].
  now destruct (is_RequestException e).
Qed.

(** X9: Whatever request the WhatsApp-configuration view gets, the recipient
    table stays in the normalised form and without a repeated phone number;
    and the table changes only on a POST of an authenticated TI user.  Such
    a POST with a valid form stores exactly the instance of the form, as a
    new row, and answers with the redirect: the row holds the normalised
    number of the field, as its [original_input] too.  Such a POST with the
    action [delete_recipient] removes exactly the row that the key names. *)
Theorem whatsapp_config_keeps_recipients (py_int : string -> option Z) (nt : Wapi.Net)
  (form : WhatsAppRecipientForm) (request : Request)
  (recipients : gmap nat WhatsAppRecipient) :
  map_Forall (fun _ row => is_normalized (rc_phone_number row) = true) recipients ->
  distinct_phones recipients ->
  let out := whatsapp_config py_int nt form request recipients in
  map_Forall (fun _ row => is_normalized (rc_phone_number row) = true) (fst out)
  /\ distinct_phones (fst out)
  /\ (fst out <> recipients ->
      is_authenticated (user request) = true /\ _is_ti (user request) = true
      /\ method request = "POST")
  /\ (forall instance,
        is_authenticated (user request) = true -> _is_ti (user request) = true ->
        method request = "POST" ->
        POST request !! "action" <> Some "delete_recipient" ->
        recipient_form_is_valid recipients form = Some instance ->
        out = (<[fresh (dom recipients) := instance]> recipients,
               Ok (Redirect "whatsapp_config"))
        /\ recipients !! fresh (dom recipients) = None
        /\ rc_original_input instance = rc_phone_number instance
        /\ exists phone,
             field_phone_number form = Some phone
             /\ normalize_phone_number phone (str "55") = Ok (rc_phone_number instance))
  /\ (forall pk row,
        is_authenticated (user request) = true -> _is_ti (user request) = true ->
        method request = "POST" ->
        POST request !! "action" = Some "delete_recipient" ->
        get_object_or_404 py_int recipients (POST request !! "recipient_id") = Ok (pk, row) ->
        out = (delete pk recipients, Ok (Redirect "whatsapp_config"))).
Proof.
  intros Hall Hdist. cbv zeta.
  unfold whatsapp_config, login_required, whatsapp_config_view.
  destruct (is_authenticated (user request)); [|cbn; conjs; try tauto; intros; discriminate].
  destruct (_is_ti (user request)); [|cbn; conjs; try tauto; intros; discriminate].
  cbn [negb].
  pose proof (show_page_table nt recipients) as Hpage.
  destruct (String.eqb (method request) "POST") eqn:Hpost.
  2:{ rewrite Hpage. apply String.eqb_neq in Hpost.
      conjs; try tauto; intros; exfalso; congruence. }
  apply String.eqb_eq in Hpost.
  destruct (bool_decide (POST request !! "action" = Some "delete_recipient")) eqn:Haction.
  - apply bool_decide_eq_true_1 in Haction.
    destruct (get_object_or_404 py_int recipients (POST request !! "recipient_id"))
      as [[pk row]|e]; cbn [fst].
    + split; [now apply map_Forall_delete|]. split; [now apply delete_keeps_distinct|].
      split; [tauto|]. split; [intros; contradiction|].
      now intros pk' row' _ _ _ _ [= <- <-].
    + conjs; try tauto; intros; first [contradiction|discriminate].
  - apply bool_decide_eq_false_1 in Haction.
    destruct (recipient_form_is_valid recipients form) as [instance|] eqn:Hvalid.
    2:{ rewrite Hpage. conjs; try tauto; intros; first [contradiction|discriminate]. }
    destruct (RecipientFacts.recipient_form_instance recipients form instance Hvalid)
      as ((name & phone & _ & Hphone & _ & Hn) & Horiginal & Hnorm & Hsave).
    rewrite Hsave. cbn [fst].
    split; [now apply map_Forall_insert_2|].
    split; [exact (RecipientFacts.save_keeps_distinct recipients _ _ Hdist Hsave)|].
    split; [tauto|]. split; [|intros; contradiction].
    intros instance' _ _ _ _ [= <-].
    split; [reflexivity|]. split; [apply PhoneFacts.fresh_key_unused|].
    split; [exact Horiginal|]. now exists phone.
Qed.

Lemma whatsapp_config_keeps_recipients_witness :
  whatsapp_config Samples.int_of_digits Samples.net_ok
    (mkRecipientForm (Some "Joao Silva") (Some (str "(14) 99882-0134")))
    (Samples.request_of Samples.bob [("action", "add_recipient")])
    {[ 0 := mkRecipient "Maria" (str "5511987654321") (str "5511987654321") ]}
  = ({[ 0 := mkRecipient "Maria" (str "5511987654321") (str "5511987654321");
        1 := mkRecipient "Joao Silva" (str "5514998820134") (str "5514998820134") ]},
     Ok (Redirect "whatsapp_config")).
Proof.
  assert (Hall : map_Forall (fun _ row => is_normalized (rc_phone_number row) = true)
                   ({[ 0 := mkRecipient "Maria" (str "5511987654321") (str "5511987654321") ]}
                    : gmap nat WhatsAppRecipient)).
  { apply map_Forall_singleton. vm_compute. reflexivity. }
  assert (Hdist : distinct_phones
                    {[ 0 := mkRecipient "Maria" (str "5511987654321") (str "5511987654321") ]}).
  { intros i j ri rj Hi Hj _.
    apply lookup_singleton_Some in Hi as [<- _]. now apply lookup_singleton_Some in Hj as [<- _]. }
  destruct (whatsapp_config_keeps_recipients Samples.int_of_digits Samples.net_ok
              (mkRecipientForm (Some "Joao Silva") (Some (str "(14) 99882-0134")))
              (Samples.request_of Samples.bob [("action", "add_recipient")]) _ Hall Hdist)
    as (_ & _ & _ & Hvalid & _).
  destruct (Hvalid (mkRecipient "Joao Silva" (str "5514998820134") (str "5514998820134"))
              eq_refl ltac:(vm_compute; reflexivity) eq_refl
              ltac:(vm_compute; discriminate) ltac:(vm_compute; reflexivity))
    as (Hout & _).
  rewrite Hout. vm_compute. reflexivity.
Defined.

End ConfigFacts.

Module MailFacts.
Import Models Views.

(** [_notify_ticket_email] never raises and touches neither the ticket nor
    the group cache.  It sends one e-mail, to the address of the ticket's
    creator, exactly when the address, the subject and the body are all not
    empty; a failure of the sending is logged and goes no further. *)
Lemma notify_ticket_email_contained (env : Env) (subject body : string) (w : World) :
  let out := _notify_ticket_email env subject body w in
  let recipient := email (created_by (w_ticket w)) in
  snd out = Ok tt
  /\ w_ticket (fst out) = w_ticket w
  /\ w_cache (fst out) = w_cache w
  /\ w_effects (fst out)
     = w_effects w
         ++ (if is_empty recipient || is_empty subject || is_empty body then []
             else SendMail recipient subject body
                  :: (if mail_fails env then [LogException "Erro ao enviar e-mail"] else [])).
Proof.
  cbv zeta. unfold _notify_ticket_email, send_ticket_email.
  destruct (is_empty (email (created_by (w_ticket w)))) eqn:Hr; cbn [orb].
  { cbn. now rewrite app_nil_r. }
  destruct (is_empty subject || is_empty body); cbn.
  { now rewrite app_nil_r. }
  destruct (mail_fails env); cbn; rewrite <- ?app_assoc; repeat split.
Qed.

End MailFacts.

Module UsersFacts.
Import Models Views.

Lemma is_ti_set_membership (staff : bool) (grps : gset string) (u : User) :
  _is_ti (set_membership staff grps u) = bool_decide (TI_GROUP_NAME ∈ grps) || staff.
Proof. reflexivity. Qed.

(** X10: A TI user cannot lock themselves out through the user-management view:
    whatever the request, the row of the user who sent it is still in the
    table afterwards and still passes the TI check. *)
Theorem manage_users_keeps_own_access (py_int : string -> option Z) (request : Request)
  (users : gmap nat User) :
  users !! user_pk (user request) = Some (user request) ->
  _is_ti (user request) = true ->
  exists me,
    fst (manage_users py_int request users) !! user_pk (user request) = Some me
    /\ _is_ti me = true
    /\ user_pk me = user_pk (user request).
Proof.
  intros Hme Hti. unfold manage_users, login_required, manage_users_view.
  destruct (is_authenticated (user request)); [|now exists (user request)].
  rewrite Hti. cbn [negb].
  destruct (String.eqb (method request) "POST"); [|now exists (user request)].
  unfold get_object_or_404.
  destruct (POST request !! "user_id") as [key|]; [|now exists (user request)].
  destruct (py_int key) as [number|]; [|now exists (user request)].
  destruct (number <? 0)%Z; [now exists (user request)|].
  generalize (Z.to_nat number). intros pk.
  destruct (users !! pk) as [target|] eqn:Hpk; [|now exists (user request)].
  cbn [fst].
  destruct (bool_decide (POST request !! "action" = Some "reset_password"));
    [now exists (user request)|].
  destruct (bool_decide (POST request !! "action" = Some "grant_ti")).
  { destruct (decide (pk = user_pk (user request))) as [->|Hne].
    - rewrite lookup_insert_eq. eexists. split; [reflexivity|]. split.
      + rewrite is_ti_set_membership. now rewrite orb_true_r.
      + cbn. congruence.
    - rewrite lookup_insert_ne by exact Hne. now exists (user request). }
  destruct (Nat.eqb pk (user_pk (user request))) eqn:Hsame; cbn [negb andb];
    rewrite ?andb_false_r; [now exists (user request)|].
  apply Nat.eqb_neq in Hsame.
  destruct (bool_decide (POST request !! "action" = Some "revoke_ti")); cbn [andb].
  { rewrite lookup_insert_ne by exact Hsame. now exists (user request). }
  destruct (bool_decide (POST request !! "action" = Some "delete_user")); cbn [andb].
  { rewrite lookup_delete_ne by exact Hsame. now exists (user request). }
  now exists (user request).
Qed.

Lemma manage_users_keeps_own_access_witness :
  exists me,
    fst (manage_users Samples.int_of_digits
           (Samples.request_of Samples.bob [("user_id", "2"); ("action", "revoke_ti")])
           {[ 1 := Samples.alice; 2 := Samples.bob ]}) !! 2 = Some me
    /\ _is_ti me = true.
Proof.
  destruct (manage_users_keeps_own_access Samples.int_of_digits
              (Samples.request_of Samples.bob [("user_id", "2"); ("action", "revoke_ti")])
              {[ 1 := Samples.alice; 2 := Samples.bob ]})
    as (me & Hme & Hti & _).
  - vm_compute. reflexivity.
  - vm_compute. reflexivity.
  - exists me. split; [exact Hme|exact Hti].
Defined.

End UsersFacts.

Module ActionFacts.
Import Models Views Spec Stages.

Section Handler.

Variable shorten : string -> nat -> string.
Variables (env : Env) (request : Request) (resolution_form : ResolutionForm).

(** A status update ends by returning or with an exception of the WhatsApp
    client that is no [RequestException]; the ticket is then the staged one
    with the assigned user among its working users. *)
Lemma update_ticket_status_end (new_status : string) (assigned : option User)
  (resolution_text : option string) (extra_payload : gmap string string)
  (performed_by : option User) (w : World) :
  let out := _update_ticket_status shorten env new_status assigned resolution_text
               extra_payload performed_by w in
  w_ticket (fst out) = joined assigned (staged env new_status assigned resolution_text
                                          (w_ticket w))
  /\ (snd out = Ok tt \/ exists e, snd out = Raise e /\ is_RequestException e = false).
Proof.
  cbv zeta. split; [apply StatusFacts.update_ticket_status_ticket|].
  destruct (StatusFacts.update_ticket_status_run shorten env new_status assigned
              resolution_text extra_payload performed_by w)
    as (ev & summary & subject & body & Hrun & _).
  rewrite Hrun. unfold finish.
  destruct (Wapi.send_whatsapp_message _ _ _ _ _) as [[cache calls] [sent|e]];
    [now left|].
  destruct (is_RequestException e) eqn:He; [now left|]. right. now exists e.
Qed.

Lemma handler_reopen (is_ti_user : bool) (w : World) :
  POST request !! "action" = Some "reopen" ->
  _handle_ticket_action shorten env request is_ti_user resolution_form w
  = if String.eqb (status (w_ticket w)) RESOLVED then
      (_update_ticket_status shorten env IN_PROGRESS None None ∅ (Some (user request)) ;;
       ret (Some (Redirect
                    (match POST request !! "next" with
                     | Some u => if is_empty u then reverse_ticket_detail (ticket_pk (w_ticket w))
                                 else u
                     | None => reverse_ticket_detail (ticket_pk (w_ticket w))
                     end)))) w
    else (w, Ok None).
Proof.
  intros Haction. unfold _handle_ticket_action. rewrite Haction.
  cbv [bind get_ticket]. cbn [is_empty String.eqb Ascii.eqb Bool.eqb andb].
  destruct (String.eqb (status (w_ticket w)) RESOLVED); reflexivity.
Qed.

Lemma staged_plain (st : string) (rt : option string) (t : Ticket) :
  st <> RESOLVED ->
  staged env st None rt t = set_resolved_at None (set_status st t).
Proof.
  intros Hne. unfold staged. apply String.eqb_neq in Hne. now rewrite Hne.
Qed.

(** X14: Reopening: the action [reopen] works for whoever reaches the handler, but
    only on a resolved ticket.  It puts the ticket in progress, clears
    [resolved_at] and keeps the resolution text, the owner and the working
    users; when the handler returns, it returns a redirect. *)
Theorem reopen_keeps_resolution (is_ti_user : bool) (w : World) :
  POST request !! "action" = Some "reopen" ->
  let out := _handle_ticket_action shorten env request is_ti_user resolution_form w in
  (status (w_ticket w) <> RESOLVED -> out = (w, Ok None))
  /\ (status (w_ticket w) = RESOLVED ->
      status (w_ticket (fst out)) = IN_PROGRESS
      /\ resolved_at (w_ticket (fst out)) = None
      /\ resolution (w_ticket (fst out)) = resolution (w_ticket w)
      /\ assigned_to (w_ticket (fst out)) = assigned_to (w_ticket w)
      /\ working_users (w_ticket (fst out)) = working_users (w_ticket w)
      /\ forall r, snd out = Ok r -> exists url, r = Some (Redirect url)).
Proof.
  intros Haction. cbv zeta. rewrite (handler_reopen is_ti_user w Haction). split.
  - intros Hne. apply String.eqb_neq in Hne. now rewrite Hne.
  - intros Hres. rewrite Hres, String.eqb_refl. unfold bind, ret.
    destruct (update_ticket_status_end IN_PROGRESS None None ∅ (Some (user request)) w)
      as (Hticket & Hend).
    destruct (_update_ticket_status shorten env IN_PROGRESS None None ∅
                (Some (user request)) w) as [w1 [[]|e]]; cbn [fst snd] in *;
      rewrite Hticket; (rewrite staged_plain by discriminate); cbn;
      repeat (split; [reflexivity|]).
    + intros r [= <-]. eauto.
    + discriminate.
Qed.

(** X13: A requester who is not of the TI team can do one thing through the
    handler: reopen a resolved ticket.  Every other request of theirs leaves
    the ticket, the cache and the effects as they were, and the handler
    returns [None]. *)
Theorem handle_ticket_action_requester (w : World) :
  ~ (POST request !! "action" = Some "reopen" /\ status (w_ticket w) = RESOLVED) ->
  _handle_ticket_action shorten env request false resolution_form w = (w, Ok None).
Proof.
  intros Hnot. unfold _handle_ticket_action.
  destruct (POST request !! "action") as [action|] eqn:Haction; [|reflexivity].
  destruct (is_empty action); [reflexivity|].
  cbv [bind get_ticket]. rewrite !andb_false_r.
  destruct (String.eqb action "reopen") eqn:Hre; [|reflexivity].
  destruct (String.eqb (status (w_ticket w)) RESOLVED) eqn:Hst; [|reflexivity].
  exfalso. apply Hnot. apply String.eqb_eq in Hre, Hst. now subst.
Qed.

(** What the handler refuses: a request without an action, a resolve whose
    form does not validate, and an awaiting without a reason.  The ticket
    and the cache stay as they were and the handler returns [None]; the
    awaiting without a reason leaves one error message for the user. *)
Lemma handle_ticket_action_refusals (is_ti_user : bool) (w : World) :
  let out := _handle_ticket_action shorten env request is_ti_user resolution_form w in
  (POST request !! "action" = None \/ POST request !! "action" = Some "" -> out = (w, Ok None))
  /\ (POST request !! "action" = Some "resolve" -> is_valid resolution_form = false ->
      out = (w, Ok None))
  /\ (POST request !! "action" = Some "awaiting" -> is_ti_user = true ->
      strip (default "" (POST request !! "pause_reason")) = "" ->
      out = (mkWorld (w_ticket w) (w_cache w)
               (w_effects w
                  ++ [FlashMessage "error"
                        "Informe o motivo da pausa antes de marcar o chamado como pendente."]),
             Ok None)).
Proof.
  cbv zeta. unfold _handle_ticket_action. split; [|split].
  - intros [-> | ->]; reflexivity.
  - intros -> Hvalid. cbv [bind get_ticket]. cbn [is_empty String.eqb Ascii.eqb Bool.eqb andb].
    rewrite Hvalid. destruct is_ti_user; [reflexivity|].
    cbn [String.eqb Ascii.eqb Bool.eqb andb].
    now destruct (String.eqb (status (w_ticket w)) RESOLVED).
  - intros -> -> Hblank. cbv [bind get_ticket].
    cbn [is_empty String.eqb Ascii.eqb Bool.eqb andb].
    assert (Hreason : strip match POST request !! "pause_reason" with
                            | Some r => r
                            | None => ""
                            end = "").
    { destruct (POST request !! "pause_reason"); exact Hblank. }
    rewrite Hreason. reflexivity.
Qed.

(** X15: Joining the work on a ticket: when the handler returns, the ticket is in
    progress, the user is among its working users, and the owner is the one
    it had; a ticket without an owner that was not in progress gets the user
    as its owner, one that was in progress stays without. *)
Theorem join_work_adds_user (w w' : World) (r : option HttpResponse) :
  POST request !! "action" = Some "join_work" ->
  _handle_ticket_action shorten env request true resolution_form w = (w', Ok r) ->
  status (w_ticket w') = IN_PROGRESS
  /\ working_users (w_ticket w') !! user_pk (user request) = Some (user request)
  /\ assigned_to (w_ticket w')
     = match assigned_to (w_ticket w) with
       | Some owner => Some owner
       | None => if String.eqb (status (w_ticket w)) IN_PROGRESS then None
                 else Some (user request)
       end
  /\ (exists url, r = Some (Redirect url))
  /\ In (AddWorkingUser (ticket_pk (w_ticket w)) (user_pk (user request))) (w_effects w').
Proof.
  intros Haction. unfold _handle_ticket_action. rewrite Haction.
  cbv [bind get_ticket]. cbn [is_empty String.eqb Ascii.eqb Bool.eqb andb].
  replace (String.eqb (status (w_ticket w)) RESOLVED && false) with false
    by now rewrite andb_false_r.
  unfold when.
  destruct (String.eqb (status (w_ticket w)) IN_PROGRESS) eqn:Hst; cbn [negb].
  - apply String.eqb_eq in Hst. unfold ret at 1.
    unfold _add_working_user. cbv [bind get_ticket ret emit modify_ticket].
    rewrite Hst. cbn [String.eqb Ascii.eqb Bool.eqb w_ticket w_cache w_effects].
    intros [= <- <-]. cbn [w_ticket w_effects add_working_user status working_users
                            assigned_to ticket_pk].
    split; [exact Hst|]. split; [apply lookup_insert_eq|].
    split; [now destruct (assigned_to (w_ticket w))|]. split; [eauto|].
    rewrite !in_app_iff. left. left. right. now left.
  - set (assigned := match assigned_to (w_ticket w) with
                     | Some owner => owner
                     | None => user request
                     end).
    destruct (update_ticket_status_end IN_PROGRESS (Some assigned) None ∅
                (Some (user request)) w) as (Hticket & _).
    destruct (_update_ticket_status shorten env IN_PROGRESS (Some assigned) None ∅
                (Some (user request)) w) as [w1 [[]|e]]; cbn [fst snd] in *; [|discriminate].
    assert (H1 : w_ticket w1
                 = add_working_user assigned
                     (set_resolved_at None
                        (set_assigned_to (Some assigned) (set_status IN_PROGRESS (w_ticket w)))))
      by (rewrite Hticket; reflexivity).
    unfold _add_working_user. cbv [bind get_ticket ret emit modify_ticket].
    rewrite H1. cbn [String.eqb Ascii.eqb Bool.eqb w_ticket w_cache w_effects status
                     add_working_user set_resolved_at set_assigned_to set_status].
    intros [= <- <-]. cbn [w_ticket w_effects add_working_user status working_users
                            assigned_to ticket_pk].
    rewrite H1. cbn [add_working_user set_resolved_at set_assigned_to set_status status
                     working_users assigned_to ticket_pk].
    split; [reflexivity|]. split; [apply lookup_insert_eq|].
    split; [subst assigned; now destruct (assigned_to (w_ticket w))|]. split; [eauto|].
    rewrite !in_app_iff. left. left. right. now left.
Qed.

End Handler.

Lemma reopen_keeps_resolution_witness :
  resolution
    (w_ticket (fst (_handle_ticket_action Samples.keep_text Samples.env_ok
                      (Samples.request_of Samples.alice [("action", "reopen")]) false
                      Samples.no_form (mkWorld Samples.ticket1 Wapi.empty_cache []))))
  = Some "Switch trocado".
Proof.
  refine (proj1 (proj2 (proj2 (proj2 (reopen_keeps_resolution Samples.keep_text Samples.env_ok
            (Samples.request_of Samples.alice [("action", "reopen")]) Samples.no_form false
            (mkWorld Samples.ticket1 Wapi.empty_cache []) _) eq_refl)))).
  vm_compute. reflexivity.
Defined.

Lemma handle_ticket_action_requester_witness :
  _handle_ticket_action Samples.keep_text Samples.env_ok
    (Samples.request_of Samples.alice [("action", "resolve")]) false
    (mkResolutionForm true "Resolvido por mim") Samples.world0
  = (Samples.world0, Ok None).
Proof.
  apply (handle_ticket_action_requester Samples.keep_text Samples.env_ok
           (Samples.request_of Samples.alice [("action", "resolve")])
           (mkResolutionForm true "Resolvido por mim") Samples.world0).
  intros [Haction _]. vm_compute in Haction. discriminate.
Defined.

Lemma join_work_adds_user_witness :
  working_users
    (w_ticket (fst (_handle_ticket_action Samples.keep_text Samples.env_ok
                      (Samples.request_of Samples.bob [("action", "join_work")]) true
                      Samples.no_form Samples.world0))) !! 2
  = Some Samples.bob.
Proof.
  set (run := _handle_ticket_action Samples.keep_text Samples.env_ok
                (Samples.request_of Samples.bob [("action", "join_work")]) true
                Samples.no_form Samples.world0).
  assert (Hrun : run = (fst run, Ok (Some (Redirect "/chamado/7/"))))
    by (vm_compute; reflexivity).
  exact (proj1 (proj2 (join_work_adds_user Samples.keep_text Samples.env_ok
                         (Samples.request_of Samples.bob [("action", "join_work")])
                         Samples.no_form Samples.world0 (fst run) _
                         ltac:(vm_compute; reflexivity) Hrun))).
Defined.

End ActionFacts.

Module GrantFacts.
Import Models Views.

(** X11: What the user-management view does to the user it is pointed at, for a
    POST of a TI user, however the key of that user is written (the field
    reads it with [int]).  Only that user's row can change.  [grant_ti] makes
    the user pass the TI check, as a member of the group and as staff.
    [revoke_ti], on a user other than the sender, takes the group away, and
    the staff flag too unless the user is a superuser; so a superuser who is
    staff passes the TI check after it as before.  [delete_user], on a user
    other than the sender, removes the row. *)
Theorem manage_users_actions (py_int : string -> option Z) (request : Request)
  (users : gmap nat User) (pk : nat) (target : User) :
  is_authenticated (user request) = true ->
  _is_ti (user request) = true ->
  method request = "POST" ->
  get_object_or_404 py_int users (POST request !! "user_id") = Ok (pk, target) ->
  let out := manage_users py_int request users in
  snd out = Ok (Redirect "manage_users")
  /\ (forall k, k <> pk -> fst out !! k = users !! k)
  /\ (POST request !! "action" = Some "grant_ti" ->
      exists row, fst out !! pk = Some row
                  /\ TI_GROUP_NAME ∈ groups row /\ is_staff row = true /\ _is_ti row = true)
  /\ (POST request !! "action" = Some "revoke_ti" -> pk <> user_pk (user request) ->
      exists row, fst out !! pk = Some row
                  /\ (TI_GROUP_NAME ∉ groups row)
                  /\ is_staff row = (is_superuser target && is_staff target)
                  /\ _is_ti row = (is_superuser target && is_staff target))
  /\ (POST request !! "action" = Some "delete_user" -> pk <> user_pk (user request) ->
      fst out !! pk = None).
Proof.
  intros Hauth Hti Hpost Hget. cbv zeta.
  unfold manage_users, login_required, manage_users_view.
  rewrite Hauth, Hti, Hpost, Hget. cbn [negb String.eqb Ascii.eqb Bool.eqb fst snd].
  split; [reflexivity|]. split; [|split; [|split]].
  - intros k Hk.
    repeat match goal with
    | |- context [if ?b then _ else _] => destruct b
    end; rewrite ?lookup_insert_ne, ?lookup_delete_ne by congruence; reflexivity.
  - intros ->. rewrite bool_decide_eq_false_2 by discriminate.
    rewrite bool_decide_eq_true_2 by reflexivity.
    rewrite lookup_insert_eq. eexists. split; [reflexivity|].
    cbn [groups is_staff set_membership].
    split; [apply elem_of_union; left; now apply elem_of_singleton|]. split; [reflexivity|].
    unfold _is_ti. cbn. now rewrite orb_true_r.
  - intros -> Hother. apply Nat.eqb_neq in Hother. rewrite Hother.
    rewrite !bool_decide_eq_false_2 by discriminate.
    rewrite bool_decide_eq_true_2 by reflexivity. cbn [negb andb].
    rewrite lookup_insert_eq. eexists. split; [reflexivity|].
    cbn [groups is_staff set_membership].
    assert (Hout : TI_GROUP_NAME ∉ groups target ∖ {[TI_GROUP_NAME]}).
    { intros Hin. apply elem_of_difference in Hin as [_ Hnot].
      apply Hnot. now apply elem_of_singleton. }
    split; [exact Hout|].
    assert (Hstaff : (if is_superuser target then is_staff target else false)
                     = is_superuser target && is_staff target)
      by now destruct (is_superuser target).
    split; [exact Hstaff|].
    unfold _is_ti. cbn [groups is_staff set_membership].
    rewrite bool_decide_eq_false_2 by exact Hout. exact Hstaff.
  - intros -> Hother. apply Nat.eqb_neq in Hother. rewrite Hother.
    rewrite !bool_decide_eq_false_2 by discriminate.
    rewrite bool_decide_eq_true_2 by reflexivity. cbn [negb andb].
    apply lookup_delete_eq.
Qed.

Lemma manage_users_actions_witness :
  exists row,
    fst (manage_users Samples.int_of_padded
           (Samples.request_of Samples.bob [("user_id", " 1"); ("action", "grant_ti")])
           {[ 1 := Samples.alice; 2 := Samples.bob ]}) !! 1 = Some row
    /\ _is_ti row = true.
Proof.
  destruct (proj1 (proj2 (proj2 (manage_users_actions Samples.int_of_padded
              (Samples.request_of Samples.bob [("user_id", " 1"); ("action", "grant_ti")])
              {[ 1 := Samples.alice; 2 := Samples.bob ]} 1 Samples.alice
              eq_refl ltac:(vm_compute; reflexivity) eq_refl
              ltac:(vm_compute; reflexivity))))
              ltac:(vm_compute; reflexivity))
    as (row & Hrow & _ & _ & Hti).
  exists row. split; [exact Hrow|exact Hti].
Defined.

End GrantFacts.

Module DashboardFacts.
Import Models Views Counting Dashboard.

(** X12: The tickets of a dashboard.  A user who is not of the TI team gets
    exactly the tickets they created, whatever their status; a TI user gets
    exactly the tickets that are not resolved.  The urgency counts are taken
    over these tickets only: each declared urgency holds the number of them
    that have it, and the counts add up to their number. *)
Theorem dashboard_scope (user : User) (tickets : list Ticket) :
  let is_ti_user := fst (_filtered_dashboard_queryset user tickets) in
  let filtered := snd (_filtered_dashboard_queryset user tickets) in
  is_ti_user = _is_ti user
  /\ (forall t, In t filtered
                <-> In t tickets
                    /\ if is_ti_user then status t <> RESOLVED
                       else user_pk (created_by t) = user_pk user)
  /\ (forall key, In key (values TicketUrgency_choices) ->
                  _build_urgency_counts filtered !! key
                  = Some (tickets_with urgency key filtered))
  /\ sum_counts (_build_urgency_counts filtered) = length filtered.
Proof.
  unfold _filtered_dashboard_queryset, _build_urgency_counts. cbn [fst snd]. cbv zeta.
  split; [reflexivity|]. split; [|split].
  - intros t. destruct (_is_ti user); rewrite filter_In.
    + rewrite negb_true_iff, String.eqb_neq. reflexivity.
    + rewrite Nat.eqb_eq. reflexivity.
  - intros key. apply ReportFacts.count_by_lookup.
  - apply ReportFacts.count_by_sum.
Qed.

End DashboardFacts.

Module SearchFacts.
Import Models Views Gated Search Notions.

Lemma build_search_query_blank (texts : list string) :
  _build_search_query texts = [] <-> forall text, In text texts -> strip text = "".
Proof.
  unfold _build_search_query. induction texts as [|text rest IH]; cbn [flat_map].
  - split; [intros _ ? []|reflexivity].
  - destruct (is_empty (strip text)) eqn:Hblank.
    + apply PhoneFacts.is_empty_true in Hblank. cbn [app]. rewrite IH. split.
      * intros Hall x [<-|Hin]; [exact Hblank|now apply Hall].
      * intros Hall x Hin. apply Hall. now right.
    + apply PhoneFacts.is_empty_false in Hblank. split; [discriminate|].
      intros Hall. exfalso. apply Hblank, Hall. now left.
Qed.

Lemma build_search_query_lookups (texts : list string) (field needle : string) :
  In (field, needle) (_build_search_query texts)
  <-> In field ["title"; "description"; "resolution"]
      /\ needle <> "" /\ exists text, In text texts /\ needle = strip text.
Proof.
  unfold _build_search_query. rewrite in_flat_map. split.
  - intros (text & Hin & Hlook).
    destruct (is_empty (strip text)) eqn:Hblank; [destruct Hlook|].
    apply PhoneFacts.is_empty_false in Hblank.
    assert (Hneedle : needle = strip text /\ In field ["title"; "description"; "resolution"]).
    { cbn in Hlook |- *. destruct Hlook as [H|[H|[H|[]]]]; injection H as <- <-; tauto. }
    destruct Hneedle as [-> Hfield]. split; [exact Hfield|]. split; [exact Hblank|].
    now exists text.
  - intros (Hfield & Hne & text & Hin & ->). exists text. split; [exact Hin|].
    apply PhoneFacts.is_empty_false in Hne. rewrite Hne.
    cbn in Hfield |- *. destruct Hfield as [<-|[<-|[<-|[]]]]; tauto.
Qed.

Section Found.

Variable icontains : string -> string -> bool.
Variable order_by : list string -> list Ticket -> list Ticket.

(** The database returns the rows it was asked to order, each once. *)
Hypothesis order_by_permutes : forall fields rows, Permutation (order_by fields rows) rows.

Lemma matches_one_text (text : string) (t : Ticket) :
  strip text <> "" ->
  matches icontains (_build_search_query [text]) t = mentions icontains (strip text) t.
Proof.
  intros Hne. apply PhoneFacts.is_empty_false in Hne.
  unfold _build_search_query, mentions. cbn [flat_map]. rewrite Hne. cbn.
  rewrite orb_false_r. now rewrite orb_assoc.
Qed.

Lemma in_order_by (fields : list string) (rows : list Ticket) (t : Ticket) :
  In t (order_by fields rows) <-> In t rows.
Proof.
  split; apply Permutation_in; [|symmetry]; apply order_by_permutes.
Qed.

(** X21: The page of finished tickets lists exactly the resolved tickets that
    have the query text, stripped of surrounding white space, in their
    title, description or resolution; a query that is empty or white space
    lists every resolved ticket. *)
Theorem finished_tickets_lists_resolved (request : Request) (tickets : list Ticket) :
  _is_ti (user request) = true ->
  exists listed,
    finished_tickets_page icontains order_by request tickets
    = (tickets, Ok (listed, default "" (GET request !! "q")))
    /\ length listed
       = length (List.filter
                   (fun t => String.eqb (status t) RESOLVED
                             && (is_empty (strip (default "" (GET request !! "q")))
                                 || mentions icontains
                                      (strip (default "" (GET request !! "q"))) t))
                   tickets)
    /\ forall t,
         In t listed
         <-> In t tickets /\ status t = RESOLVED
             /\ (strip (default "" (GET request !! "q")) = ""
                 \/ mentions icontains (strip (default "" (GET request !! "q"))) t = true).
Proof.
  intros Hti. unfold finished_tickets_page. rewrite Hti. cbn [negb].
  set (q := default "" (GET request !! "q")).
  eexists. split; [reflexivity|].
  assert (Hfound :
            match _build_search_query [q] with
            | [] => List.filter (fun t => String.eqb (status t) RESOLVED) tickets
            | _ :: _ =>
                filter_query icontains (_build_search_query [q])
                  (List.filter (fun t => String.eqb (status t) RESOLVED) tickets)
            end
            = List.filter
                (fun t => String.eqb (status t) RESOLVED
                          && (is_empty (strip q) || mentions icontains (strip q) t))
                tickets).
  { destruct (is_empty (strip q)) eqn:Hblank.
    - assert (Hq : _build_search_query [q] = []).
      { apply build_search_query_blank. intros text [<-|[]].
        now apply PhoneFacts.is_empty_true. }
      rewrite Hq. apply filter_ext. intros t. now rewrite andb_true_r.
    - apply PhoneFacts.is_empty_false in Hblank.
      destruct (_build_search_query [q]) as [|lookup rest] eqn:Hq.
      { exfalso. apply Hblank. apply (proj1 (build_search_query_blank [q]) Hq). now left. }
      unfold filter_query. rewrite <- Hq.
      induction tickets as [|t rest' IH]; [reflexivity|]. cbn [List.filter].
      destruct (String.eqb (status t) RESOLVED); cbn [andb List.filter]; [|exact IH].
      rewrite (matches_one_text q t Hblank). cbn [orb].
      destruct (mentions icontains (strip q) t); [now rewrite IH|exact IH]. }
  rewrite Hfound. split.
  - apply Permutation_length, order_by_permutes.
  - intros t. rewrite in_order_by, filter_In, andb_true_iff, orb_true_iff.
    rewrite String.eqb_eq. unfold is_empty. rewrite String.eqb_eq. tauto.
Qed.

Lemma firstn_in {A : Type} (n : nat) (l : list A) (x : A) : In x (firstn n l) -> In x l.
Proof.
  revert n. induction l as [|a rest IH]; intros [|n]; cbn; try tauto.
  intros [->|Hin]; [now left|right; now apply (IH n)].
Qed.

(** X22: The suggestions of related tickets.  A ticket that does not exist gives
    a 404 before the permission is looked at.  For a TI user the answer has
    at most six tickets, each resolved and other than the ticket itself;
    with a query they all have the stripped query text in their title,
    description or resolution; and a query of white space alone filters by
    no text at all. *)
Theorem related_tickets_suggestions (pk : nat) (request : Request) (tickets : list Ticket) :
  let out := snd (related_tickets_view icontains order_by pk request tickets) in
  let others ticket :=
    List.filter (fun t => negb (ticket_pk t =? ticket_pk ticket)%nat)
      (List.filter (fun t => String.eqb (status t) RESOLVED) tickets) in
  (List.find (fun t => (ticket_pk t =? pk)%nat) tickets = None -> out = Raise Http404)
  /\ (forall ticket,
        List.find (fun t => (ticket_pk t =? pk)%nat) tickets = Some ticket ->
        _is_ti (user request) = false -> out = Raise PermissionDenied)
  /\ (forall ticket,
        List.find (fun t => (ticket_pk t =? pk)%nat) tickets = Some ticket ->
        _is_ti (user request) = true ->
        exists chosen,
          out = Ok (map suggest chosen)
          /\ length chosen <= 6
          /\ (forall t, In t chosen ->
                        In t tickets /\ status t = RESOLVED /\ ticket_pk t <> pk
                        /\ forall q, GET request !! "q" = Some q -> strip q <> "" ->
                                     mentions icontains (strip q) t = true)
          /\ (forall q, GET request !! "q" = Some q -> q <> "" -> strip q = "" ->
                        length chosen = Nat.min 6 (length (others ticket)))).
Proof.
  cbv zeta. unfold related_tickets_view. split; [intros ->; reflexivity|]. split.
  { intros ticket -> ->. reflexivity. }
  intros ticket Hfind Hti. rewrite Hfind, Hti. cbn [negb snd].
  pose proof (find_some _ _ Hfind) as [_ Hpk]. apply Nat.eqb_eq in Hpk.
  eexists. split; [reflexivity|]. split; [apply firstn_le_length|]. split.
  - intros t Hin. apply firstn_in in Hin. rewrite in_order_by in Hin.
    apply filter_In in Hin as [Hin Hother].
    apply negb_true_iff, Nat.eqb_neq in Hother.
    assert (Hres : In t (List.filter (fun t => String.eqb (status t) RESOLVED) tickets)
                   /\ forall q, GET request !! "q" = Some q -> strip q <> "" ->
                                mentions icontains (strip q) t = true).
    { destruct (GET request !! "q") as [q|] eqn:Hq.
      2:{ split; [|discriminate]. unfold filter_query in Hin.
          destruct (_build_search_query _); [exact Hin|].
          now apply filter_In in Hin. }
      destruct (is_empty q) eqn:Hempty.
      { apply PhoneFacts.is_empty_true in Hempty. subst q. split.
        - unfold filter_query in Hin. destruct (_build_search_query _); [exact Hin|].
          now apply filter_In in Hin.
        - intros q' [= <-] Hne. now contradiction Hne. }
      cbn [app] in Hin. split.
      - unfold filter_query in Hin. destruct (_build_search_query _); [exact Hin|].
        now apply filter_In in Hin.
      - intros q' [= <-] Hne.
        assert (Hidem : strip (strip q) <> "") by now rewrite TextFacts.strip_idempotent.
        unfold filter_query in Hin.
        destruct (_build_search_query [strip q]) as [|lookup rest] eqn:Hquery.
        { exfalso. apply Hidem. apply (proj1 (build_search_query_blank [strip q]) Hquery).
          now left. }
        apply filter_In in Hin as [_ Hmatch]. rewrite <- Hquery in Hmatch.
        rewrite (matches_one_text (strip q) t Hidem) in Hmatch.
        now rewrite TextFacts.strip_idempotent in Hmatch. }
    destruct Hres as [Hres Hq]. apply filter_In in Hres as [Hin' Hst].
    apply String.eqb_eq in Hst. repeat split; try assumption. congruence.
  - intros q Hq Hne Hblank. rewrite Hq.
    apply PhoneFacts.is_empty_false in Hne. rewrite Hne.
    assert (Hquery : _build_search_query [strip q] = []).
    { apply build_search_query_blank. intros text [<-|[]].
      now rewrite TextFacts.strip_idempotent. }
    rewrite Hquery. cbn [filter_query]. rewrite length_firstn.
    now rewrite (Permutation_length (order_by_permutes _ _)).
Qed.

End Found.

Lemma finished_tickets_lists_resolved_witness :
  exists listed,
    finished_tickets_page (fun value needle => contains needle value) (fun _ rows => rows)
      (mkRequest "GET" Samples.bob ∅ {[ "q" := " monitor " ]}) Samples.tickets3
    = (Samples.tickets3, Ok (listed, " monitor "))
    /\ length listed = 1.
Proof.
  destruct (finished_tickets_lists_resolved (fun value needle => contains needle value)
              (fun _ rows => rows) (fun _ rows => Permutation_refl rows)
              (mkRequest "GET" Samples.bob ∅ {[ "q" := " monitor " ]}) Samples.tickets3)
    as (listed & Hpage & Hlen & _).
  - vm_compute. reflexivity.
  - exists listed. split; [exact Hpage|]. rewrite Hlen. vm_compute. reflexivity.
Defined.

Lemma related_tickets_suggestions_witness :
  snd (related_tickets_view (fun value needle => contains needle value) (fun _ rows => rows)
         5 (mkRequest "GET" Samples.alice ∅ ∅) Samples.tickets3)
  = Raise Http404.
Proof.
  apply (proj1 (related_tickets_suggestions (fun value needle => contains needle value)
                  (fun _ rows => rows) (fun _ rows => Permutation_refl rows)
                  5 (mkRequest "GET" Samples.alice ∅ ∅) Samples.tickets3)).
  vm_compute. reflexivity.
Defined.

End SearchFacts.

Module ApiFacts.
Import Wapi Models Views Gated Api Notions.

(** On two strings the client of the endpoints is [send_whatsapp_message]. *)
Lemma send_whatsapp_value_strings (net : Net) (now : Q) (destination message : string)
  (c : GroupCache) :
  send_whatsapp_value net now (JStr destination) (JStr message) c
  = let '(c', calls, r) := send_whatsapp_message net now destination message c in
    (c', map of_http_call calls, r).
Proof.
  unfold send_whatsapp_value, send_whatsapp_message, normalize_destination_value.
  assert (Hdest : (if truthy (JStr destination) then _normalize_destination destination
                   else _normalize_destination "")
                  = _normalize_destination destination).
  { cbn. destruct destination; reflexivity. }
  rewrite Hdest.
  destruct (_normalize_destination destination) as [[to kind]|e]; [|reflexivity].
  destruct (if String.eqb kind "group" then ensure_group_exists net now to c
            else (c, [], Ok tt)) as [[c1 asked] [[]|e]].
  - rewrite map_app, map_map. cbn [map of_http_call].
    assert (Hpost : post_value net (JStr message) = post_message net to message).
    { unfold post_value, post_message. cbn [log_send_fails].
      destruct (net_post net) as [|response]; [reflexivity|].
      destruct (is_http_error response); [reflexivity|].
      destruct (body response) as [result|]; [|reflexivity].
      destruct (_normalize_response result) as [[status message_id]|e]; [|reflexivity].
      destruct (in_success_statuses status); reflexivity. }
    now rewrite Hpost.
  - now rewrite map_map.
Qed.

Lemma no_post_among_gets (asked : list string) (url phone : string) (message : json) :
  ~ In (ApiPost url phone message) (map ApiGet asked).
Proof. intros Hin. apply in_map_iff in Hin as (u & Hu & _). discriminate. Qed.

Lemma normalize_destination_value_error (destination : json) (e : exn) :
  normalize_destination_value destination = Raise e ->
  e = AttributeError \/ exists msg, e = ValueError msg.
Proof.
  unfold normalize_destination_value.
  assert (Hstr : forall s, _normalize_destination s = Raise e -> exists msg, e = ValueError msg).
  { intros s Hs. unfold _normalize_destination in Hs.
    destruct (is_empty (strip s)); [injection Hs as <-; eauto|].
    destruct (endswith _ _); [discriminate|]. destruct (endswith _ _); [discriminate|].
    destruct (is_empty _); [injection Hs as <-; eauto|discriminate]. }
  destruct (truthy destination); [|intros H; right; now apply (Hstr "")].
  destruct destination; try (intros [= <-]; now left).
  intros H. right. now apply (Hstr s).
Qed.

Lemma post_value_error (net : Net) (message : json) (e : exn) :
  post_value net message = Raise e -> forall msg, e <> ValueError msg.
Proof.
  unfold post_value. destruct (net_post net) as [|response]; [intros [= <-]; discriminate|].
  destruct (is_http_error response).
  { destruct (log_send_fails message); intros [= <-]; discriminate. }
  destruct (body response) as [res|]; [|intros [= <-]; discriminate].
  destruct res as [| | | | | |d]; try (intros [= <-]; discriminate). cbn [_normalize_response].
  destruct (in_success_statuses _) as [in_set|e'] eqn:Hin.
  - destruct (log_send_fails message); [intros [= <-]; discriminate|].
    destruct (in_set || truthy _); [discriminate|intros [= <-]; discriminate].
  - unfold in_success_statuses in Hin.
    destruct (py_or _ _); try discriminate Hin; injection Hin as <-; intros [= <-]; discriminate.
Qed.

(** The outcome of the client on JSON values: a [ValueError] of its own
    means that nothing was posted, an exception of the HTTP library that
    the POST was made, and so does a result. *)
Lemma send_whatsapp_value_outcome (net : Net) (now : Q) (destination message : json)
  (c c' : GroupCache) (calls : list api_call) (r : result json) :
  send_whatsapp_value net now destination message c = (c', calls, r) ->
  (forall msg, r = Raise (ValueError msg) ->
               forall url phone text, ~ In (ApiPost url phone text) calls)
  /\ (forall e, r = Raise e -> is_RequestException e = true ->
                exists to asked, calls = map ApiGet asked ++ [ApiPost WAPI_SEND_URL to message])
  /\ (forall result, r = Ok result ->
        log_send_fails message = false
        /\ exists to asked, calls = map ApiGet asked ++ [ApiPost WAPI_SEND_URL to message]).
Proof.
  unfold send_whatsapp_value.
  destruct (normalize_destination_value destination) as [[to kind]|e] eqn:Hnorm.
  2:{ intros [= _ <- <-]. split; [intros msg _ ? ? ? []|]. split; [|discriminate].
      intros e' [= <-] He.
      destruct (normalize_destination_value_error destination e Hnorm) as [->|(msg & ->)];
        discriminate. }
  destruct (if String.eqb kind "group" then ensure_group_exists net now to c
            else (c, [], Ok tt)) as [[c1 asked] [[]|e]] eqn:Hens.
  - intros [= _ <- <-]. split; [|split].
    + intros msg Hpost. now apply post_value_error with (msg := msg) in Hpost.
    + intros e _ _. now exists to, asked.
    + intros result Hpost. split; [|now exists to, asked].
      unfold post_value in Hpost. destruct (net_post net) as [|response]; [discriminate|].
      destruct (is_http_error response).
      { destruct (log_send_fails message); discriminate. }
      destruct (body response) as [res|]; [|discriminate].
      destruct (_normalize_response res) as [[status message_id]|e]; [|discriminate].
      destruct (in_success_statuses status); [|discriminate].
      now destruct (log_send_fails message).
  - intros [= _ <- <-]. split; [|split; [|discriminate]].
    + intros msg _ url phone text. apply no_post_among_gets.
    + intros e' [= <-] He. destruct (String.eqb kind "group"); [|discriminate].
      apply SendFacts.ensure_group_exists_error in Hens. congruence.
Qed.

Lemma post_value_unreadable (net : Net) (message : json) :
  post_value net message = Raise JSONDecodeError ->
  exists response,
    net_post net = Got response /\ is_http_error response = false /\ body response = None.
Proof.
  unfold post_value. destruct (net_post net) as [|response]; [discriminate|].
  destruct (is_http_error response) eqn:Herr.
  { destruct (log_send_fails message); discriminate. }
  destruct (body response) as [res|] eqn:Hbody; [|intros _; now exists response].
  destruct res as [| | | | | |d]; try discriminate. cbn [_normalize_response].
  destruct (in_success_statuses _) as [in_set|e'] eqn:Hin.
  - destruct (log_send_fails message); [discriminate|].
    destruct (in_set || truthy _); discriminate.
  - unfold in_success_statuses in Hin.
    destruct (py_or _ _); try discriminate Hin; injection Hin as <-; discriminate.
Qed.

Lemma send_whatsapp_value_unreadable (net : Net) (now : Q) (destination message : json)
  (c c' : GroupCache) (calls : list api_call) :
  send_whatsapp_value net now destination message c = (c', calls, Raise JSONDecodeError) ->
  exists response,
    net_post net = Got response /\ is_http_error response = false /\ body response = None.
Proof.
  unfold send_whatsapp_value.
  destruct (normalize_destination_value destination) as [[to kind]|e] eqn:Hnorm.
  2:{ intros [= _ _ ->].
      destruct (normalize_destination_value_error destination _ Hnorm) as [|(msg & ?)];
        discriminate. }
  destruct (if String.eqb kind "group" then ensure_group_exists net now to c
            else (c, [], Ok tt)) as [[c1 asked] [[]|e]] eqn:Hens.
  - intros [= _ _ Hpost]. now apply post_value_unreadable in Hpost.
  - intros [= _ _ ->]. destruct (String.eqb kind "group"); [|discriminate].
    apply SendFacts.ensure_group_exists_error in Hens. discriminate.
Qed.

Lemma posted_after (s : Session) (cache : GroupCache) (calls : list api_call) :
  posted_since s (mkSession cache (s_calls s ++ calls))
  <-> exists url phone message, In (ApiPost url phone message) calls.
Proof.
  unfold posted_since. cbn [s_calls]. split.
  - intros (calls' & url & phone & message & Heq & Hin).
    apply app_inv_head in Heq. subst calls'. eauto.
  - intros (url & phone & message & Hin). exists calls, url, phone, message. now split.
Qed.

Lemma not_posted_same (s : Session) : ~ posted_since s s.
Proof.
  intros (calls & url & phone & message & Heq & Hin).
  rewrite <- (app_nil_r (s_calls s)) in Heq at 1. apply app_inv_head in Heq. now subst.
Qed.

Lemma value_error_only (e : exn) :
  is_ValueError e = true -> is_RequestException e = false -> exists msg, e = ValueError msg.
Proof. destruct e; try discriminate; eauto. Qed.

Section Replies.

Variable json_loads : string -> option json.
Variables (env : Env) (body : Body) (request : Request) (s : Session).

(** X23: The WhatsApp endpoints stand behind the same gate as the pages: a
    request that is not authenticated is sent to the login page, a user who
    is not of the TI team is refused, and a request with another method than
    the endpoint's own is answered as not allowed; in each of these cases
    nothing is asked of the service and the cache stays as it was. *)
Theorem whatsapp_endpoints_gate (cache : GroupCache) :
  (is_authenticated (user request) = false ->
   whatsapp_send json_loads env body request s = (s, Ok ToLogin)
   /\ whatsapp_send_ti_chamados json_loads env body request s = (s, Ok ToLogin)
   /\ whatsapp_groups env request s = (s, Ok ToLogin)
   /\ whatsapp_notify_group env request cache = (cache, Ok (Redirect "login")))
  /\ (is_authenticated (user request) = true -> _is_ti (user request) = false ->
      whatsapp_send json_loads env body request s = (s, Raise PermissionDenied)
      /\ whatsapp_send_ti_chamados json_loads env body request s = (s, Raise PermissionDenied)
      /\ whatsapp_groups env request s = (s, Raise PermissionDenied)
      /\ whatsapp_notify_group env request cache = (cache, Raise PermissionDenied))
  /\ (is_authenticated (user request) = true -> _is_ti (user request) = true ->
      (method request <> "POST" ->
       whatsapp_send json_loads env body request s = (s, Ok (Served (NotAllowed ["POST"])))
       /\ whatsapp_send_ti_chamados json_loads env body request s
          = (s, Ok (Served (NotAllowed ["POST"])))
       /\ whatsapp_notify_group env request cache = (cache, Ok HttpResponseNotAllowed))
      /\ (method request <> "GET" ->
          whatsapp_groups env request s = (s, Ok (Served (NotAllowed ["GET"]))))).
Proof.
  unfold whatsapp_send, whatsapp_send_ti_chamados, whatsapp_groups, whatsapp_notify_group,
    login_gate, login_required, whatsapp_send_view, whatsapp_send_ti_chamados_view,
    whatsapp_groups_view, whatsapp_notify_group_view.
  split; [|split].
  - intros ->. repeat split.
  - intros -> ->. repeat split.
  - intros -> ->. cbn [negb]. split.
    + intros Hm. apply String.eqb_neq in Hm. rewrite Hm. repeat split.
    + intros Hm. apply String.eqb_neq in Hm. now rewrite Hm.
Qed.

(** X24: What the status codes of the two sending endpoints say.  The endpoint
    of the TI group answers 400 only when nothing was posted to the service
    and 502 only when the POST was made.  The general endpoint catches
    [ValueError] first, so its 400 also covers a POST that the service
    answered with a body that is no JSON.  Both answer with the result only
    after the POST. *)
Theorem whatsapp_send_status_codes :
  let team := whatsapp_send_ti_chamados_view json_loads env body request s in
  let any := whatsapp_send_view json_loads env body request s in
  (forall code error,
     snd team = Ok (Failure code error) ->
     code = 400 /\ ~ posted_since s (fst team) \/ code = 502 /\ posted_since s (fst team))
  /\ (forall to kind response,
        snd team = Ok (Sent to kind response) -> posted_since s (fst team))
  /\ (forall code error,
        snd any = Ok (Failure code error) ->
        code = 400
        /\ (~ posted_since s (fst any)
            \/ exists response,
                 net_post (net env) = Got response /\ is_http_error response = false
                 /\ Wapi.body response = None)
        \/ code = 502 /\ posted_since s (fst any))
  /\ (forall to kind response,
        snd any = Ok (Sent to kind response) -> posted_since s (fst any)).
Proof.
  cbv zeta. unfold whatsapp_send_ti_chamados_view, whatsapp_send_view.
  destruct (negb (_is_ti (user request))); [repeat split; discriminate|].
  destruct (negb (String.eqb (method request) "POST")); [repeat split; discriminate|].
  destruct (read_payload json_loads body) as [[payload|]|e]; cbn [fst snd].
  3:{ repeat split; discriminate. }
  2:{ pose proof (not_posted_same s) as Hnot.
      repeat split; try discriminate; intros code error [= <- _]; left; tauto. }
  destruct payload as [| | | | | |d]; try (repeat split; discriminate).
  split; [|split; [|split]].
  - destruct (negb (truthy (dict_get "message" d))).
    { intros code error [= <- _]. left. split; [reflexivity|apply not_posted_same]. }
    destruct (send_whatsapp_value (net env) (time_time env) (JStr TI_CHAMADOS_GROUP_JID)
                (dict_get "message" d) (s_cache s)) as [[cache calls] sent] eqn:Hsend.
    destruct (send_whatsapp_value_outcome _ _ _ _ _ _ _ _ Hsend) as (Hvalue & Hrequest & _).
    destruct sent as [result|e]; [discriminate|].
    destruct (is_RequestException e) eqn:Hreq.
    + intros code error [= <- _]. right. split; [reflexivity|]. cbn [fst].
      apply posted_after. destruct (Hrequest e eq_refl Hreq) as (to & asked & ->).
      exists WAPI_SEND_URL, to, (dict_get "message" d). apply in_or_app. right. now left.
    + destruct (is_ValueError e) eqn:Hval; [|discriminate].
      intros code error [= <- _]. left. split; [reflexivity|]. cbn [fst].
      rewrite posted_after. intros (url & phone & message & Hin).
      destruct (value_error_only e Hval Hreq) as (msg & ->).
      now apply (Hvalue msg eq_refl url phone message).
  - destruct (negb (truthy (dict_get "message" d))); [discriminate|].
    destruct (send_whatsapp_value (net env) (time_time env) (JStr TI_CHAMADOS_GROUP_JID)
                (dict_get "message" d) (s_cache s)) as [[cache calls] sent] eqn:Hsend.
    destruct (send_whatsapp_value_outcome _ _ _ _ _ _ _ _ Hsend) as (_ & _ & Hok).
    destruct sent as [result|e].
    + intros to kind response _. cbn [fst]. apply posted_after.
      destruct (Hok result eq_refl) as (_ & to' & asked & ->).
      exists WAPI_SEND_URL, to', (dict_get "message" d). apply in_or_app. right. now left.
    + destruct (is_RequestException e); [discriminate|].
      destruct (is_ValueError e); discriminate.
  - destruct (negb (truthy (dict_get "to" d)) || negb (truthy (dict_get "message" d))).
    { intros code error [= <- _]. left. split; [reflexivity|]. left. apply not_posted_same. }
    destruct (send_whatsapp_value (net env) (time_time env) (dict_get "to" d)
                (dict_get "message" d) (s_cache s)) as [[cache calls] sent] eqn:Hsend.
    destruct (send_whatsapp_value_outcome _ _ _ _ _ _ _ _ Hsend) as (Hvalue & Hrequest & _).
    destruct sent as [result|e]; [destruct (dict_get "to" d); discriminate|].
    destruct (is_ValueError e) eqn:Hval.
    + intros code error [= <- _]. left. split; [reflexivity|]. cbn [fst].
      destruct (is_RequestException e) eqn:Hreq.
      * right. destruct e; try discriminate Hval; try discriminate Hreq.
        now apply (send_whatsapp_value_unreadable _ _ _ _ _ _ _ Hsend).
      * left. rewrite posted_after. intros (url & phone & message & Hin).
        destruct (value_error_only e Hval Hreq) as (msg & ->).
        now apply (Hvalue msg eq_refl url phone message).
    + destruct (is_RequestException e) eqn:Hreq; [|discriminate].
      intros code error [= <- _]. right. split; [reflexivity|]. cbn [fst].
      apply posted_after. destruct (Hrequest e eq_refl Hreq) as (to & asked & ->).
      exists WAPI_SEND_URL, to, (dict_get "message" d). apply in_or_app. right. now left.
  - destruct (negb (truthy (dict_get "to" d)) || negb (truthy (dict_get "message" d)));
      [discriminate|].
    destruct (send_whatsapp_value (net env) (time_time env) (dict_get "to" d)
                (dict_get "message" d) (s_cache s)) as [[cache calls] sent] eqn:Hsend.
    destruct (send_whatsapp_value_outcome _ _ _ _ _ _ _ _ Hsend) as (_ & _ & Hok).
    destruct sent as [result|e].
    + intros to kind response _. cbn [fst].
      assert (Hposted : posted_since s (mkSession cache (s_calls s ++ calls))).
      { apply posted_after. destruct (Hok result eq_refl) as (_ & to' & asked & ->).
        exists WAPI_SEND_URL, to', (dict_get "message" d). apply in_or_app. right. now left. }
      destruct (dict_get "to" d); exact Hposted.
    + destruct (is_ValueError e); [discriminate|].
      destruct (is_RequestException e); discriminate.
Qed.

(** X25: The general endpoint names the kind of the destination in its answer
    by a test of its own, which does not strip the destination as the client
    does.  The two agree on every destination without white space around
    it. *)
Theorem whatsapp_send_reports_type (s' : Session) (to : json) (kind : string)
  (response : json) :
  whatsapp_send_view json_loads env body request s = (s', Ok (Sent to kind response)) ->
  exists destination phone used message,
    to = JStr destination
    /\ kind = _destination_type destination
    /\ _normalize_destination destination = Ok (phone, used)
    /\ In (ApiPost WAPI_SEND_URL phone message) (s_calls s')
    /\ (strip destination = destination -> kind = used).
Proof.
  unfold whatsapp_send_view.
  destruct (negb (_is_ti (user request))); [discriminate|].
  destruct (negb (String.eqb (method request) "POST")); [discriminate|].
  destruct (read_payload json_loads body) as [[payload|]|e]; try discriminate.
  destruct payload as [| | | | | |d]; try discriminate.
  destruct (negb (truthy (dict_get "to" d)) || negb (truthy (dict_get "message" d)));
    [discriminate|].
  destruct (send_whatsapp_value (net env) (time_time env) (dict_get "to" d)
              (dict_get "message" d) (s_cache s)) as [[cache calls] sent] eqn:Hsend.
  destruct sent as [result|e].
  2:{ destruct (is_ValueError e); [discriminate|].
      destruct (is_RequestException e); discriminate. }
  destruct (dict_get "to" d) as [| | | |destination| |] eqn:Hto; try discriminate.
  intros [= <- <- <- <-].
  unfold send_whatsapp_value, normalize_destination_value in Hsend.
  assert (Hdest : (if truthy (JStr destination) then _normalize_destination destination
                   else _normalize_destination "")
                  = _normalize_destination destination).
  { cbn. destruct destination; reflexivity. }
  rewrite Hdest in Hsend.
  destruct (_normalize_destination destination) as [[phone used]|e] eqn:Hnorm;
    [|discriminate].
  exists destination, phone, used, (dict_get "message" d).
  split; [reflexivity|]. split; [reflexivity|]. split; [exact Hnorm|]. split.
  - destruct (if String.eqb used "group" then ensure_group_exists _ _ phone (s_cache s)
              else (s_cache s, [], Ok tt)) as [[c1 asked] [[]|e]]; [|discriminate].
    injection Hsend as _ <- _. cbn [s_calls].
    apply in_or_app. right. apply in_or_app. right. now left.
  - intros Hstrip. unfold _normalize_destination in Hnorm. rewrite Hstrip in Hnorm.
    unfold _destination_type.
    destruct (is_empty destination); [discriminate|]. cbn [negb andb].
    destruct (endswith (lower destination) "@g.us"); [now injection Hnorm as _ <-|].
    destruct (endswith (lower destination) "@c.us"); [now injection Hnorm as _ <-|].
    destruct (is_empty _); [discriminate|]. now injection Hnorm as _ <-.
Qed.

(** X26: A message that is a number, or [true], goes out and is then counted
    as a failure: the log entry of the client takes the length of the
    message.  The general endpoint never answers that such a message was
    sent; and where the destination is a contact and the service accepts the
    POST, the text is posted and the request ends with a [TypeError]. *)
Theorem whatsapp_send_number_message (d : list (string * json)) :
  _is_ti (user request) = true ->
  method request = "POST" ->
  read_payload json_loads body = Ok (Some (JObj d)) ->
  truthy (dict_get "to" d) = true ->
  log_send_fails (dict_get "message" d) = true ->
  let out := whatsapp_send_view json_loads env body request s in
  (forall to kind response, snd out <> Ok (Sent to kind response))
  /\ (forall phone response answer flag,
        normalize_destination_value (dict_get "to" d) = Ok (phone, "contact") ->
        net_post (net env) = Got response ->
        is_http_error response = false ->
        Wapi.body response = Some (JObj answer) ->
        in_success_statuses (py_or (dict_get "status" answer) (dict_get "state" answer))
        = Ok flag ->
        out = (mkSession (s_cache s)
                 (s_calls s ++ [ApiPost WAPI_SEND_URL phone (dict_get "message" d)]),
               Raise TypeError)).
Proof.
  intros Hti Hpost Hread Hto Hlog. cbv zeta. unfold whatsapp_send_view.
  rewrite Hti, Hpost, Hread, Hto. cbn [negb String.eqb Ascii.eqb Bool.eqb orb].
  assert (Hmsg : truthy (dict_get "message" d) = true).
  { unfold log_send_fails in Hlog. now destruct (dict_get "message" d). }
  rewrite Hmsg. cbn [negb]. split.
  - destruct (send_whatsapp_value (net env) (time_time env) (dict_get "to" d)
                (dict_get "message" d) (s_cache s)) as [[cache calls] sent] eqn:Hsend.
    destruct (send_whatsapp_value_outcome _ _ _ _ _ _ _ _ Hsend) as (_ & _ & Hok).
    destruct sent as [result|e].
    + destruct (Hok result eq_refl) as (Hno & _). congruence.
    + intros to kind response. destruct (is_ValueError e); [discriminate|].
      destruct (is_RequestException e); discriminate.
  - intros phone response answer flag Hnorm Hnet Herr Hbody Hstatus.
    unfold send_whatsapp_value, post_value. rewrite Hnorm. cbn [String.eqb Ascii.eqb Bool.eqb].
    rewrite Hnet, Herr, Hbody. cbn [_normalize_response]. rewrite Hstatus, Hlog.
    reflexivity.
Qed.

(** X27: The endpoint of the groups leaves the cache alone and posts nothing.
    It answers with the list of [list_wapi_groups] and with 502 where that
    raises an exception of the HTTP library; a service that cannot be
    reached at all is answered as an empty list. *)
Theorem whatsapp_groups_answers :
  _is_ti (user request) = true ->
  method request = "GET" ->
  let out := whatsapp_groups_view env request s in
  s_cache (fst out) = s_cache s
  /\ s_calls (fst out) = s_calls s ++ map ApiGet (fst (list_wapi_groups (net env)))
  /\ ~ posted_since s (fst out)
  /\ (forall groups,
        snd out = Ok (GroupList groups) <-> snd (list_wapi_groups (net env)) = Ok groups)
  /\ (forall code error,
        snd out = Ok (Failure code error) ->
        code = 502
        /\ exists e, snd (list_wapi_groups (net env)) = Raise e
                     /\ is_RequestException e = true)
  /\ ((forall url, net_get (net env) url = NetworkError) -> snd out = Ok (GroupList [])).
Proof.
  intros Hti Hget. cbv zeta. unfold whatsapp_groups_view.
  rewrite Hti, Hget. cbn [negb String.eqb Ascii.eqb Bool.eqb].
  assert (Hdown : (forall url, net_get (net env) url = NetworkError) ->
                  snd (list_wapi_groups (net env)) = Ok []).
  { intros Hall. unfold list_wapi_groups.
    pose proof (WapiFacts.try_endpoints_response (net env) endpoints None) as Hresp.
    rewrite WapiFacts.keep_response_errors in Hresp by (intros url _; apply Hall).
    destruct (try_endpoints (net env) endpoints None) as [resp asked]. cbn in Hresp.
    now subst resp. }
  destruct (list_wapi_groups (net env)) as [asked [groups|e]]; cbn [fst snd] in *.
  - split; [reflexivity|]. split; [reflexivity|]. split.
    { rewrite posted_after. intros (url & phone & message & Hin).
      now apply no_post_among_gets in Hin. }
    split; [intros groups'; split; intros [= ->]; reflexivity|].
    split; [discriminate|]. intros Hall. injection (Hdown Hall) as ->. reflexivity.
  - assert (Hcalls : ~ posted_since s (mkSession (s_cache s) (s_calls s ++ map ApiGet asked))).
    { rewrite posted_after. intros (url & phone & message & Hin).
      now apply no_post_among_gets in Hin. }
    destruct (is_RequestException e) eqn:Hreq; cbn [fst snd].
    + split; [reflexivity|]. split; [reflexivity|]. split; [exact Hcalls|].
      split; [intros groups; split; discriminate|]. split.
      * intros code error [= <- _]. split; [reflexivity|]. now exists e.
      * intros Hall. specialize (Hdown Hall). discriminate.
    + split; [reflexivity|]. split; [reflexivity|]. split; [exact Hcalls|].
      split; [intros groups; split; discriminate|]. split; [discriminate|].
      intros Hall. specialize (Hdown Hall). discriminate.
Qed.

End Replies.

Lemma whatsapp_send_reports_type_witness :
  exists destination,
    JStr "5514998820134" = JStr destination
    /\ "contact" = _destination_type destination.
Proof.
  destruct (whatsapp_send_reports_type
              (fun _ => Some (JObj [("to", JStr "5514998820134"); ("message", JStr "Oi")]))
              Samples.env_ok (Utf8 "-") (Samples.request_of Samples.bob [])
              (mkSession empty_cache [])
              (mkSession empty_cache [ApiPost WAPI_SEND_URL "5514998820134" (JStr "Oi")])
              (JStr "5514998820134") "contact" (JObj [("status", JStr "success")]))
    as (destination & _ & _ & _ & Hto & Hkind & _).
  - vm_compute. reflexivity.
  - exists destination. split; [exact Hto|exact Hkind].
Defined.

Lemma whatsapp_send_number_message_witness :
  whatsapp_send_view (fun _ => Some (JObj [("to", JStr "5514998820134"); ("message", JNum 5)]))
    Samples.env_ok (Utf8 "-") (Samples.request_of Samples.bob []) (mkSession empty_cache [])
  = (mkSession empty_cache [ApiPost WAPI_SEND_URL "5514998820134" (JNum 5)], Raise TypeError).
Proof.
  refine (proj2 (whatsapp_send_number_message
                   (fun _ => Some (JObj [("to", JStr "5514998820134"); ("message", JNum 5)]))
                   Samples.env_ok (Utf8 "-") (Samples.request_of Samples.bob [])
                   (mkSession empty_cache [])
                   [("to", JStr "5514998820134"); ("message", JNum 5)]
                   _ eq_refl eq_refl eq_refl eq_refl)
            "5514998820134" (mkResponse 200 (Some (JObj [("status", JStr "success")])))
            [("status", JStr "success")] true _ eq_refl eq_refl eq_refl eq_refl).
  - vm_compute. reflexivity.
  - vm_compute. reflexivity.
Defined.

Lemma whatsapp_groups_answers_witness :
  snd (whatsapp_groups_view Samples.env_off (mkRequest "GET" Samples.bob ∅ ∅)
         (mkSession empty_cache []))
  = Ok (GroupList []).
Proof.
  refine (proj2 (proj2 (proj2 (proj2 (proj2
            (whatsapp_groups_answers Samples.env_off (mkRequest "GET" Samples.bob ∅ ∅)
               (mkSession empty_cache []) _ eq_refl))))) _).
  - vm_compute. reflexivity.
  - intros url. reflexivity.
Defined.

End ApiFacts.

Module ListingFacts.
Import Wapi Spec.

Lemma kept_response_source (net : Net) (asked : list string) (resp : option Response)
  (r : Response) :
  fold_left (keep_response net) asked resp = Some r ->
  resp = Some r \/ exists url, In url asked /\ net_get net url = Got r.
Proof.
  revert resp. induction asked as [|url rest IH]; intros resp; cbn; [now left|].
  intros Hfold. destruct (IH _ Hfold) as [Hkept|(u & Hu & Hget)].
  - unfold keep_response in Hkept. destruct (net_get net url) as [|r'] eqn:Hget.
    + now left.
    + injection Hkept as ->. right. exists url. split; [now left|exact Hget].
  - right. exists u. split; [now right|exact Hget].
Qed.

(** X2: The errors of [list_wapi_groups].  An answer with an error status never
    raises: the response is falsy and the list is empty.  The function
    raises only on an answer without an error status, either because its
    body is no JSON or because what stands for the groups in it cannot be
    iterated. *)
Theorem list_wapi_groups_errors (net : Net) :
  (forall r, last_response net (fst (list_wapi_groups net)) = Some r ->
             is_http_error r = true -> snd (list_wapi_groups net) = Ok [])
  /\ (forall e,
        snd (list_wapi_groups net) = Raise e ->
        exists url r,
          In url (fst (list_wapi_groups net)) /\ net_get net url = Got r
          /\ is_http_error r = false
          /\ (e = JSONDecodeError /\ body r = None
              \/ e = TypeError
                 /\ exists payload, body r = Some payload
                                    /\ py_iter (select_groups payload) = None)).
Proof.
  rewrite WapiFacts.list_wapi_groups_asked. unfold last_response.
  rewrite <- (WapiFacts.try_endpoints_response net endpoints None).
  unfold list_wapi_groups.
  destruct (try_endpoints net endpoints None) as [resp asked] eqn:Htry. cbn [fst snd].
  pose proof (WapiFacts.try_endpoints_response net endpoints None) as Hresp.
  rewrite Htry in Hresp. cbn [fst snd] in Hresp.
  split.
  - intros r -> Herr. unfold not_response, ok. now rewrite Herr.
  - intros e. destruct resp as [r|]; [|discriminate].
    unfold not_response, ok. destruct (is_http_error r) eqn:Herr; [discriminate|]. cbn [negb].
    destruct (status_code r =? 404)%Z; [discriminate|].
    symmetry in Hresp. destruct (kept_response_source net asked None r Hresp)
      as [Hnone|(url & Hin & Hget)]; [discriminate|].
    intros Hraise. exists url, r. split; [exact Hin|]. split; [exact Hget|].
    split; [exact Herr|].
    destruct (body r) as [payload|]; [|injection Hraise as <-; now left].
    right. unfold _normalize_groups_payload in Hraise.
    destruct (py_iter (select_groups payload)) eqn:Hiter; [discriminate|].
    injection Hraise as <-. split; [reflexivity|]. now exists payload.
Qed.

Lemma list_wapi_groups_errors_witness :
  snd (list_wapi_groups (mkNet (fun _ => Got (mkResponse 503 None)) NetworkError)) = Ok [].
Proof.
  apply (proj1 (list_wapi_groups_errors
                  (mkNet (fun _ => Got (mkResponse 503 None)) NetworkError))
           (mkResponse 503 None)).
  - vm_compute. reflexivity.
  - reflexivity.
Defined.

End ListingFacts.

Module ConsumerFacts.
Import Models Views Consumers.

#[local] Set Warnings "-clear-no-such-hyp".

Lemma members_group_add (group other channel : string) (layer : gmap string (gset string)) :
  members (group_add group channel layer) other
  = if decide (other = group) then {[channel]} ∪ members layer group else members layer other.
Proof.
  unfold group_add, members. destruct (decide (other = group)) as [->|Hne].
  - now rewrite lookup_insert_eq.
  - rewrite lookup_insert_ne by congruence. reflexivity.
Qed.

Lemma members_group_discard (group other channel : string) (layer : gmap string (gset string)) :
  members (group_discard group channel layer) other
  = if decide (other = group) then members layer group ∖ {[channel]} else members layer other.
Proof.
  unfold group_discard, members.
  destruct (layer !! group) as [channels|] eqn:Hgroup.
  - destruct (decide (other = group)) as [->|Hne].
    + now rewrite lookup_insert_eq.
    + rewrite lookup_insert_ne by congruence. reflexivity.
  - destruct (decide (other = group)) as [->|Hne]; [|reflexivity].
    rewrite Hgroup. cbn. set_solver.
Qed.

Lemma connect_members (user : User) (channel : string) (groups groups' : gmap string (gset string))
  (reply : result socket) :
  connect user channel (Some groups) = (Some groups', reply) ->
  groups' = groups
  \/ members groups' "tickets" = {[channel]} ∪ members groups "tickets"
     /\ (members groups' "ti" = members groups "ti"
         \/ members groups' "ti" = {[channel]} ∪ members groups "ti").
Proof.
  unfold connect. destruct (negb (is_authenticated user)); [intros [= <- _]; now left|].
  destruct (_is_ti_user user); intros [= <- _]; right;
    rewrite ?members_group_add; cbn; split; try reflexivity; [now right|now left].
Qed.

(** X30: The groups of the websocket consumer.  A socket that is not
    authenticated is closed and joins no group.  An authenticated socket
    joins the group that every ticket event is sent to, whoever its user is,
    and the group of the TI team exactly when the user passes the TI check
    of the views.  Disconnecting takes the socket out of both groups.  No
    other socket is touched, and the members of the TI group are always
    among the members of the ticket group. *)
Theorem ticket_consumer_groups :
  (forall user, _is_ti_user user = _is_ti user)
  /\ (forall user channel layer,
        is_authenticated user = false -> connect user channel layer = (layer, Ok Closed))
  /\ (forall user channel,
        is_authenticated user = true ->
        connect user channel None = (None, Raise AttributeError))
  /\ (forall user channel groups,
        is_authenticated user = true ->
        exists groups',
          connect user channel (Some groups) = (Some groups', Ok Accepted)
          /\ channel ∈ members groups' "tickets"
          /\ (channel ∈ members groups' "ti"
              <-> _is_ti user = true \/ channel ∈ members groups "ti")
          /\ forall other group,
               other <> channel ->
               other ∈ members groups' group <-> other ∈ members groups group)
  /\ (forall channel groups,
        exists groups',
          disconnect channel (Some groups) = (Some groups', Ok tt)
          /\ (channel ∉ members groups' "tickets")
          /\ (channel ∉ members groups' "ti")
          /\ forall other group,
               other <> channel ->
               other ∈ members groups' group <-> other ∈ members groups group)
  /\ (forall groups, served groups -> members groups "ti" ⊆ members groups "tickets").
Proof.
  split; [reflexivity|]. split; [intros user channel layer Hauth; unfold connect; now rewrite Hauth|].
  split; [intros user channel Hauth; unfold connect; now rewrite Hauth|].
  split; [|split].
  - intros user channel groups Hauth. unfold connect. rewrite Hauth. cbn [negb].
    change (_is_ti_user user) with (_is_ti user).
    eexists. split; [reflexivity|].
    destruct (_is_ti user); rewrite ?members_group_add; cbn.
    + split; [set_solver|]. split; [split; [now left|set_solver]|].
      intros other group Hother. rewrite !members_group_add.
      destruct (decide (group = "ti")) as [->|Hti]; [set_solver|].
      destruct (decide (group = "tickets")) as [->|Htk]; set_solver.
    + split; [set_solver|]. split; [split; [now right|intros [H|H]; [discriminate|exact H]]|].
      intros other group Hother. rewrite !members_group_add.
      destruct (decide (group = "tickets")) as [->|Htk]; set_solver.
  - intros channel groups. unfold disconnect. eexists. split; [reflexivity|].
    rewrite !members_group_discard. cbn.
    split; [set_solver|]. split; [set_solver|].
    intros other group Hother. rewrite !members_group_discard.
    destruct (decide (group = "ti")) as [->|Hti]; cbn.
    + set_solver.
    + destruct (decide (group = "tickets")) as [->|Htk]; set_solver.
  - intros groups Hserved.
    induction Hserved as [|user channel groups groups' reply _ IH Hconnect
                            |channel groups groups' reply _ IH Hdisconnect].
    + unfold members. rewrite lookup_empty. set_solver.
    + destruct (connect_members _ _ _ _ _ Hconnect) as [->|(Htickets & [Hti|Hti])];
        [exact IH| |]; rewrite Htickets, Hti; set_solver.
    + unfold disconnect in Hdisconnect. injection Hdisconnect as <- _.
      rewrite !members_group_discard. cbn. set_solver.
Qed.

End ConsumerFacts.

Module IdentityFacts.
Import Models Views Stages Notions.

Lemma keeps_ret {A B : Type} (part : Ticket -> A) (b : B) : keeps part (ret b).
Proof. intros w. reflexivity. Qed.

Lemma keeps_emit {A : Type} (part : Ticket -> A) (e : effect) : keeps part (emit e).
Proof. intros w. reflexivity. Qed.

Lemma keeps_bind {A B C : Type} (part : Ticket -> A) (m : M B) (k : B -> M C) :
  keeps part m -> (forall b, keeps part (k b)) -> keeps part (bind m k).
Proof.
  intros Hm Hk w. unfold bind. specialize (Hm w).
  destruct (m w) as [w1 [b|e]]; cbn [fst] in Hm; [|exact Hm].
  now rewrite (Hk b w1).
Qed.

Lemma keeps_when {A : Type} (part : Ticket -> A) (b : bool) (m : M unit) :
  keeps part m -> keeps part (when b m).
Proof. destruct b; [trivial|intros _; apply keeps_ret]. Qed.

Lemma filed_joined_staged (env : Env) (st : string) (assigned : option User)
  (rt : option string) (t : Ticket) :
  filed (joined assigned (staged env st assigned rt t)) = filed t.
Proof.
  unfold joined, staged.
  destruct assigned; destruct (String.eqb st RESOLVED); reflexivity.
Qed.

Lemma keeps_update (shorten : string -> nat -> string) (env : Env) (new_status : string)
  (assigned : option User) (resolution_text : option string)
  (extra_payload : gmap string string) (performed_by : option User) :
  keeps filed
    (_update_ticket_status shorten env new_status assigned resolution_text extra_payload
       performed_by).
Proof.
  intros w. rewrite StatusFacts.update_ticket_status_ticket. apply filed_joined_staged.
Qed.

Lemma keeps_add_working_user (who : User) : keeps filed (_add_working_user who).
Proof.
  intros w. rewrite StatusFacts.add_working_user_run.
  now destruct (String.eqb (status (w_ticket w)) RESOLVED).
Qed.

Lemma handler_keeps_filed (shorten : string -> nat -> string) (env : Env)
  (request : Request) (is_ti_user : bool) (resolution_form : ResolutionForm) :
  keeps filed (_handle_ticket_action shorten env request is_ti_user resolution_form).
Proof.
  unfold _handle_ticket_action.
  destruct (POST request !! "action") as [action|]; [|apply keeps_ret].
  destruct (is_empty action); [apply keeps_ret|].
  apply keeps_bind; [intros w0; reflexivity|]. intros ticket.
  repeat match goal with
  | |- keeps _ (if ?b then _ else _) => destruct b
  | |- keeps _ (bind _ _) => apply keeps_bind; [|intros ?]
  | |- keeps _ (ret _) => apply keeps_ret
  | |- keeps _ (emit _) => apply keeps_emit
  | |- keeps _ (when _ _) => apply keeps_when
  | |- keeps _ (_add_working_user _) => apply keeps_add_working_user
  | |- keeps _ (_update_ticket_status _ _ _ _ _ _ _) => apply keeps_update
  end.
Qed.

(** X16: The ticket-action handler never touches what identifies a ticket or
    what its creator wrote: the primary key, the creator, the title, the
    description, the urgency, the type and the time of creation are after
    every run, returning or raising, what they were before. *)
Theorem handle_ticket_action_keeps_filed (shorten : string -> nat -> string) (env : Env)
  (request : Request) (is_ti_user : bool) (resolution_form : ResolutionForm) (w : World) :
  let t := w_ticket w in
  let t' := w_ticket (fst (_handle_ticket_action shorten env request is_ti_user
                             resolution_form w)) in
  ticket_pk t' = ticket_pk t /\ created_by t' = created_by t
  /\ title t' = title t /\ description t' = description t
  /\ urgency t' = urgency t /\ ticket_type t' = ticket_type t
  /\ created_at t' = created_at t.
Proof.
  cbv zeta.
  pose proof (handler_keeps_filed shorten env request is_ti_user resolution_form w) as Hkeeps.
  unfold filed in Hkeeps.
  injection Hkeeps as -> -> -> -> -> -> ->. repeat split.
Qed.

End IdentityFacts.

Module DetailFacts.
Import Wapi Models Views Stages Notions Detail.

Lemma notify_whatsapp_appends (shorten : string -> nat -> string) (env : Env)
  (label : string) (extra_line : option string) (w : World) :
  exists more,
    w_effects (fst (_notify_whatsapp shorten env label extra_line w)) = w_effects w ++ more
    /\ w_ticket (fst (_notify_whatsapp shorten env label extra_line w)) = w_ticket w.
Proof.
  unfold _notify_whatsapp.
  destruct (send_whatsapp_message _ _ _ _ _) as [[cache calls] [sent|e]]; cbn.
  - eexists. split; reflexivity.
  - destruct (is_RequestException e); cbn.
    + eexists. split; [|reflexivity]. rewrite <- app_assoc. reflexivity.
    + eexists. split; reflexivity.
Qed.

Lemma in_save_core (m : TicketMessage) (effects : list effect) :
  ~ In (SaveMessage m) (map Core effects).
Proof. intros Hin. apply in_map_iff in Hin as (e & He & _). discriminate. Qed.

Section PageFacts.

Variable shorten : string -> nat -> string.
Variables (env : Env) (pk : nat) (resolution_form : ResolutionForm)
  (message_form : TicketMessageForm) (request : Request) (s : State).

(** X19: Who gets to the page of a ticket.  A request that is not authenticated
    is sent to the login page; a ticket that does not exist gives the
    not-found page with status 404, to any user; a user who is neither of
    the TI team nor the creator of the ticket is refused; and in each of
    these cases, as for a request of an allowed user that is no POST,
    nothing is done. *)
Theorem ticket_detail_access :
  let out := ticket_detail shorten env pk resolution_form message_form request s in
  let found := List.find (fun t => (ticket_pk t =? pk)%nat) (d_tickets s) in
  (is_authenticated (user request) = false -> out = (s, Ok (Redirect "login")))
  /\ (is_authenticated (user request) = true -> found = None ->
      out = (s, Ok (Render "ticket_not_found.html" 404)))
  /\ (forall ticket,
        is_authenticated (user request) = true -> found = Some ticket ->
        _is_ti (user request) = false ->
        user_pk (created_by ticket) <> user_pk (user request) ->
        out = (s, Raise PermissionDenied))
  /\ (forall ticket,
        is_authenticated (user request) = true -> found = Some ticket ->
        _is_ti (user request) = true
        \/ user_pk (created_by ticket) = user_pk (user request) ->
        method request <> "POST" ->
        out = (s, Ok (Render "ticket_detail.html" 200))).
Proof.
  cbv zeta. unfold ticket_detail, login_required, ticket_detail_view.
  split; [intros ->; reflexivity|]. split; [intros -> ->; reflexivity|]. split.
  - intros ticket -> -> -> Hother. apply Nat.eqb_neq in Hother. now rewrite Hother.
  - intros ticket -> -> Hallowed Hmethod.
    assert (Hgate : _is_ti (user request)
                    || (user_pk (created_by ticket) =? user_pk (user request))%nat = true).
    { destruct Hallowed as [-> | Hsame]; [reflexivity|].
      apply Nat.eqb_eq in Hsame. rewrite Hsame. apply orb_true_r. }
    rewrite Hgate. cbn [negb]. apply String.eqb_neq in Hmethod. now rewrite Hmethod.
Qed.

(** X20: The messages the page saves.  A message is saved only on a POST with a
    valid message form for which the action handler returned nothing; it
    belongs to the ticket of the page, its author is the user of the
    request, and it is internal only when that user is of the TI team and
    asked for it.  The broadcast to the ticket group carries the text of the
    message, and a TI author's message is mailed to the creator of the
    ticket who has an address, whether the message is internal or not. *)
Theorem ticket_detail_saves_message (s' : State) (r : result HttpResponse) :
  ticket_detail_view shorten env pk resolution_form message_form request s = (s', r) ->
  exists news,
    d_log s' = d_log s ++ news
    /\ forall m,
         In (SaveMessage m) news ->
         method request = "POST"
         /\ message_form_is_valid message_form = true
         /\ msg_ticket m = pk
         /\ msg_author m = user request
         /\ msg_text m = cleaned_text message_form
         /\ msg_is_internal m
            = (_is_ti (user request) && cleaned_internal_note message_form)
         /\ (channel_layer env = true ->
             exists ticket,
               In (MessageSend "tickets" "ticket_message" ticket (_format_user (user request))
                     (msg_text m) (msg_created_at m)) news)
         /\ (_is_ti (user request) = true ->
             forall ticket,
               List.find (fun t => (ticket_pk t =? pk)%nat) (d_tickets s) = Some ticket ->
               email (created_by ticket) <> "" ->
               exists subject body,
                 In (Core (SendMail (email (created_by ticket)) subject body)) news).
Proof.
  unfold ticket_detail_view.
  assert (Hnone : forall out : State * result HttpResponse,
            out = (s', r) ->
            out = (s, snd out) ->
            exists news, d_log s' = d_log s ++ news
                         /\ forall m, In (SaveMessage m) news -> False).
  { intros out Heq Hout. rewrite Hout in Heq. injection Heq as <- _.
    exists []. split; [now rewrite app_nil_r|]. intros m []. }
  destruct (List.find (fun t => (ticket_pk t =? pk)%nat) (d_tickets s)) as [ticket|] eqn:Hfind.
  2:{ intros Heq. destruct (Hnone _ Heq eq_refl) as (news & Hlog & Hno).
      exists news. split; [exact Hlog|]. intros m Hin. destruct (Hno m Hin). }
  destruct (negb (_ || _)).
  { intros Heq. destruct (Hnone _ Heq eq_refl) as (news & Hlog & Hno).
      exists news. split; [exact Hlog|]. intros m Hin. destruct (Hno m Hin). }
  destruct (String.eqb (method request) "POST") eqn:Hpost.
  2:{ intros Heq. destruct (Hnone _ Heq eq_refl) as (news & Hlog & Hno).
      exists news. split; [exact Hlog|]. intros m Hin. destruct (Hno m Hin). }
  apply String.eqb_eq in Hpost.
  pose proof (IdentityFacts.handler_keeps_filed shorten env request (_is_ti (user request))
                resolution_form (mkWorld ticket (d_cache s) [])) as Hfiled.
  destruct (_handle_ticket_action shorten env request (_is_ti (user request)) resolution_form
              (mkWorld ticket (d_cache s) [])) as [w1 handled].
  cbn [fst w_ticket] in Hfiled. unfold filed in Hfiled.
  injection Hfiled as Hpk Hcreator _ _ _ _ _.
  pose proof (find_some _ _ Hfind) as [_ Hkey]. apply Nat.eqb_eq in Hkey.
  assert (Hcore : forall out : State * result HttpResponse,
            out = (s', r) ->
            d_log (fst out) = d_log s ++ map Core (w_effects w1) ->
            exists news, d_log s' = d_log s ++ news
                         /\ forall m, In (SaveMessage m) news -> False).
  { intros out Heq Hout. rewrite Heq in Hout. cbn [fst] in Hout.
    exists (map Core (w_effects w1)). split; [exact Hout|].
    intros m Hin. now apply in_save_core in Hin. }
  destruct handled as [[response|]|e];
    try (intros Heq; destruct (Hcore _ Heq eq_refl) as (news & Hlog & Hno);
         exists news; (split; [exact Hlog|]); intros m Hin; destruct (Hno m Hin)).
  destruct (message_form_is_valid message_form) eqn:Hvalid;
    [|intros Heq; destruct (Hcore _ Heq eq_refl) as (news & Hlog & Hno);
      exists news; (split; [exact Hlog|]); intros m Hin; destruct (Hno m Hin)].
  set (message := mkMessage (ticket_pk (w_ticket w1)) (user request)
                    (cleaned_text message_form)
                    (if _is_ti (user request) then cleaned_internal_note message_form
                     else false)
                    (timezone_now env)).
  set (sent := if channel_layer env
               then [MessageSend "tickets" "ticket_message" (serialize_ticket (w_ticket w1))
                       (_format_user (user request)) (msg_text message)
                       (msg_created_at message)]
               else []).
  set (subject := "[Chamado #" +:+ str_of_nat (ticket_pk (w_ticket w1))
                    +:+ "] Mensagem da TI").
  set (mail_body := join nl ["Mensagem de " +:+ _format_user (user request);
                             shorten (strip (msg_text message)) 400]).
  set (line := Some ("📩 Mensagem de " +:+ _format_user (user request) +:+ ":" +:+ nl
                       +:+ shorten (strip (msg_text message)) 200)).
  set (start := mkWorld (w_ticket w1) (w_cache w1) []).
  assert (Hmail : _is_ti (user request) = true -> email (created_by ticket) <> "" ->
                  exists rest,
                    w_effects (fst ((when (_is_ti (user request))
                                       (_notify_ticket_email env subject mail_body) ;;
                                     _notify_whatsapp shorten env "Nova mensagem no chamado"
                                       line) start))
                    = SendMail (email (created_by ticket)) subject mail_body :: rest).
  { intros Hti Haddress. rewrite Hti. unfold when, bind.
    assert (Hstep : exists tail,
              _notify_ticket_email env subject mail_body start
              = (mkWorld (w_ticket w1) (w_cache w1)
                   (SendMail (email (created_by ticket)) subject mail_body :: tail), Ok tt)).
    { unfold _notify_ticket_email, send_ticket_email. subst start. cbn [w_ticket].
      rewrite Hcreator. apply PhoneFacts.is_empty_false in Haddress. rewrite Haddress.
      subst subject mail_body. rewrite StatusFacts.is_empty_lead, StatusFacts.is_empty_join_lead.
      cbn [orb]. cbv [bind emit]. cbn [w_ticket w_cache w_effects app].
      destruct (mail_fails env); cbn; eexists; reflexivity. }
    destruct Hstep as (tail & ->).
    destruct (notify_whatsapp_appends shorten env "Nova mensagem no chamado" line
                (mkWorld (w_ticket w1) (w_cache w1)
                   (SendMail (email (created_by ticket)) subject mail_body :: tail)))
      as (more & Heff & _).
    destruct (_notify_whatsapp shorten env "Nova mensagem no chamado" line _) as [w2 [u|e]];
      cbn [fst] in *; rewrite Heff; cbn; eexists; reflexivity. }
  destruct ((when (_is_ti (user request)) (_notify_ticket_email env subject mail_body) ;;
             _notify_whatsapp shorten env "Nova mensagem no chamado" line) start)
    as [w2 notified].
  cbn [fst] in Hmail.
  assert (Hfacts : forall news m,
            (forall x, In x (map Core (w_effects w1) ++ [SaveMessage message] ++ sent
                               ++ map Core (w_effects w2)) -> In x news) ->
            m = message ->
            method request = "POST"
            /\ true = true
            /\ msg_ticket m = pk
            /\ msg_author m = user request
            /\ msg_text m = cleaned_text message_form
            /\ msg_is_internal m
               = (_is_ti (user request) && cleaned_internal_note message_form)
            /\ (channel_layer env = true ->
                exists t,
                  In (MessageSend "tickets" "ticket_message" t (_format_user (user request))
                        (msg_text m) (msg_created_at m)) news)
            /\ (_is_ti (user request) = true ->
                forall t, Some ticket = Some t -> email (created_by t) <> "" ->
                          exists sub bod, In (Core (SendMail (email (created_by t)) sub bod))
                                            news)).
  { intros news m Hsub ->. split; [exact Hpost|]. split; [reflexivity|].
    split; [cbn; congruence|]. split; [reflexivity|]. split; [reflexivity|].
    split; [cbn; now destruct (_is_ti (user request))|]. split.
    - intros Hlayer. exists (serialize_ticket (w_ticket w1)). apply Hsub.
      rewrite !in_app_iff. right. right. left.
      subst sent. rewrite Hlayer. now left.
    - intros Hti t [= <-] Haddress. destruct (Hmail Hti Haddress) as (rest & Heff).
      exists subject, mail_body. apply Hsub.
      rewrite !in_app_iff. right. right. right.
      rewrite Heff. now left. }
  assert (Honly : forall m tail,
            (forall x, In x tail -> x <> SaveMessage m) ->
            In (SaveMessage m)
               ((map Core (w_effects w1) ++ [SaveMessage message] ++ sent
                   ++ map Core (w_effects w2)) ++ tail) ->
            m = message).
  { intros m tail Htail Hin. rewrite !in_app_iff in Hin.
    destruct Hin as [[Hin|[Hin|[Hin|Hin]]]|Hin].
    - now apply in_save_core in Hin.
    - destruct Hin as [Heq|[]]. now injection Heq.
    - subst sent. destruct (channel_layer env); [|destruct Hin].
      destruct Hin as [Heq|[]]. discriminate.
    - now apply in_save_core in Hin.
    - now destruct (Htail _ Hin). }
  destruct notified as [u|e]; intros [= <- _]; cbn [d_log].
  - exists ((map Core (w_effects w1) ++ [SaveMessage message] ++ sent
               ++ map Core (w_effects w2))
            ++ map (fun file => CreateAttachment (msg_ticket message) file message)
                 (cleaned_attachments message_form)).
    split; [cbn [app]; rewrite <- !app_assoc; cbn [app]; now rewrite <- ?app_assoc|].
    intros m Hin. apply (Hfacts _ m).
    + intros x Hx. apply in_or_app. now left.
    + apply (Honly m _) in Hin; [exact Hin|].
      intros x Hx. apply in_map_iff in Hx as (file & <- & _). discriminate.
  - exists ((map Core (w_effects w1) ++ [SaveMessage message] ++ sent
               ++ map Core (w_effects w2)) ++ []).
    split; [rewrite app_nil_r; cbn [app]; rewrite <- !app_assoc; cbn [app];
            now rewrite <- ?app_assoc|].
    intros m Hin. apply (Hfacts _ m).
    + intros x Hx. apply in_or_app. now left.
    + apply (Honly m _) in Hin; [exact Hin|]. intros x [].
Qed.

End PageFacts.

Lemma ticket_detail_saves_message_witness :
  exists news subject body,
    d_log (fst (ticket_detail_view Samples.keep_text Samples.env_ok 7 Samples.no_form
                  (mkMessageForm true "Verificando o cabo" true [])
                  (Samples.request_of Samples.bob [])
                  (mkState [Samples.ticket0] empty_cache [])))
    = [] ++ news
    /\ In (Core (SendMail "alice@example.com" subject body)) news.
Proof.
  set (run := ticket_detail_view Samples.keep_text Samples.env_ok 7 Samples.no_form
                (mkMessageForm true "Verificando o cabo" true [])
                (Samples.request_of Samples.bob [])
                (mkState [Samples.ticket0] empty_cache [])).
  destruct (ticket_detail_saves_message Samples.keep_text Samples.env_ok 7 Samples.no_form
              (mkMessageForm true "Verificando o cabo" true [])
              (Samples.request_of Samples.bob [])
              (mkState [Samples.ticket0] empty_cache []) (fst run) (snd run))
    as (news & Hlog & Hmessages).
  { subst run. apply surjective_pairing. }
  destruct (Hmessages (mkMessage 7 Samples.bob "Verificando o cabo" true Samples.noon))
    as (_ & _ & _ & _ & _ & _ & _ & Hmail).
  { cbn [d_log app] in Hlog. rewrite <- Hlog. vm_compute. tauto. }
  destruct (Hmail ltac:(vm_compute; reflexivity) Samples.ticket0 eq_refl
              ltac:(vm_compute; discriminate)) as (subject & body & Hin).
  exists news, subject, body. split; [exact Hlog|exact Hin].
Defined.

End DetailFacts.

Module MonthFacts.
Import Models Views Counting Notions.

Lemma month_leb_total (a b : nat * nat) : month_leb a b = false -> month_leb b a = true.
Proof.
  unfold month_leb. destruct a as [ya ma], b as [yb mb]. cbn [fst snd].
  rewrite orb_false_iff, andb_false_iff, orb_true_iff, andb_true_iff.
  rewrite !Nat.ltb_lt, !Nat.ltb_ge, !Nat.eqb_eq, !Nat.eqb_neq, !Nat.leb_le, Nat.leb_gt. lia.
Qed.

Lemma month_leb_trans (a b c : nat * nat) :
  month_leb a b = true -> month_leb b c = true -> month_leb a c = true.
Proof.
  unfold month_leb. destruct a as [ya ma], b as [yb mb], c as [yc mc]. cbn [fst snd].
  rewrite !orb_true_iff, !andb_true_iff, !Nat.ltb_lt, !Nat.eqb_eq, !Nat.leb_le. lia.
Qed.

Lemma insert_row_permutation (row : (nat * nat) * nat) (rows : list ((nat * nat) * nat)) :
  Permutation (insert_row row rows) (row :: rows).
Proof.
  induction rows as [|r rest IH]; cbn; [reflexivity|].
  destruct (month_leb (fst row) (fst r)); [reflexivity|].
  rewrite IH. apply perm_swap.
Qed.

Lemma order_by_month_permutation (rows : list ((nat * nat) * nat)) :
  Permutation (order_by_month rows) rows.
Proof.
  unfold order_by_month. induction rows as [|r rest IH]; cbn; [reflexivity|].
  rewrite insert_row_permutation. now constructor.
Qed.

Lemma insert_row_sorted (row : (nat * nat) * nat) (rows : list ((nat * nat) * nat)) :
  by_month rows -> by_month (insert_row row rows).
Proof.
  unfold by_month. induction rows as [|r rest IH]; intros Hsorted; cbn.
  - constructor; constructor.
  - apply StronglySorted_inv in Hsorted as [Hrest Hall].
    destruct (month_leb (fst row) (fst r)) eqn:Hle.
    + constructor; [constructor; assumption|].
      constructor; [exact Hle|].
      rewrite List.Forall_forall in Hall |- *. intros x Hx.
      apply (month_leb_trans _ (fst r)); [exact Hle|now apply Hall].
    + constructor; [now apply IH|].
      rewrite List.Forall_forall in Hall |- *. intros x Hx.
      apply (Permutation_in _ (insert_row_permutation row rest)) in Hx.
      destruct Hx as [<-|Hx]; [now apply month_leb_total|now apply Hall].
Qed.

Lemma order_by_month_sorted (rows : list ((nat * nat) * nat)) : by_month (order_by_month rows).
Proof.
  unfold order_by_month. induction rows as [|r rest IH]; cbn.
  - constructor.
  - now apply insert_row_sorted.
Qed.

Lemma rows_total_permutation {K : Type} (a b : list (K * nat)) :
  Permutation a b -> rows_total a = rows_total b.
Proof.
  induction 1 as [|[k n] a b _ IH|[k n] [j m] a|a b c _ IH1 _ IH2]; cbn; lia.
Qed.

Lemma row_of_in {K : Type} `{EqDecision K} (k : K) (n : nat) (rows : list (K * nat)) :
  List.NoDup (map fst rows) -> (row_of k rows = Some n <-> In (k, n) rows).
Proof.
  induction rows as [|[k0 n0] rest IH]; cbn; intros Hnd.
  - split; [discriminate|intros []].
  - apply List.NoDup_cons_iff in Hnd as [Hout Hrest].
    destruct (decide (k = k0)) as [->|Hne].
    + split.
      * intros [= ->]. now left.
      * intros [[= ->]|Hin]; [reflexivity|].
        exfalso. apply Hout. apply in_map_iff. now exists (k0, n).
    + rewrite (IH Hrest). split; [now right|].
      intros [[= <- _]|Hin]; [now contradiction Hne|exact Hin].
Qed.

Lemma row_of_group_count_months (month : nat * nat) (keys : list (nat * nat)) :
  row_of month (group_count keys)
  = let n := length (List.filter (fun x => bool_decide (x = month)) keys) in
    if (n =? 0)%nat then None else Some n.
Proof.
  induction keys as [|k0 rest IH]; cbn; [reflexivity|].
  rewrite ReportFacts.row_of_bump, IH. cbn zeta.
  destruct (decide (month = k0)) as [->|Hne].
  - rewrite bool_decide_eq_true_2 by reflexivity. cbn.
    now destruct (length (List.filter (fun x => bool_decide (x = k0)) rest)).
  - rewrite bool_decide_eq_false_2 by congruence. reflexivity.
Qed.

Lemma count_after_map {A B : Type} (f : A -> B) (p : B -> bool) (l : list A) :
  length (List.filter p (map f l)) = length (List.filter (fun x => p (f x)) l).
Proof.
  induction l as [|x rest IH]; cbn; [reflexivity|].
  destruct (p (f x)); cbn; now rewrite IH.
Qed.

(** X28: The monthly series of a report stands in the order of the months, has
    one row for every month in which a ticket of the queryset was created
    and none for another month, each with the number of those tickets, and
    its counts add up to the total. *)
Theorem monthly_data_ordered (_parse_date : string -> option date) (request : Request)
  (tickets : list Ticket) :
  let queryset := report_queryset _parse_date request tickets in
  let context := report_context _parse_date request tickets in
  by_month (monthly_data context)
  /\ List.NoDup (map fst (monthly_data context))
  /\ (forall month n,
        In (month, n) (monthly_data context)
        <-> n <> 0 /\ n = created_in month queryset)
  /\ rows_total (monthly_data context) = total_tickets context.
Proof.
  intros queryset context. subst context. unfold report_context. cbn zeta.
  fold queryset. cbn [monthly_data total_tickets].
  set (rows := group_count (map (fun t => month_of (created_at t)) queryset)).
  pose proof (order_by_month_permutation rows) as Hperm.
  assert (Hnd : List.NoDup (map fst rows)) by apply ReportFacts.nodup_group_count.
  split; [apply order_by_month_sorted|]. split; [|split].
  - apply (Permutation_NoDup (l := map fst rows)); [|exact Hnd].
    symmetry. now apply Permutation_map.
  - intros month n. split.
    + intros Hin. apply (Permutation_in _ Hperm) in Hin.
      apply (row_of_in month n rows Hnd) in Hin. subst rows.
      rewrite row_of_group_count_months in Hin. cbn zeta in Hin. unfold created_in.
      rewrite count_after_map in Hin.
      destruct (length _ =? 0)%nat eqn:Hzero; [discriminate|].
      injection Hin as <-. apply Nat.eqb_neq in Hzero. now split.
    + intros [Hne ->]. apply (Permutation_in _ (Permutation_sym Hperm)).
      apply (row_of_in month _ rows Hnd). subst rows.
      rewrite row_of_group_count_months. cbn zeta. unfold created_in in *.
      rewrite count_after_map.
      apply Nat.eqb_neq in Hne. now rewrite Hne.
  - rewrite (rows_total_permutation _ _ Hperm). subst rows.
    rewrite ReportFacts.rows_total_group_count. apply length_map.
Qed.

End MonthFacts.

Module FilterFacts.
Import Models Views Filters.

Lemma in_filter_when {A : Type} (skip : bool) (p : A -> bool) (l : list A) (x : A) :
  In x (if skip then l else List.filter p l) <-> In x l /\ (skip = true \/ p x = true).
Proof.
  destruct skip; [|rewrite filter_In]; intuition congruence.
Qed.

Lemma in_filter_date {A : Type} (bound : option date) (p : date -> A -> bool) (l : list A)
  (x : A) :
  In x match bound with Some d => List.filter (p d) l | None => l end
  <-> In x l /\ forall d, bound = Some d -> p d x = true.
Proof.
  destruct bound as [d|]; [rewrite filter_In|]; split.
  - intros [Hin Hp]. split; [exact Hin|]. now intros d' [= <-].
  - intros [Hin Hp]. split; [exact Hin|]. now apply Hp.
  - intros Hin. split; [exact Hin|]. discriminate.
  - now intros [Hin _].
Qed.

(** X29: The filters of a report.  A ticket is in the queryset exactly when it
    has each value that was given for status, urgency and type and was
    created within the dates that [_parse_date] could read; a filter whose
    text is empty, and a date that cannot be read, restrict nothing.  The
    summary of the filters has a line for every text that was given, so it
    names a date also when the date could not be read; and it has no line
    exactly when nothing was given. *)
Theorem report_filters (_parse_date : string -> option date) (request : Request)
  (tickets : list Ticket) :
  (forall t,
     In t (report_queryset _parse_date request tickets)
     <-> In t tickets
         /\ (param request "status" = "" \/ status t = param request "status")
         /\ (param request "urgency" = "" \/ urgency t = param request "urgency")
         /\ (param request "ticket_type" = "" \/ ticket_type t = param request "ticket_type")
         /\ (forall d, _parse_date (param request "from_date") = Some d ->
                       date_leb d (date_of (created_at t)) = true)
         /\ (forall d, _parse_date (param request "to_date") = Some d ->
                       date_leb (date_of (created_at t)) d = true))
  /\ (param request "from_date" <> "" ->
      In ("A partir de " +:+ param request "from_date") (active_filters request))
  /\ (param request "to_date" <> "" ->
      In ("Até " +:+ param request "to_date") (active_filters request))
  /\ (active_filters request = []
      <-> param request "status" = "" /\ param request "urgency" = ""
          /\ param request "ticket_type" = "" /\ param request "from_date" = ""
          /\ param request "to_date" = "")
  /\ (active_filters request = [] -> filters_summary request = "Nenhum filtro aplicado.").
Proof.
  split; [|split; [|split; [|split]]].
  - intros t. unfold report_queryset.
    rewrite (in_filter_date (_parse_date (param request "to_date"))
               (fun d t => date_leb (date_of (created_at t)) d)).
    rewrite (in_filter_date (_parse_date (param request "from_date"))
               (fun d t => date_leb d (date_of (created_at t)))).
    rewrite !in_filter_when. unfold is_empty. rewrite !String.eqb_eq. tauto.
  - intros Hne. unfold active_filters. apply PhoneFacts.is_empty_false in Hne. rewrite Hne.
    rewrite !in_app_iff. right. right. right. left. now left.
  - intros Hne. unfold active_filters. apply PhoneFacts.is_empty_false in Hne. rewrite Hne.
    rewrite !in_app_iff. right. right. right. right. now left.
  - unfold active_filters, is_empty.
    destruct (String.eqb (param request "status") "") eqn:H1;
      destruct (String.eqb (param request "urgency") "") eqn:H2;
      destruct (String.eqb (param request "ticket_type") "") eqn:H3;
      destruct (String.eqb (param request "from_date") "") eqn:H4;
      destruct (String.eqb (param request "to_date") "") eqn:H5;
      rewrite ?String.eqb_eq, ?String.eqb_neq in *; cbn [app];
      (split; [try discriminate; intros _; repeat split; assumption
              |intros (? & ? & ? & ? & ?); try reflexivity; contradiction]).
  - intros Hnone. unfold filters_summary. now rewrite Hnone.
Qed.

End FilterFacts.

Module CreateFacts.
Import Models Views Stages Filing.

(** X17: Filing a ticket.  For an authenticated user with a valid form the
    ticket is saved first, then an attachment is created for every uploaded
    file, then the creation is recorded, and only then anything is sent: the
    new ticket has the status new, the user of the request as its creator,
    no owner and no working user.  The view then answers with the redirect
    to the dashboard, or ends with an exception of the WhatsApp client that
    is no [RequestException].  Without a valid form, or without a login,
    nothing is done. *)
Theorem create_ticket_saves_first (shorten : string -> nat -> string) (env : Env)
  (request : Request) (form : TicketForm) (attachments : list string) (pk : nat) (s : Desk) :
  let out := Filing.create_ticket shorten env form attachments pk request s in
  let ticket := new_ticket form (user request) pk (timezone_now env) in
  (is_authenticated (user request) = true -> form_is_valid form = true ->
   exists event rest,
     f_log (fst out)
     = f_log s
         ++ [Did (SaveTicket ticket)] ++ map (AttachFile pk) attachments
         ++ [Did (CreateEvent event);
             Did (FlashMessage "success"
                    "Chamado registrado! Você será redirecionado ao dashboard.")]
         ++ map Did rest
     /\ ev_type event = EVENT_CREATED /\ ev_ticket event = pk
     /\ ev_performed_by event = Some (user request)
     /\ (snd out = Ok (Redirect "dashboard")
         \/ exists e, snd out = Raise e /\ is_RequestException e = false))
  /\ status ticket = NEW /\ created_by ticket = user request
  /\ assigned_to ticket = None /\ working_users ticket = ∅
  /\ (is_authenticated (user request) = false -> out = (s, Ok (Redirect "login")))
  /\ (is_authenticated (user request) = true -> form_is_valid form = false ->
      out = (s, Ok (Render "ticket_form.html" 200))).
Proof.
  cbv zeta. unfold Filing.create_ticket, login_required, create_ticket_view.
  split; [|split; [reflexivity|split; [reflexivity|split; [reflexivity|split; [reflexivity|]]]]].
  - intros -> ->. unfold broadcast_ticket_event.
    set (ticket := new_ticket form (user request) pk (timezone_now env)).
    destruct (channel_layer env); cbn [negb];
      cbv [bind emit ret get_ticket]; cbn [w_ticket w_cache w_effects app];
      match goal with
      | |- context [_notify_whatsapp shorten env ?label ?line ?start] =>
          destruct (DetailFacts.notify_whatsapp_appends shorten env label line start)
            as (more & Heff & Hticket);
          assert (Hend : snd (_notify_whatsapp shorten env label line start) = Ok tt
                         \/ exists e,
                              snd (_notify_whatsapp shorten env label line start) = Raise e
                              /\ is_RequestException e = false)
            by (unfold _notify_whatsapp;
                destruct (Wapi.send_whatsapp_message _ _ _ _ _) as [[c calls] [sent|e]];
                [now left|];
                destruct (is_RequestException e) eqn:He; [now left|]; right; now exists e);
          destruct (_notify_whatsapp shorten env label line start) as [w [u|e]]
      end;
      cbn [fst snd w_effects w_ticket f_log] in *;
      eexists; exists (skipn 2 (w_effects w));
      (split; [rewrite Heff, <- ?app_assoc; cbn [skipn app map]; reflexivity|]);
      repeat (split; [reflexivity|]);
      first [ now left
            | right; destruct Hend as [Hok|(e' & [= <-] & He')]; [discriminate|];
              now exists e ].
  - split; [now intros ->|]. now intros -> ->.
Qed.

End CreateFacts.

Module ResponsibleFacts.
Import Models Views Stages.

Lemma working_names_listed (t : Ticket) :
  working_users t <> ∅ ->
  get_working_user_names t
  = map (fun kv => _format_user (snd kv)) (map_to_list (working_users t)).
Proof.
  intros Hne. unfold get_working_user_names.
  destruct (map_to_list (working_users t)) as [|kv rest] eqn:Hlist; [|reflexivity].
  apply map_to_list_empty_iff in Hlist. contradiction.
Qed.

Lemma working_user_named (t : Ticket) (u : User) :
  working_users t !! user_pk u = Some u -> In (_format_user u) (get_working_user_names t).
Proof.
  intros Hu. rewrite working_names_listed.
  - apply in_map_iff. exists (user_pk u, u). split; [reflexivity|].
    apply list_elem_of_In. now apply elem_of_map_to_list.
  - intros Hempty. rewrite Hempty, lookup_empty in Hu. discriminate.
Qed.

(** The names of the people responsible for a ticket.  Every working user
    is named, and as long as there is one the names are theirs alone: the
    owner is named only when the ticket has no working user, and then only
    with a name that is not empty.  The serialised ticket carries these
    names, and the dash where there is none. *)
Lemma working_user_names (t : Ticket) :
  (forall u, working_users t !! user_pk u = Some u ->
             In (_format_user u) (get_working_user_names t))
  /\ (working_users t <> ∅ ->
      length (get_working_user_names t) = size (working_users t))
  /\ (working_users t = ∅ ->
      get_working_user_names t
      = match assigned_to t with
        | Some owner => if is_empty (_format_user owner) then [] else [_format_user owner]
        | None => []
        end)
  /\ s_responsibles (serialize_ticket t) = get_working_user_names t
  /\ (get_working_user_names t = [] -> s_responsibles_display (serialize_ticket t) = "—")
  /\ (forall name, get_working_user_names t = [name] ->
                   s_responsibles_display (serialize_ticket t) = name).
Proof.
  split; [intros u; apply working_user_named|]. split; [|split; [|split; [reflexivity|split]]].
  - intros Hne. rewrite (working_names_listed t Hne), length_map.
    apply length_map_to_list.
  - intros Hempty. unfold get_working_user_names. rewrite Hempty, map_to_list_empty.
    reflexivity.
  - intros Hnone. unfold serialize_ticket. cbn. now rewrite Hnone.
  - intros name Hone. unfold serialize_ticket. cbn. now rewrite Hone.
Qed.

(** X18: The broadcast of a status change shows the ticket as the update leaves
    it: with the new status, and, where the update names an assigned user,
    with that user as the owner and among the responsible people. *)
Theorem update_ticket_status_broadcasts_owner (shorten : string -> nat -> string) (env : Env)
  (new_status : string) (a : User) (resolution_text : option string)
  (extra_payload : gmap string string) (performed_by : option User) (w : World) :
  channel_layer env = true ->
  exists sent payload,
    In (GroupSend "tickets" "ticket_status_changed" sent payload)
       (w_effects (fst (_update_ticket_status shorten env new_status (Some a) resolution_text
                          extra_payload performed_by w)))
    /\ sent = serialize_ticket
                (w_ticket (fst (_update_ticket_status shorten env new_status (Some a)
                                  resolution_text extra_payload performed_by w)))
    /\ s_status_code sent = new_status
    /\ s_assigned_to sent = Some (_format_user a)
    /\ In (_format_user a) (s_responsibles sent).
Proof.
  intros Hlayer.
  pose proof (StatusFacts.update_ticket_status_ticket shorten env new_status (Some a)
                resolution_text extra_payload performed_by w) as Hticket.
  destruct (StatusFacts.update_ticket_status_run shorten env new_status (Some a)
              resolution_text extra_payload performed_by w)
    as (ev & summary & subject & body & Hrun & _).
  set (saved := staged env new_status (Some a) resolution_text (w_ticket w)) in *.
  destruct (StatusFacts.recorded_broadcast env new_status (Some a) extra_payload saved ev)
    as (_ & Hsend & _).
  specialize (Hsend Hlayer).
  exists (serialize_ticket (joined (Some a) saved)), (Some (extra_payload ∪ {["status" := new_status]})).
  split.
  - rewrite Hrun. unfold finish.
    destruct (Wapi.send_whatsapp_message _ _ _ _ _) as [[cache calls] [answer|e]];
      [|destruct (is_RequestException e)]; cbn [fst w_effects];
      rewrite !in_app_iff; tauto.
  - split; [now rewrite Hticket|].
    assert (Hstatus : status (joined (Some a) saved) = new_status).
    { destruct (StatusFacts.joined_fields (Some a) saved) as (-> & _).
      apply StatusFacts.staged_status. }
    assert (Howner : assigned_to (joined (Some a) saved) = Some a).
    { destruct (StatusFacts.joined_fields (Some a) saved) as (_ & _ & _ & -> & _).
      subst saved. unfold staged. now destruct (String.eqb new_status RESOLVED). }
    split; [exact Hstatus|].
    split; [unfold serialize_ticket; cbn [s_assigned_to]; now rewrite Howner|].
    unfold serialize_ticket. cbn [s_responsibles]. apply working_user_named.
    cbn [joined add_working_user working_users]. apply lookup_insert_eq.
Qed.

Lemma update_ticket_status_broadcasts_owner_witness :
  exists sent payload,
    In (GroupSend "tickets" "ticket_status_changed" sent payload)
       (w_effects (fst Samples.run_taken))
    /\ s_assigned_to sent = Some "Bob Lima"
    /\ In "Bob Lima" (s_responsibles sent).
Proof.
  destruct (update_ticket_status_broadcasts_owner Samples.keep_text Samples.env_ok IN_PROGRESS
              Samples.bob None ∅ (Some Samples.bob) Samples.world0 eq_refl)
    as (sent & payload & Hin & _ & _ & Howner & Hnamed).
  exists sent, payload. split; [exact Hin|]. split; [exact Howner|exact Hnamed].
Defined.

End ResponsibleFacts.
